(** * n8n-nodes-homebridge: the authenticated API-request pipeline

    A shallow embedding of [reference/GenericFunctions.ts] (credential
    resolution, token resolution, login, request dispatch, retry with
    exponential backoff, error normalisation, batch execution and
    pagination) and of the [preSend] hook [addAuthToRequest] of the node
    description, together with the properties the specification states
    about them.

    JavaScript values are a small inductive type; a promise is a state
    transformer over the outside world (the HTTP transport and the timer)
    that either resolves to a value or rejects with an error; every HTTP
    request and every timer delay is recorded in a trace. *)

From Stdlib Require Import String Ascii List ZArith Bool Arith Lia DecimalString.
From Equations Require Import Equations.
Import ListNotations.

Set Warnings "-register-all".

Local Open Scope string_scope.
Local Open Scope Z_scope.

(** ** JavaScript values *)

(** Numbers are the integer-valued ones (status codes, lengths, limits). *)
Inductive JsValue : Type :=
| JUndefined
| JNull
| JBool (b : bool)
| JNum (n : Z)
| JStr (s : string)
| JArr (xs : list JsValue)
| JObj (fields : list (string * JsValue)).

(** [IDataObject]: a plain object, kept as an association list. *)
Definition IDataObject : Type := list (string * JsValue).

(** Truthiness, as used by [if (x)], [!x], [x || y] and [x && y]. *)
Definition truthy (v : JsValue) : bool :=
  match v with
  | JUndefined | JNull => false
  | JBool b => b
  | JNum n => negb (n =? 0)
  | JStr s => negb (s =? EmptyString)%string
  | JArr _ | JObj _ => true
  end.

(** [a || b] *)
Definition js_or (a b : JsValue) : JsValue := if truthy a then a else b.

Definition nullish (v : JsValue) : bool :=
  match v with
  | JUndefined | JNull => true
  | _ => false
  end.

Fixpoint lookup (k : string) (o : IDataObject) : JsValue :=
  match o with
  | [] => JUndefined
  | (k', v) :: o' => if (k =? k')%string then v else lookup k o'
  end.

(** [v.k] for a value that is not null or undefined, and for the property
    names this code reads (none of them is a built-in property of a string,
    number, boolean or array). *)
Definition get_field (v : JsValue) (k : string) : JsValue :=
  match v with
  | JObj o => lookup k o
  | _ => JUndefined
  end.

(** [v?.k] *)
Definition get_field_opt (v : JsValue) (k : string) : JsValue :=
  if nullish v then JUndefined else get_field v k.

(** [{ ...o, k: v }] *)
Fixpoint set_field (k : string) (v : JsValue) (o : IDataObject) : IDataObject :=
  match o with
  | [] => [(k, v)]
  | (k', v') :: o' =>
      if (k =? k')%string then (k, v) :: o' else (k', v') :: set_field k v o'
  end.

(** Strict equality with a number: [v === n]. *)
Definition strict_eq_num (v : JsValue) (n : Z) : bool :=
  match v with
  | JNum m => m =? n
  | _ => false
  end.

(** [codes.includes(v)] for an array of numbers. *)
Definition includes (codes : list Z) (v : JsValue) : bool :=
  existsb (strict_eq_num v) codes.

Definition isArray (v : JsValue) : bool :=
  match v with
  | JArr _ => true
  | _ => false
  end.

Definition string_of_Z (n : Z) : string := NilZero.string_of_int (Z.to_int n).

Fixpoint join (sep : string) (parts : list string) : string :=
  match parts with
  | [] => EmptyString
  | [p] => p
  | p :: ps => p ++ sep ++ join sep ps
  end.

(** String conversion, as done by a template literal, by [+] with a string
    and by [toString()]. *)
Fixpoint js_to_string (v : JsValue) : string :=
  match v with
  | JUndefined => "undefined"
  | JNull => "null"
  | JBool true => "true"
  | JBool false => "false"
  | JNum n => string_of_Z n
  | JStr s => s
  | JArr xs =>
      join "," (map (fun x => if nullish x then EmptyString else js_to_string x) xs)
  | JObj _ => "[object Object]"
  end.

(** ** Strings *)

Definition clamp_index (len i : Z) : Z :=
  if i <? 0 then Z.max (len + i) 0 else Z.min i len.

(** [s.slice(start, end)] *)
Definition slice (s : string) (start end_ : Z) : string :=
  let len := Z.of_nat (String.length s) in
  let from := clamp_index len start in
  let to := clamp_index len end_ in
  substring (Z.to_nat from) (Z.to_nat (Z.max (to - from) 0)) s.

(** [s.endsWith(suffix)] *)
Definition endsWith (s suffix : string) : bool :=
  let n := String.length s in
  let m := String.length suffix in
  (m <=? n)%nat && (substring (n - m) m s =? suffix)%string.

(** [s.startsWith(p)] *)
Definition startsWith (s p : string) : bool := prefix p s.

(** ** Requests, errors and promises *)

Inductive IHttpRequestMethods : Type :=
| DELETE | GET | HEAD | PATCH | POST | PUT.

Definition method_name (m : IHttpRequestMethods) : string :=
  match m with
  | DELETE => "DELETE"
  | GET => "GET"
  | HEAD => "HEAD"
  | PATCH => "PATCH"
  | POST => "POST"
  | PUT => "PUT"
  end.

Record IHttpRequestOptions : Type := {
  method : IHttpRequestMethods;
  url : string;
  headers : list (string * string);
  body : option IDataObject;
  qs : option IDataObject;
  returnFullResponse : bool;
  ignoreHttpStatusErrors : bool
}.

(** What a [catch] clause can receive.  [HttpError] is the rejection of
    [this.helpers.httpRequest], an error object with the fields the code
    inspects ([statusCode], [response], [message], [error]); [TypeError] is
    what reading a property of [undefined] or [null] throws, [ErrorObject]
    is [new Error(message)], and the last two are the host's error classes.  The second
    argument of [new NodeApiError(node, x)] is either an object literal or
    the error just caught. *)
Inductive JsError : Type :=
| HttpError (fields : IDataObject)
| TypeError (message : string)
| ErrorObject (message : string)
| NodeOperationError (message : string) (itemIndex : option nat)
| NodeApiError (errorResponse : JsonObject)
with JsonObject : Type :=
| ObjectLiteral (fields : IDataObject)
| CaughtError (error : JsError).

(** A settled promise. *)
Inductive Outcome (A : Type) : Type :=
| Resolved (a : A)
| Rejected (e : JsError).
Arguments Resolved {A} a.
Arguments Rejected {A} e.

(** What the outside world observes. *)
Inductive Event : Type :=
| Request (options : IHttpRequestOptions)
| Delay (ms : Z).

Definition requests (t : list Event) : list IHttpRequestOptions :=
  flat_map (fun ev => match ev with Request o => [o] | Delay _ => [] end) t.

Definition delays (t : list Event) : list Z :=
  flat_map (fun ev => match ev with Request _ => [] | Delay ms => [ms] end) t.

(** ** Credentials and the execution context *)

(** The stored credential, with the fields of [HomebridgeApi.credentials.ts]
    (all of type string, default the empty string). *)
Record ICredentialData : Type := {
  cred_serverUrl : string;
  cred_username : string;
  cred_password : string;
  cred_otp : option string
}.

Record IHomebridgeCredentials : Type := {
  serverUrl : string;
  username : string;
  password : string;
  otp : option string
}.

Record INodeExecutionData : Type := { json : JsValue }.

(** The part of [this] the pipeline reads. *)
Record IExecuteFunctions : Type := {
  getCredentials_homebridgeApi : option ICredentialData;
  getNodeParameter : string -> nat -> JsValue;
  getInputData : option (list INodeExecutionData)
}.

Definition is_empty (s : string) : bool := (s =? EmptyString)%string.

(** The [serverUrl] normalisation of [getCredentials]. *)
Definition normalizeServerUrl (serverUrl : string) : string :=
  if endsWith serverUrl "/" then slice serverUrl 0 (-1) else serverUrl.

Definition getCredentials (this : IExecuteFunctions)
  : Outcome IHomebridgeCredentials :=
  match getCredentials_homebridgeApi this with
  | None =>
      Rejected (NodeOperationError
        "No Homebridge credentials found. Please configure credentials first."
        None)
  | Some credentials =>
      if is_empty (cred_serverUrl credentials) then
        Rejected (NodeOperationError
          "Server URL is required in Homebridge credentials." None)
      else if is_empty (cred_username credentials) then
        Rejected (NodeOperationError
          "Username is required in Homebridge credentials." None)
      else if is_empty (cred_password credentials) then
        Rejected (NodeOperationError
          "Password is required in Homebridge credentials." None)
      else
        Resolved {| serverUrl := normalizeServerUrl (cred_serverUrl credentials);
                    username := cred_username credentials;
                    password := cred_password credentials;
                    otp := cred_otp credentials |}
  end.

(** ** Token resolution *)

Definition dquote : string := String "034"%char EmptyString.
Definition newline : string := String "010"%char EmptyString.

(** The message of the engine's [TypeError] for [v.prop] with [v] null or
    undefined. *)
Definition cannot_read (v : JsValue) (prop : string) : JsError :=
  TypeError ("Cannot read properties of " ++ js_to_string v
             ++ " (reading '" ++ prop ++ "')").

Definition no_access_token_message : string :=
  "No access token available. Please either:" ++ newline ++
  "1. Connect a Login node to this node, or" ++ newline ++
  "2. Manually enter the access token in the " ++ dquote ++ "Access Token"
  ++ dquote ++ " field.".

(** The check of one input item shared by [getAccessToken] and
    [addAuthToRequest]: [json.access_token] when truthy, else the
    [access_token] of the first element when [json] is a non-empty array. *)
Definition token_in_json (j : JsValue) : option JsValue :=
  if truthy (get_field j "access_token") then
    Some (get_field j "access_token")
  else
    match j with
    | JArr (firstItem :: _) =>
        if truthy firstItem && truthy (get_field firstItem "access_token")
        then Some (get_field firstItem "access_token")
        else None
    | _ => None
    end.

Definition getAccessToken (this : IExecuteFunctions) (itemIndex : nat)
  : Outcome JsValue :=
  let accessToken := getNodeParameter this "accessToken" itemIndex in
  if truthy accessToken then Resolved accessToken
  else
    let no_token :=
      Rejected (NodeOperationError no_access_token_message (Some itemIndex)) in
    match getInputData this with
    | Some ((_ :: _) as items) =>
        match nth_error items itemIndex with
        | None => Rejected (cannot_read JUndefined "json")
        | Some item =>
            if nullish (json item) then
              Rejected (cannot_read (json item) "access_token")
            else
              match token_in_json (json item) with
              | Some token => Resolved token
              | None => no_token
              end
        end
    | _ => no_token
    end.

(** The [for (const item of items)] loop of [addAuthToRequest]; [JNull] is
    the initial value of its [accessToken] variable. *)
Fixpoint scan_items (items : list INodeExecutionData) : JsValue :=
  match items with
  | [] => JNull
  | item :: rest =>
      if truthy (json item) then
        match token_in_json (json item) with
        | Some token => token
        | None => scan_items rest
        end
      else scan_items rest
  end.

Definition add_auth_message : string :=
  "No access token available. Please either: 1) Connect the Login node to "
  ++ "this node, or 2) Manually enter the access token in the " ++ dquote
  ++ "Access Token" ++ dquote ++ " field.".

(** [s.includes(sub)] on strings *)
Definition includes_string (s sub : string) : bool :=
  match index 0 sub s with
  | Some _ => true
  | None => false
  end.

Fixpoint set_header (k v : string) (h : list (string * string))
  : list (string * string) :=
  match h with
  | [] => [(k, v)]
  | (k', v') :: h' =>
      if (k =? k')%string then (k, v) :: h' else (k', v') :: set_header k v h'
  end.

Fixpoint header (k : string) (h : list (string * string)) : option string :=
  match h with
  | [] => None
  | (k', v) :: h' => if (k =? k')%string then Some v else header k h'
  end.

(** The token chosen by the non-login branch of [addAuthToRequest]. *)
Definition addAuthToRequest_token (this : IExecuteFunctions)
  : Outcome JsValue :=
  let accessToken :=
    match getInputData this with
    | Some ((_ :: _) as items) => scan_items items
    | _ => JNull
    end in
  if negb (truthy accessToken) then
    let userToken := getNodeParameter this "accessToken" 0%nat in
    if truthy userToken then Resolved userToken
    else Rejected (ErrorObject add_auth_message)
  else Resolved accessToken.

(** The [preSend] hook of the node description. *)
Definition addAuthToRequest (this : IExecuteFunctions)
    (requestOptions : IHttpRequestOptions) : Outcome IHttpRequestOptions :=
  if includes_string (url requestOptions) "/api/auth/login" then
    match getCredentials_homebridgeApi this with
    | None =>
        Rejected (ErrorObject
          "Homebridge credentials are required for login operation")
    | Some credentials =>
        let p := fun name => getNodeParameter this name 0%nat in
        Resolved {|
          method := method requestOptions;
          url := url requestOptions;
          headers := headers requestOptions;
          body := Some (List.app
            [("username", js_or (p "additionalFields.username")
                                (JStr (cred_username credentials)));
             ("password", js_or (p "additionalFields.password")
                                (JStr (cred_password credentials)))]
            (if truthy (p "additionalFields.otp")
                then [("otp", p "additionalFields.otp")] else []));
          qs := qs requestOptions;
          returnFullResponse := returnFullResponse requestOptions;
          ignoreHttpStatusErrors := ignoreHttpStatusErrors requestOptions |}
    end
  else
    match addAuthToRequest_token this with
    | Rejected e => Rejected e
    | Resolved accessToken =>
        Resolved {|
          method := method requestOptions;
          url := url requestOptions;
          headers := set_header "Authorization"
                       ("Bearer " ++ js_to_string accessToken)
                       (headers requestOptions);
          body := body requestOptions;
          qs := qs requestOptions;
          returnFullResponse := returnFullResponse requestOptions;
          ignoreHttpStatusErrors := ignoreHttpStatusErrors requestOptions |}
    end.

(** Matching on a value while remembering the equation, for the guards of
    recursive calls. *)
Definition inspect {A : Type} (x : A) : { y : A | x = y } :=
  exist _ x eq_refl.

(** ** Constants *)

Definition MAX_RETRIES : nat := 3.
Definition RETRY_DELAY : Z := 1000.
Definition RETRY_STATUS_CODES : list Z := [429; 500; 502; 503; 504].

(** ** Data transformation and validation helpers *)

Definition string_of_nat (n : nat) : string := string_of_Z (Z.of_nat n).

(** The properties of an array, one per index. *)
Definition indexed (xs : list JsValue) : IDataObject :=
  combine (map string_of_nat (seq 0 (List.length xs))) xs.

(** The own enumerable properties of a value, which [{ ...v }] copies: the
    fields of an object, the elements of an array by index, the characters
    of a string by index, and nothing for the other values. *)
Definition own_properties (v : JsValue) : IDataObject :=
  match v with
  | JObj o => o
  | JArr xs => indexed xs
  | JStr s =>
      indexed (map (fun c => JStr (String c EmptyString))
                 (list_ascii_of_string s))
  | _ => []
  end.

(** [delete o[k]] *)
Definition delete_field (k : string) (o : IDataObject) : IDataObject :=
  filter (fun kv => negb (k =? fst kv)%string) o.

Definition fieldsToRemove : list string :=
  ["__v"; "_id"; "updatedAt"; "createdAt"].

(** The entries that no [delete] removes. *)
Definition kept (kv : string * JsValue) : bool :=
  negb (existsb (String.eqb (fst kv)) fieldsToRemove).

Definition simplifyOutputItem (item : JsValue) : IDataObject :=
  let simplified := own_properties item in
  fold_left (fun simplified field => delete_field field simplified)
    fieldsToRemove simplified.

Definition simplifyOutput (data : JsValue) : JsValue :=
  match data with
  | JArr xs => JArr (map (fun item => JObj (simplifyOutputItem item)) xs)
  | _ => JObj (simplifyOutputItem data)
  end.

(** [value === undefined || value === null || value === ''] *)
Definition is_missing (value : JsValue) : bool :=
  match value with
  | JUndefined | JNull => true
  | JStr s => is_empty s
  | _ => false
  end.

Definition missing_parameter_message (key : string) : string :=
  "Required parameter " ++ dquote ++ key ++ dquote ++ " is missing or empty.".

(** The entries of [parameters] are visited in property order. *)
Fixpoint validateRequiredParameters (parameters : IDataObject)
    (itemIndex : nat) : Outcome unit :=
  match parameters with
  | [] => Resolved tt
  | (key, value) :: rest =>
      if is_missing value then
        Rejected (NodeOperationError (missing_parameter_message key)
                    (Some itemIndex))
      else validateRequiredParameters rest itemIndex
  end.

(** [isValidUuid]: the pattern
    [/^[0-9a-f]{8}-[0-9a-f]{4}-[0-9a-f]{4}-[0-9a-f]{4}-[0-9a-f]{12}$/i] is a
    sequence of runs of an exact length over one character class and of
    single hyphens, anchored at both ends. *)
Inductive PatternItem : Type :=
| HexRun (n : nat)
| Hyphen.

(** [[0-9a-f]] under the flag [i]. *)
Definition is_hex_digit (c : ascii) : bool :=
  let n := nat_of_ascii c in
  ((48 <=? n)%nat && (n <=? 57)%nat)
  || ((97 <=? n)%nat && (n <=? 102)%nat)
  || ((65 <=? n)%nat && (n <=? 70)%nat).

(** Consumes exactly [n] hexadecimal digits. *)
Fixpoint hex_run (n : nat) (s : string) : option string :=
  match n with
  | O => Some s
  | S n' =>
      match s with
      | String c s' => if is_hex_digit c then hex_run n' s' else None
      | EmptyString => None
      end
  end.

Definition match_item (item : PatternItem) (s : string) : option string :=
  match item with
  | HexRun n => hex_run n s
  | Hyphen =>
      match s with
      | String c s' => if (c =? "-")%char then Some s' else None
      | EmptyString => None
      end
  end.

(** Matches the items in sequence; the end of the pattern is the end of the
    string. *)
Fixpoint match_items (items : list PatternItem) (s : string) : bool :=
  match items with
  | [] => is_empty s
  | item :: items' =>
      match match_item item s with
      | Some rest => match_items items' rest
      | None => false
      end
  end.

(** The strings an item of the pattern stands for. *)
Definition all_hex (a : string) : Prop :=
  forallb is_hex_digit (list_ascii_of_string a) = true.

Definition item_matches (item : PatternItem) (a : string) : Prop :=
  match item with
  | HexRun n => String.length a = n /\ all_hex a
  | Hyphen => a = "-"
  end.

Definition uuidRegex : list PatternItem :=
  [HexRun 8; Hyphen; HexRun 4; Hyphen; HexRun 4; Hyphen; HexRun 4; Hyphen;
   HexRun 12].

Definition isValidUuid (uuid : string) : bool := match_items uuidRegex uuid.

(** [Object.keys(parameters).filter(key => parameters[key].required === true)];
    reading [required] of a schema that is null or undefined throws. *)
Fixpoint required_keys (keys : list string) (parameters : IDataObject)
  : Outcome (list string) :=
  match keys with
  | [] => Resolved []
  | key :: keys' =>
      let schema := lookup key parameters in
      if nullish schema then Rejected (cannot_read schema "required")
      else
        match required_keys keys' parameters with
        | Rejected e => Rejected e
        | Resolved required =>
            match get_field schema "required" with
            | JBool true => Resolved (key :: required)
            | _ => Resolved required
            end
        end
  end.

(** [schema.required === true] *)
Definition is_required (schema : JsValue) : bool :=
  match get_field schema "required" with
  | JBool true => true
  | _ => false
  end.

(** The part shown for a field of a duration: nothing unless positive. *)
Definition shown (n : Z) (unit_name : string) : list string :=
  if n >? 0 then [string_of_Z n ++ unit_name] else [].

Definition generateMcpToolDefinition (resource operation description : string)
    (parameters : IDataObject) : Outcome IDataObject :=
  match required_keys (map fst parameters) parameters with
  | Rejected e => Rejected e
  | Resolved required =>
      Resolved
        [("name", JStr ("homebridge_" ++ resource ++ "_" ++ operation));
         ("description", JStr ("Homebridge: " ++ description));
         ("inputSchema",
          JObj [("type", JStr "object");
                ("properties", JObj parameters);
                ("required", JArr (map JStr required))])]
  end.

(** The four numbers of [formatDuration], for a whole number of seconds:
    [%] is the remainder with the sign of the dividend and [Math.floor]
    rounds down.  The code computes on doubles: the quotients are exact for
    inputs below [2 ^ 53] in absolute value, the remainders for every whole
    input, and a whole number is printed with all its digits below
    [10 ^ 21]; the model is the code on that range. *)
Definition duration_days (seconds : Z) : Z := seconds / 86400.
Definition duration_hours (seconds : Z) : Z := Z.rem seconds 86400 / 3600.
Definition duration_minutes (seconds : Z) : Z := Z.rem seconds 3600 / 60.
Definition duration_secs (seconds : Z) : Z := Z.rem seconds 60.

Definition formatDuration (seconds : Z) : string :=
  let days := duration_days seconds in
  let hours := duration_hours seconds in
  let minutes := duration_minutes seconds in
  let secs := duration_secs seconds in
  let parts := [] in
  let parts :=
    if days >? 0 then List.app parts [string_of_Z days ++ "d"] else parts in
  let parts :=
    if hours >? 0 then List.app parts [string_of_Z hours ++ "h"] else parts in
  let parts :=
    if minutes >? 0 then List.app parts [string_of_Z minutes ++ "m"]
    else parts in
  let parts :=
    if (secs >? 0) || (List.length parts =? 0)%nat
    then List.app parts [string_of_Z secs ++ "s"] else parts in
  join " " parts.

(** ** A scripted transport

    The world is the list of outcomes still to be served; each request
    consumes one, and an exhausted script refuses the connection. *)

Definition Script : Type := list (Outcome JsValue).

Definition connection_refused : JsError :=
  HttpError [("message", JStr "connect ECONNREFUSED")].

Definition replay (_ : IHttpRequestOptions) (w : Script)
  : Outcome JsValue * Script :=
  match w with
  | [] => (Rejected connection_refused, [])
  | r :: w' => (r, w')
  end.

Definition no_timer (_ : Z) (w : Script) : Script := w.

(** A page of [n] items. *)
Definition page_of (n : nat) : JsValue := JArr (repeat (JObj []) n).

(** An HTTP failure carrying only a status code. *)
Definition http_status (code : Z) : JsError :=
  HttpError [("statusCode", JNum code)].

(** A host for the examples: its [NodeApiError] takes its [message] from
    the object it is given, or from the error it wraps.  The class of
    n8n-workflow is not among the sources and chooses its message in its
    own way; the theorems hold for every host, through the section variable
    [NodeApiError_message], and only closed examples use this one. *)
Fixpoint host_message (x : JsonObject) : JsValue :=
  match x with
  | ObjectLiteral fields => lookup "message" fields
  | CaughtError (HttpError fields) => lookup "message" fields
  | CaughtError (TypeError m) => JStr m
  | CaughtError (ErrorObject m) => JStr m
  | CaughtError (NodeOperationError m _) => JStr m
  | CaughtError (NodeApiError y) => host_message y
  end.

Definition stored_credentials : ICredentialData :=
  {| cred_serverUrl := "http://host:8581/";
     cred_username := "admin";
     cred_password := "secret";
     cred_otp := None |}.

Definition resolved_credentials : IHomebridgeCredentials :=
  {| serverUrl := "http://host:8581";
     username := "admin";
     password := "secret";
     otp := None |}.

(** An execution whose only input item is the output of a Login node and
    whose Access Token field is filled in by hand as well. *)
Definition chained_context : IExecuteFunctions :=
  {| getCredentials_homebridgeApi := Some stored_credentials;
     getNodeParameter := fun name _ =>
       if (name =? "accessToken")%string then JStr "manual-token"
       else JUndefined;
     getInputData := Some [ {| json := JObj [("access_token", JStr "tok123")] |} ] |}.

(** An execution after a Login node, with the Access Token field left
    empty. *)
Definition login_context : IExecuteFunctions :=
  {| getCredentials_homebridgeApi := Some stored_credentials;
     getNodeParameter := fun _ _ => JStr EmptyString;
     getInputData := Some [ {| json := JObj [("access_token", JStr "abc")] |} ] |}.

(** An execution with no token anywhere. *)
Definition tokenless_context : IExecuteFunctions :=
  {| getCredentials_homebridgeApi := Some stored_credentials;
     getNodeParameter := fun _ _ => JStr EmptyString;
     getInputData := Some [ {| json := JObj [("name", JStr "lamp")] |} ] |}.

(** An execution with a hand-written token and no input items. *)
Definition manual_context : IExecuteFunctions :=
  {| getCredentials_homebridgeApi := Some stored_credentials;
     getNodeParameter := fun name _ =>
       if (name =? "accessToken")%string then JStr "tok123" else JUndefined;
     getInputData := Some [] |}.

Definition list_accessories : IHttpRequestOptions :=
  {| method := GET;
     url := "/api/accessories";
     headers := [("Accept", "application/json")];
     body := None;
     qs := None;
     returnFullResponse := false;
     ignoreHttpStatusErrors := false |}.

(** ** Error categories of the specification *)

Inductive ErrorCategory : Type :=
| BadRequest | Unauthorized | Forbidden | NotFound | ValidationError
| RateLimited | ServerError | Unknown.

(** The category of a message, by the table of the specification: each
    listed category has its own fixed message, anything else is Unknown. *)
Definition category_of_message (message : JsValue) : ErrorCategory :=
  match message with
  | JStr m =>
      if (m =? "Bad Request")%string then BadRequest
      else if (m =? "Unauthorized")%string then Unauthorized
      else if (m =? "Forbidden")%string then Forbidden
      else if (m =? "Not Found")%string then NotFound
      else if (m =? "Validation Error")%string then ValidationError
      else if (m =? "Rate Limit Exceeded")%string then RateLimited
      else if (m =? "Server Error")%string then ServerError
      else Unknown
  | _ => Unknown
  end.

(** The object a [NodeApiError] was built from. *)
Definition payload (e : JsError) : IDataObject :=
  match e with
  | NodeApiError (ObjectLiteral fields) => fields
  | _ => []
  end.

Definition category (e : JsError) : ErrorCategory :=
  category_of_message (lookup "message" (payload e)).

(** The status codes with a row of their own in the table. *)
Definition listed_status_codes : list Z :=
  [400; 401; 403; 404; 422; 429; 500; 502; 503; 504].

(** ** The node: resources and output items *)

(** The table [RESOURCES] of [constants.ts], one name per resource. *)
Record Resources : Type := {
  ACCESSORIES : string;
  AUTH : string;
  BACKUP : string;
  CONFIG : string;
  PLATFORM : string;
  PLUGINS : string;
  SERVER : string;
  SETUP : string;
  STATUS : string;
  USERS : string
}.

(** An item of the node's output: [{ json, pairedItem: { item } }]. *)
Record ExecutionData : Type := {
  data_json : IDataObject;
  pairedItem : nat
}.

(** Strict equality with a string: [v === s]. *)
Definition strict_eq_string (v : JsValue) (s : string) : bool :=
  match v with
  | JStr t => (t =? s)%string
  | _ => false
  end.

Definition text_value (t : option string) : JsValue :=
  match t with
  | Some s => JStr s
  | None => JUndefined
  end.

(** [_metadata.success] of an output item. *)
Definition metadata_success (d : ExecutionData) : JsValue :=
  get_field (lookup "_metadata" (data_json d)) "success".

(** ** Further example data *)

(** An execution without stored credentials. *)
Definition no_credentials_context : IExecuteFunctions :=
  {| getCredentials_homebridgeApi := None;
     getNodeParameter := fun name _ =>
       if (name =? "accessToken")%string then JStr "tok123" else JUndefined;
     getInputData := Some [] |}.

(** Two input items for the operation [getCPU] of the resource [status],
    and for an operation the node does not know. *)
Definition status_context : IExecuteFunctions :=
  {| getCredentials_homebridgeApi := Some stored_credentials;
     getNodeParameter := fun name _ =>
       if (name =? "accessToken")%string then JStr "tok123"
       else if (name =? "resource")%string then JStr "status"
       else if (name =? "operation")%string then JStr "getCPU"
       else JUndefined;
     getInputData := Some [ {| json := JObj [] |}; {| json := JObj [] |} ] |}.

(** The same with three input items. *)
Definition three_items_context : IExecuteFunctions :=
  {| getCredentials_homebridgeApi := Some stored_credentials;
     getNodeParameter := fun name _ =>
       if (name =? "accessToken")%string then JStr "tok123"
       else if (name =? "resource")%string then JStr "status"
       else if (name =? "operation")%string then JStr "getCPU"
       else JUndefined;
     getInputData :=
       Some [ {| json := JObj [] |}; {| json := JObj [] |};
              {| json := JObj [] |} ] |}.

Definition reboot_context : IExecuteFunctions :=
  {| getCredentials_homebridgeApi := Some stored_credentials;
     getNodeParameter := fun name _ =>
       if (name =? "accessToken")%string then JStr "tok123"
       else if (name =? "resource")%string then JStr "server"
       else if (name =? "operation")%string then JStr "reboot"
       else JUndefined;
     getInputData := Some [ {| json := JObj [] |} ] |}.

(** The resource names of [HomebridgeResource]. *)
Definition resource_names : Resources :=
  {| ACCESSORIES := "accessories"; AUTH := "auth"; BACKUP := "backup";
     CONFIG := "config"; PLATFORM := "platform"; PLUGINS := "plugins";
     SERVER := "server"; SETUP := "setup"; STATUS := "status";
     USERS := "users" |}.

Definition parse_nothing (_ : string) : option IDataObject := None.
Definition encode_plain (text : string) : string := text.
Definition midnight (_ : Script) : string := "2026-01-01T00:00:00.000Z".

(** A transport without state that answers every request with a full
    page. *)
Definition always_full (_ : IHttpRequestOptions) (w : unit)
  : Outcome JsValue * unit := (Resolved (page_of 100), w).

Definition no_clock (_ : Z) (w : unit) : unit := w.

(** ** The pipeline over an arbitrary transport *)

Section Pipeline.

(** The outside world: the transport behind [this.helpers.httpRequest],
    the timer behind [setTimeout], and the [message] property the host
    gives to [new NodeApiError(node, x)]. *)
Variable World : Type.
Variable httpRequest :
  IHttpRequestOptions -> World -> Outcome JsValue * World.
Variable setTimeout : Z -> World -> World.
Variable NodeApiError_message : JsonObject -> JsValue.

Record State : Type := { world : World; trace : list Event }.

(** An [async] computation. *)
Definition Promise (A : Type) : Type := State -> Outcome A * State.

Definition resolve {A} (a : A) : Promise A := fun s => (Resolved a, s).
Definition reject {A} (e : JsError) : Promise A := fun s => (Rejected e, s).
Definition settled {A} (r : Outcome A) : Promise A := fun s => (r, s).

(** [const x = await p; k x] *)
Definition await {A B} (p : Promise A) (k : A -> Promise B) : Promise B :=
  fun s =>
    match p s with
    | (Resolved a, s') => k a s'
    | (Rejected e, s') => (Rejected e, s')
    end.

(** [try { p } catch (error) { handler error }] *)
Definition try_catch {A} (p : Promise A) (handler : JsError -> Promise A)
  : Promise A :=
  fun s =>
    match p s with
    | (Resolved a, s') => (Resolved a, s')
    | (Rejected e, s') => handler e s'
    end.

Notation "x <- p ;; k" := (await p (fun x => k))
  (at level 61, p at next level, right associativity).

(** [this.helpers.httpRequest(options)] *)
Definition helpers_httpRequest (options : IHttpRequestOptions)
  : Promise JsValue :=
  fun s =>
    let (r, w) := httpRequest options (world s) in
    (r, {| world := w; trace := List.app (trace s) [Request options] |}).

(** [new Promise(resolve => setTimeout(resolve, ms))] *)
Definition sleep (ms : Z) : Promise unit :=
  fun s =>
    (Resolved tt,
     {| world := setTimeout ms (world s);
        trace := List.app (trace s) [Delay ms] |}).

(** [error.k] on a caught error.  The host's error classes are read only
    for [message] and [statusCode]; they define no [statusCode]. *)
Definition error_get (error : JsError) (k : string) : JsValue :=
  match error with
  | HttpError fields => lookup k fields
  | TypeError m | ErrorObject m | NodeOperationError m _ =>
      if (k =? "message")%string then JStr m else JUndefined
  | NodeApiError x =>
      if (k =? "message")%string then NodeApiError_message x else JUndefined
  end.

(** [error.statusCode || error.response?.statusCode] *)
Definition resolved_status (error : JsError) : JsValue :=
  js_or (error_get error "statusCode")
        (get_field_opt (error_get error "response") "statusCode").

Definition json_headers : list (string * string) :=
  [("Accept", "application/json"); ("Content-Type", "application/json")].

Definition login_options (credentials : IHomebridgeCredentials)
    (otp : option string) : IHttpRequestOptions :=
  {| method := POST;
     url := serverUrl credentials ++ "/api/auth/login";
     headers := json_headers;
     body := Some (List.app
       [("username", JStr (username credentials));
        ("password", JStr (password credentials))]
       (match otp with
        | Some code => if is_empty code then [] else [("otp", JStr code)]
        | None => []
        end));
     qs := None;
     returnFullResponse := false;
     ignoreHttpStatusErrors := false |}.

Definition no_token_received : JsError :=
  NodeApiError (ObjectLiteral
    [("message", JStr "Login successful but no access token received");
     ("description",
      JStr "The Homebridge API did not return an access token.")]).

Definition authentication_failed : JsError :=
  NodeApiError (ObjectLiteral
    [("message", JStr "Authentication failed");
     ("description",
      JStr ("Invalid username, password, or 2FA code. "
            ++ "Please check your credentials."))]).

Definition authenticate (credentials : IHomebridgeCredentials)
    (otp : option string) : Promise JsValue :=
  try_catch
    (response <- helpers_httpRequest (login_options credentials otp) ;;
     if nullish response then
       reject (cannot_read response "access_token")
     else if negb (truthy (get_field response "access_token")) then
       reject no_token_received
     else resolve (get_field response "access_token"))
    (fun error =>
       if strict_eq_num (error_get error "statusCode") 401 then
         reject authentication_failed
       else reject (NodeApiError (CaughtError error))).

(** [authenticate] as [execute] calls it.  The parameter is declared a
    string, but [execute] hands over [additionalFields.otp || credentials.otp]
    as it is, whatever its type, and [...(otp && { otp })] puts any truthy
    value into the body unchanged. *)
Definition login_options_untyped (credentials : IHomebridgeCredentials)
    (otp : JsValue) : IHttpRequestOptions :=
  {| method := POST;
     url := serverUrl credentials ++ "/api/auth/login";
     headers := json_headers;
     body := Some (List.app
       [("username", JStr (username credentials));
        ("password", JStr (password credentials))]
       (if truthy otp then [("otp", otp)] else []));
     qs := None;
     returnFullResponse := false;
     ignoreHttpStatusErrors := false |}.

Definition authenticate_untyped (credentials : IHomebridgeCredentials)
    (otp : JsValue) : Promise JsValue :=
  try_catch
    (response <- helpers_httpRequest (login_options_untyped credentials otp) ;;
     if nullish response then
       reject (cannot_read response "access_token")
     else if negb (truthy (get_field response "access_token")) then
       reject no_token_received
     else resolve (get_field response "access_token"))
    (fun error =>
       if strict_eq_num (error_get error "statusCode") 401 then
         reject authentication_failed
       else reject (NodeApiError (CaughtError error))).

(** The recursion is on [retryCount], which grows towards [MAX_RETRIES]. *)
Equations? homebridgeApiRequestWithRetry (options : IHttpRequestOptions)
    (retryCount : nat) (s : State) : Outcome JsValue * State
    by wf (MAX_RETRIES - retryCount)%nat lt :=
  homebridgeApiRequestWithRetry options retryCount s with
    helpers_httpRequest options s := {
    | (Resolved response, s1) => (Resolved response, s1)
    | (Rejected error, s1) with
        inspect (includes RETRY_STATUS_CODES (resolved_status error)
                 && (retryCount <? MAX_RETRIES)%nat) := {
        | exist _ true retry =>
            let delay := RETRY_DELAY * 2 ^ Z.of_nat retryCount in
            homebridgeApiRequestWithRetry options (retryCount + 1)%nat
              (snd (sleep delay s1))
        | exist _ false _ => (Rejected error, s1) } }.
Proof.
  apply andb_prop in retry. destruct retry as [_ Hlt].
  apply Nat.ltb_lt in Hlt. unfold MAX_RETRIES in Hlt. clear delay.
  destruct retryCount as [|[|[|n]]]; cbn; lia.
Qed.

(** The [switch (statusCode)] of [handleApiError]: message and
    description for a status, given the defaults. *)
Definition status_texts (statusCode : JsValue) (errorBody : JsValue)
    (message : string) (description : JsValue) : string * JsValue :=
  if strict_eq_num statusCode 400 then
    ("Bad Request",
     JStr "The request was invalid. Please check your parameters.")
  else if strict_eq_num statusCode 401 then
    ("Unauthorized",
     JStr "Access token is invalid or expired. Please authenticate again.")
  else if strict_eq_num statusCode 403 then
    ("Forbidden",
     JStr "You do not have permission to perform this action.")
  else if strict_eq_num statusCode 404 then
    ("Not Found", JStr "The requested resource was not found.")
  else if strict_eq_num statusCode 422 then
    ("Validation Error",
     JStr ("The request data is invalid. "
           ++ js_to_string (js_or (get_field errorBody "message")
                                  (JStr EmptyString))))
  else if strict_eq_num statusCode 429 then
    ("Rate Limit Exceeded",
     JStr "Too many requests. Please wait before trying again.")
  else if strict_eq_num statusCode 500 || strict_eq_num statusCode 502
          || strict_eq_num statusCode 503 || strict_eq_num statusCode 504
  then
    ("Server Error",
     JStr ("The Homebridge server encountered an error. "
           ++ "Please try again later."))
  else (message, description).

Definition handleApiError (error : JsError) (endpoint : string)
    (method : string) : JsError :=
  let statusCode := js_or (resolved_status error) (JNum 500) in
  let errorMessage :=
    js_or (error_get error "message") (JStr "Unknown error") in
  let errorBody :=
    js_or (js_or (get_field_opt (error_get error "response") "body")
                 (error_get error "error"))
          (JObj []) in
  let message := "Homebridge API Error (" ++ method ++ " " ++ endpoint ++ ")" in
  let description := errorMessage in
  let '(message, description) :=
    status_texts statusCode errorBody message description in
  NodeApiError (ObjectLiteral (List.app
    [("message", JStr message);
     ("description", description);
     ("httpCode", JStr (js_to_string statusCode))]
    (if truthy errorBody then [("cause", errorBody)] else []))).

(** [if (!endpoint.startsWith('/')) endpoint = '/' + endpoint] *)
Definition normalizeEndpoint (endpoint : string) : string :=
  if negb (startsWith endpoint "/") then "/" ++ endpoint else endpoint.

Definition request_options (credentials : IHomebridgeCredentials)
    (accessToken : JsValue) (method : IHttpRequestMethods)
    (endpoint : string) (body qs : option IDataObject)
  : IHttpRequestOptions :=
  {| method := method;
     url := serverUrl credentials ++ endpoint;
     headers :=
       [("Accept", "application/json");
        ("Content-Type", "application/json");
        ("Authorization", "Bearer " ++ js_to_string accessToken)];
     body := body;
     qs := qs;
     returnFullResponse := false;
     ignoreHttpStatusErrors := true |}.

Definition homebridgeApiRequest (this : IExecuteFunctions)
    (method : IHttpRequestMethods) (endpoint : string)
    (body qs : option IDataObject) (itemIndex : nat) : Promise JsValue :=
  credentials <- settled (getCredentials this) ;;
  accessToken <- settled (getAccessToken this itemIndex) ;;
  let endpoint := normalizeEndpoint endpoint in
  let options :=
    request_options credentials accessToken method endpoint body qs in
  try_catch
    (homebridgeApiRequestWithRetry options 0)
    (fun error => reject (handleApiError error endpoint (method_name method))).

(** ** Batch execution *)

Record Operation : Type := {
  op_method : IHttpRequestMethods;
  op_endpoint : string;
  op_body : option IDataObject;
  op_qs : option IDataObject
}.

Definition success_entry (result : JsValue) : IDataObject :=
  [("success", JBool true); ("data", result)].

Definition failure_entry (error : JsError) : IDataObject :=
  [("success", JBool false); ("error", error_get error "message")].

(** The [for] loop of [executeBatchOperations], from index [i] on. *)
Fixpoint batch_loop (this : IExecuteFunctions) (operations : list Operation)
    (i : nat) (results : list IDataObject) : Promise (list IDataObject) :=
  match operations with
  | [] => resolve results
  | operation :: rest =>
      results <-
        try_catch
          (result <- homebridgeApiRequest this (op_method operation)
                       (op_endpoint operation) (op_body operation)
                       (op_qs operation) i ;;
           resolve (List.app results [success_entry result]))
          (fun error => resolve (List.app results [failure_entry error])) ;;
      batch_loop this rest (S i) results
  end.

Definition executeBatchOperations (this : IExecuteFunctions)
    (operations : list Operation) : Promise (list IDataObject) :=
  batch_loop this operations 0%nat [].

(** ** Pagination *)

Definition pageSize : Z := 100.

(** [{ ...qs, page, limit: pageSize }] *)
Definition page_query (qs : IDataObject) (page : Z) : IDataObject :=
  set_field "limit" (JNum pageSize) (set_field "page" (JNum page) qs).

(** [Array.isArray(response) ? response : [response]] *)
Definition as_items (response : JsValue) : list JsValue :=
  match response with
  | JArr xs => xs
  | _ => [response]
  end.

Definition len (xs : list JsValue) : Z := Z.of_nat (List.length xs).

(** The [do { ... } while (true)] loop of [handlePaginatedRequest].  The
    loop has no bound of its own; [fuel] bounds the number of iterations
    and [None] means the bound was reached before the loop left.  [limit]
    is a whole number of items. *)
Fixpoint paginate (fuel : nat) (this : IExecuteFunctions)
    (method : IHttpRequestMethods) (endpoint : string) (qs : IDataObject)
    (itemIndex : nat) (limit : Z) (allItems : list JsValue) (page : Z)
    (s : State) : option (Outcome (list JsValue) * State) :=
  match fuel with
  | O => None
  | S fuel' =>
      match homebridgeApiRequest this method endpoint None
              (Some (page_query qs page)) itemIndex s with
      | (Rejected e, s') => Some (Rejected e, s')
      | (Resolved response, s') =>
          let items := as_items response in
          let allItems := List.app allItems items in
          if (limit >? 0) && (len allItems >=? limit) then
            Some (Resolved (firstn (Z.to_nat limit) allItems), s')
          else if len items <? pageSize then
            Some (Resolved allItems, s')
          else
            paginate fuel' this method endpoint qs itemIndex limit
              allItems (page + 1) s'
      end
  end.

Definition handlePaginatedRequest (fuel : nat) (this : IExecuteFunctions)
    (method : IHttpRequestMethods) (endpoint : string) (qs : IDataObject)
    (itemIndex : nat) (limit : Z) (s : State)
  : option (Outcome (list JsValue) * State) :=
  paginate fuel this method endpoint qs itemIndex limit [] 1 s.

(** ** The credential test and the node's [execute] *)

Definition settings_options (serverUrl : JsValue) : IHttpRequestOptions :=
  {| method := GET;
     url := js_to_string serverUrl ++ "/api/auth/settings";
     headers := [("Accept", "application/json")];
     body := None;
     qs := None;
     returnFullResponse := false;
     ignoreHttpStatusErrors := false |}.

Definition test_result (status message : JsValue) : IDataObject :=
  [("status", status); ("message", message)].

Definition testHomebridgeApiCredentials (credential : JsValue)
  : Promise IDataObject :=
  try_catch
    (if nullish credential then reject (cannot_read credential "data")
     else
       let credentials := get_field credential "data" in
       if nullish credentials then
         reject (cannot_read credentials "serverUrl")
       else if negb (truthy (get_field credentials "serverUrl")) then
         resolve (test_result (JStr "Error") (JStr "Server URL is required"))
       else if negb (truthy (get_field credentials "username"))
               || negb (truthy (get_field credentials "password")) then
         resolve (test_result (JStr "Error")
                    (JStr "Username and password are required"))
       else
         _ <- helpers_httpRequest
                (settings_options (get_field credentials "serverUrl")) ;;
         resolve (test_result (JStr "OK") (JStr "Connection successful")))
    (fun error =>
       resolve (test_result (JStr "Error")
                  (js_or (error_get error "message")
                         (JStr "Connection failed")))).

(** What the node takes from outside besides the transport: the resource
    names, [JSON.parse] (on the texts that hold an object or do not parse,
    the values [parseJsonSafely] is declared to return),
    [encodeURIComponent], and the clock behind [new Date().toISOString()]. *)
Variable RESOURCES : Resources.
Variable JSON_parse : string -> option IDataObject.
Variable encodeURIComponent : string -> string.
Variable now : World -> string.

Definition parseJsonSafely (jsonString parameterName : string)
    (itemIndex : nat) : Outcome IDataObject :=
  match JSON_parse jsonString with
  | Some parsed => Resolved parsed
  | None =>
      Rejected (NodeOperationError
        ("Invalid JSON in parameter " ++ dquote ++ parameterName ++ dquote
         ++ ". Please ensure it's valid JSON.") (Some itemIndex))
  end.

(** [new Date().toISOString()] *)
Definition toISOString_now : Promise string :=
  fun s => (Resolved (now (world s)), s).

(** The chain of [if (resource === ...) { if (operation === ...) ... }] of
    [execute] for item [i]: the value left in [responseData], [undefined]
    when no branch applies.  [param name] is what the call
    [this.getNodeParameter(name, i, ...)] returns, its fallback included. *)
Definition responseData_for (this : IExecuteFunctions)
    (resource operation : JsValue) (i : nat) : Promise JsValue :=
  let param := fun name => getNodeParameter this name i in
  let request := fun method endpoint =>
    homebridgeApiRequest this method endpoint None None i in
  let op := strict_eq_string operation in
  if strict_eq_string resource (AUTH RESOURCES) then
    if op "login" then
      credentials <- settled (getCredentials this) ;;
      let additionalFields := param "additionalFields" in
      if nullish additionalFields then
        reject (cannot_read additionalFields "otp")
      else
        let otp := js_or (get_field additionalFields "otp")
                         (text_value (otp credentials)) in
        accessToken <- authenticate_untyped credentials otp ;;
        resolve (JObj [("access_token", accessToken);
                       ("token_type", JStr "Bearer");
                       ("success", JBool true)])
    else if op "getSettings" then request GET "/api/auth/settings"
    else if op "noAuth" then request POST "/api/auth/noauth"
    else if op "checkAuth" then request GET "/api/auth/check"
    else resolve JUndefined
  else if strict_eq_string resource (SERVER RESOURCES) then
    if op "restart" then request PUT "/api/server/restart"
    else if op "restartChild" then
      let deviceId := param "deviceId" in
      _ <- settled (validateRequiredParameters [("deviceId", deviceId)] i) ;;
      request PUT ("/api/server/restart/" ++ js_to_string deviceId)
    else if op "stopChild" then
      let deviceId := param "deviceId" in
      _ <- settled (validateRequiredParameters [("deviceId", deviceId)] i) ;;
      request PUT ("/api/server/stop/" ++ js_to_string deviceId)
    else if op "startChild" then
      let deviceId := param "deviceId" in
      _ <- settled (validateRequiredParameters [("deviceId", deviceId)] i) ;;
      request PUT ("/api/server/start/" ++ js_to_string deviceId)
    else if op "getPairing" then request GET "/api/server/pairing"
    else if op "getCachedAccessories" then
      request GET "/api/server/cached-accessories"
    else resolve JUndefined
  else if strict_eq_string resource (ACCESSORIES RESOURCES) then
    if op "list" then request GET "/api/accessories"
    else if op "getLayout" then request GET "/api/accessories/layout"
    else if op "getAccessory" then
      let uniqueId := param "uniqueId" in
      _ <- settled (validateRequiredParameters [("uniqueId", uniqueId)] i) ;;
      request GET ("/api/accessories/" ++ js_to_string uniqueId)
    else if op "setCharacteristic" then
      let uniqueId := param "uniqueId" in
      let characteristicType := param "characteristicType" in
      let value := param "value" in
      _ <- settled (validateRequiredParameters
                      [("uniqueId", uniqueId);
                       ("characteristicType", characteristicType);
                       ("value", value)] i) ;;
      homebridgeApiRequest this PUT
        ("/api/accessories/" ++ js_to_string uniqueId)
        (Some [("characteristicType", characteristicType); ("value", value)])
        None i
    else resolve JUndefined
  else if strict_eq_string resource (PLUGINS RESOURCES) then
    if op "listInstalled" then request GET "/api/plugins"
    else if op "search" then
      let query := param "query" in
      _ <- settled (validateRequiredParameters [("query", query)] i) ;;
      request GET ("/api/plugins/search/"
                   ++ encodeURIComponent (js_to_string query))
    else if op "lookup" then
      let pluginName := param "pluginName" in
      _ <- settled (validateRequiredParameters
                      [("pluginName", pluginName)] i) ;;
      request GET ("/api/plugins/lookup/"
                   ++ encodeURIComponent (js_to_string pluginName))
    else resolve JUndefined
  else if strict_eq_string resource (CONFIG RESOURCES) then
    if op "getConfig" then request GET "/api/config-editor"
    else if op "updateConfig" then
      let configString := param "config" in
      config <- settled (parseJsonSafely (js_to_string configString)
                           "config" i) ;;
      homebridgeApiRequest this POST "/api/config-editor" (Some config)
        None i
    else resolve JUndefined
  else if strict_eq_string resource (STATUS RESOURCES) then
    if op "getHomebridgeStatus" then request GET "/api/status/homebridge"
    else if op "getCPU" then request GET "/api/status/cpu"
    else if op "getRAM" then request GET "/api/status/ram"
    else resolve JUndefined
  else if strict_eq_string resource (USERS RESOURCES) then
    if op "list" then request GET "/api/users"
    else if op "create" then
      let name := param "name" in
      let username := param "username" in
      let password := param "password" in
      let admin := param "admin" in
      _ <- settled (validateRequiredParameters
                      [("name", name); ("username", username);
                       ("password", password)] i) ;;
      homebridgeApiRequest this POST "/api/users"
        (Some [("name", name); ("username", username);
               ("password", password); ("admin", admin)])
        None i
    else resolve JUndefined
  else if strict_eq_string resource (BACKUP RESOURCES) then
    if op "createBackup" then request POST "/api/backup"
    else if op "listScheduledBackups" then
      request GET "/api/backup/scheduled-backups"
    else resolve JUndefined
  else if strict_eq_string resource (PLATFORM RESOURCES) then
    if op "getHBServiceSettings" then
      request GET
        "/api/platform-tools/hb-service/homebridge-startup-settings"
    else resolve JUndefined
  else if strict_eq_string resource (SETUP RESOURCES) then
    if op "getSetupToken" then
      request GET "/api/setup-wizard/get-setup-wizard-token"
    else resolve JUndefined
  else resolve JUndefined.

Definition metadata (resource operation : JsValue) (executedAt : string)
    (success : bool) : JsValue :=
  JObj [("resource", resource); ("operation", operation);
        ("executedAt", JStr executedAt); ("success", JBool success)].

(** The body of the [try] block for item [i]. *)
Definition execute_item (this : IExecuteFunctions) (resource : JsValue)
    (i : nat) : Promise ExecutionData :=
  let operation := getNodeParameter this "operation" i in
  responseData <- responseData_for this resource operation i ;;
  let simplifiedData := simplifyOutput responseData in
  executedAt <- toISOString_now ;;
  resolve {| data_json :=
               set_field "_metadata"
                 (metadata resource operation executedAt true)
                 (own_properties simplifiedData);
             pairedItem := i |}.

(** The item pushed by the [catch] block when the node continues on
    failure. *)
Definition failed_item (this : IExecuteFunctions) (error : JsError)
    (i : nat) : Promise ExecutionData :=
  executedAt <- toISOString_now ;;
  resolve {| data_json :=
               [("error", error_get error "message");
                ("_metadata",
                 metadata (getNodeParameter this "resource" i)
                   (getNodeParameter this "operation" i) executedAt false)];
             pairedItem := i |}.

(** The [for] loop of [execute] over the items [i], [i + 1], ... still to
    process; [continueOnFail] is the answer of [this.continueOnFail()]. *)
Fixpoint execute_loop (this : IExecuteFunctions) (continueOnFail : bool)
    (resource : JsValue) (remaining i : nat) (returnData : list ExecutionData)
  : Promise (list ExecutionData) :=
  match remaining with
  | O => resolve returnData
  | S remaining' =>
      returnData <-
        try_catch
          (executionData <- execute_item this resource i ;;
           resolve (List.app returnData [executionData]))
          (fun error =>
             if continueOnFail then
               executionData <- failed_item this error i ;;
               resolve (List.app returnData [executionData])
             else reject error) ;;
      execute_loop this continueOnFail resource remaining' (S i) returnData
  end.

Definition execute (this : IExecuteFunctions) (continueOnFail : bool)
  : Promise (list (list ExecutionData)) :=
  match getInputData this with
  | None => reject (cannot_read JUndefined "length")
  | Some items =>
      let resource := getNodeParameter this "resource" 0%nat in
      returnData <- execute_loop this continueOnFail resource
                      (List.length items) 0%nat [] ;;
      resolve [returnData]
  end.

(** The operation names and the resource names that [execute] compares
    with. *)
Definition known_operations : list string :=
  ["login"; "getSettings"; "noAuth"; "checkAuth"; "restart"; "restartChild";
   "stopChild"; "startChild"; "getPairing"; "getCachedAccessories"; "list";
   "getLayout"; "getAccessory"; "setCharacteristic"; "listInstalled";
   "search"; "lookup"; "getConfig"; "updateConfig"; "getHomebridgeStatus";
   "getCPU"; "getRAM"; "create"; "createBackup"; "listScheduledBackups";
   "getHBServiceSettings"; "getSetupToken"].

Definition known_resources : list string :=
  [AUTH RESOURCES; SERVER RESOURCES; ACCESSORIES RESOURCES;
   PLUGINS RESOURCES; CONFIG RESOURCES; STATUS RESOURCES; USERS RESOURCES;
   BACKUP RESOURCES; PLATFORM RESOURCES; SETUP RESOURCES].

(** The item pushed for item [i] whose [try] block failed with [error] and
    left the state [s1]. *)
Definition failure_output (this : IExecuteFunctions) (error : JsError)
    (i : nat) (s1 : State) : ExecutionData :=
  {| data_json :=
       [("error", error_get error "message");
        ("_metadata",
         JObj [("resource", getNodeParameter this "resource" i);
               ("operation", getNodeParameter this "operation" i);
               ("executedAt", JStr (now (world s1)));
               ("success", JBool false)])];
     pairedItem := i |}.

(** [execute_run this continueOnFail resource i s n outputs s']: starting in
    state [s], the [n] items [i], [i + 1], ... are processed one after the
    other, each in the state its predecessor left.  An item whose [try]
    block resolves contributes what the block built; an item whose block
    rejects contributes, when the node continues on failure, the failure
    item of that error, and is part of no run when it does not.  [outputs]
    are the contributions in the order of the items and [s'] is the final
    state. *)
Inductive execute_run (this : IExecuteFunctions) (continueOnFail : bool)
    (resource : JsValue)
  : nat -> State -> nat -> list ExecutionData -> State -> Prop :=
| run_done (i : nat) (s : State) :
    execute_run this continueOnFail resource i s 0 [] s
| run_item (i : nat) (s s1 s2 : State) (n : nat) (d : ExecutionData)
    (outputs : list ExecutionData) :
    execute_item this resource i s = (Resolved d, s1) ->
    execute_run this continueOnFail resource (S i) s1 n outputs s2 ->
    execute_run this continueOnFail resource i s (S n) (d :: outputs) s2
| run_failed_item (i : nat) (s s1 s2 : State) (n : nat) (e : JsError)
    (outputs : list ExecutionData) :
    continueOnFail = true ->
    execute_item this resource i s = (Rejected e, s1) ->
    execute_run this continueOnFail resource (S i) s1 n outputs s2 ->
    execute_run this continueOnFail resource i s (S n)
      (failure_output this e i s1 :: outputs) s2.

(** ** Expected results of a batch *)

(** The entry recorded for the outcome of one request. *)
Definition entry_of (r : Outcome JsValue) : IDataObject :=
  match r with
  | Resolved result => success_entry result
  | Rejected error => failure_entry error
  end.

(** [batch_run this i s operations entries s']: starting in state [s], the
    operations are requested one after the other with item indices [i],
    [i + 1], ..., each in the state its predecessor left, whatever the
    outcomes; [entries] are the entries of the outcomes in the same order
    and [s'] is the final state. *)
Inductive batch_run (this : IExecuteFunctions)
  : nat -> State -> list Operation -> list IDataObject -> State -> Prop :=
| batch_done (i : nat) (s : State) : batch_run this i s [] [] s
| batch_item (i : nat) (s s1 s2 : State) (operation : Operation)
    (rest : list Operation) (r : Outcome JsValue)
    (entries : list IDataObject) :
    homebridgeApiRequest this (op_method operation) (op_endpoint operation)
      (op_body operation) (op_qs operation) i s = (r, s1) ->
    batch_run this (S i) s1 rest entries s2 ->
    batch_run this i s (operation :: rest) (entry_of r :: entries) s2.

(** ** Expected traces *)

(** The events of [k] attempts with [options] that start at attempt count
    [retryCount]: a request, then for each further attempt the backoff
    delay of the attempt count reached and the same request again. *)
Fixpoint attempts (options : IHttpRequestOptions) (retryCount k : nat)
  : list Event :=
  match k with
  | O => []
  | S k' =>
      Request options ::
      match k' with
      | O => []
      | S _ =>
          Delay (1000 * 2 ^ Z.of_nat retryCount)
          :: attempts options (S retryCount) k'
      end
  end.

(** The time spent waiting in a trace, in milliseconds. *)
Definition total_delay (t : list Event) : Z := fold_right Z.add 0 (delays t).

(** ** Properties *)

(** *** Strings *)

Lemma length_append (p q : string) :
  String.length (p ++ q) = (String.length p + String.length q)%nat.
Proof. induction p as [|c p IH]; simpl; [reflexivity | now rewrite IH]. Qed.

Lemma substring_all (q : string) : substring 0 (String.length q) q = q.
Proof. induction q as [|c q IH]; simpl; [reflexivity | now rewrite IH]. Qed.

Lemma substring_0_0 (q : string) : substring 0 0 q = EmptyString.
Proof. destruct q; reflexivity. Qed.

Lemma substring_append_left (p q : string) :
  substring 0 (String.length p) (p ++ q) = p.
Proof.
  induction p as [|c p IH]; simpl; [apply substring_0_0 | now rewrite IH].
Qed.

Lemma substring_append_right (p q : string) :
  substring (String.length p) (String.length q) (p ++ q) = q.
Proof.
  induction p as [|c p IH]; simpl; [apply substring_all | exact IH].
Qed.

(** A string is its first [k] characters followed by the rest. *)
Lemma substring_split (s : string) (k : nat) :
  (k <= String.length s)%nat ->
  s = substring 0 k s ++ substring k (String.length s - k) s.
Proof.
  revert k. induction s as [|c s IH]; intros k Hk; simpl in *.
  - destruct k; [reflexivity | lia].
  - destruct k as [|k]; simpl.
    + now rewrite substring_all.
    + f_equal. apply IH. lia.
Qed.

Lemma endsWith_append (p q : string) : endsWith (p ++ q) q = true.
Proof.
  unfold endsWith. rewrite length_append.
  apply andb_true_intro. split.
  - apply Nat.leb_le. lia.
  - replace (String.length p + String.length q - String.length q)%nat
      with (String.length p) by lia.
    rewrite substring_append_right. apply String.eqb_refl.
Qed.

Lemma endsWith_inv (s q : string) :
  endsWith s q = true -> exists p, s = p ++ q.
Proof.
  unfold endsWith. intros H. apply andb_prop in H. destruct H as [Hle Heq].
  apply Nat.leb_le in Hle. apply String.eqb_eq in Heq.
  exists (substring 0 (String.length s - String.length q) s).
  rewrite (substring_split s (String.length s - String.length q)) at 1
    by lia.
  f_equal.
  replace (String.length s - (String.length s - String.length q))%nat
    with (String.length q) by lia.
  exact Heq.
Qed.

Lemma slice_drop_last (p : string) (c : ascii) :
  slice (p ++ String c EmptyString) 0 (-1) = p.
Proof.
  unfold slice, clamp_index. rewrite length_append. simpl String.length.
  replace (0 <? 0) with false by reflexivity.
  replace (-1 <? 0) with true by reflexivity.
  replace (Z.to_nat (Z.min 0 (Z.of_nat (String.length p + 1)))) with 0%nat
    by lia.
  replace (Z.to_nat
             (Z.max (Z.max (Z.of_nat (String.length p + 1) + -1) 0
                     - Z.min 0 (Z.of_nat (String.length p + 1))) 0))
    with (String.length p) by lia.
  apply substring_append_left.
Qed.

Lemma append_assoc (p q r : string) : (p ++ q) ++ r = p ++ (q ++ r).
Proof. induction p as [|c p IH]; simpl; [reflexivity | now rewrite IH]. Qed.

(** *** Credential Resolver *)

(** C8. For every base URL the Credential Resolver removes exactly one
    trailing slash when the URL ends in a slash and returns the URL
    unchanged otherwise: a URL [p/] becomes [p], a URL [p//] becomes [p/],
    a URL without trailing slash is a fixed point (so normalising it twice
    is the same as once), and the resolved [serverUrl] of valid
    credentials is the normalised stored URL. *)
Theorem getCredentials_strips_one_trailing_slash :
  (forall s, endsWith s "/" = true <-> exists p, s = p ++ "/") /\
  (forall p, normalizeServerUrl (p ++ "/") = p) /\
  (forall p, normalizeServerUrl (p ++ "//") = p ++ "/") /\
  (forall s, endsWith s "/" = false ->
     normalizeServerUrl s = s /\
     normalizeServerUrl (normalizeServerUrl s) = normalizeServerUrl s) /\
  (forall this c,
     getCredentials_homebridgeApi this = Some c ->
     is_empty (cred_serverUrl c) = false ->
     is_empty (cred_username c) = false ->
     is_empty (cred_password c) = false ->
     exists r, getCredentials this = Resolved r /\
               serverUrl r = normalizeServerUrl (cred_serverUrl c)).
Proof.
  assert (Hstrip : forall p, normalizeServerUrl (p ++ "/") = p).
  { intros p. unfold normalizeServerUrl.
    rewrite endsWith_append. apply slice_drop_last. }
  repeat split.
  - apply endsWith_inv.
  - intros [p ->]. apply endsWith_append.
  - exact Hstrip.
  - intros p. change "//" with ("/" ++ "/").
    rewrite <- append_assoc. apply Hstrip.
  - unfold normalizeServerUrl. now rewrite H.
  - unfold normalizeServerUrl. now rewrite !H.
  - intros this c Hc Hu Hn Hp. unfold getCredentials.
    rewrite Hc, Hu, Hn, Hp. eexists. split; reflexivity.
Qed.

(** *** Token Resolver *)

Lemma token_in_json_truthy (j token : JsValue) :
  token_in_json j = Some token ->
  truthy token = true /\
  (token = get_field j "access_token" \/
   exists firstItem rest,
     j = JArr (firstItem :: rest) /\
     token = get_field firstItem "access_token").
Proof.
  unfold token_in_json.
  destruct (truthy (get_field j "access_token")) eqn:Hdirect.
  - intros [= <-]. split; [exact Hdirect | now left].
  - destruct j as [| | | | |[|firstItem rest]|]; try discriminate.
    destruct (truthy firstItem && truthy (get_field firstItem "access_token"))
      eqn:Hfirst; [|discriminate].
    apply andb_prop in Hfirst. destruct Hfirst as [_ Hfirst].
    intros [= <-]. split; [exact Hfirst|].
    right. now exists firstItem, rest.
Qed.

(** The hook takes the token of the first input item that has one. *)
Lemma scan_items_first (before after : list INodeExecutionData)
    (item : INodeExecutionData) (token : JsValue) :
  (forall x, In x before ->
     truthy (json x) = false \/ token_in_json (json x) = None) ->
  truthy (json item) = true ->
  token_in_json (json item) = Some token ->
  scan_items (List.app before (item :: after)) = token.
Proof.
  intros Hbefore Hitem Htoken.
  induction before as [|x before IH]; simpl.
  - now rewrite Hitem, Htoken.
  - destruct (Hbefore x (or_introl eq_refl)) as [Hx | Hx]; rewrite Hx.
    + apply IH. intros y Hy. apply Hbefore. now right.
    + destruct (truthy (json x)); apply IH; intros y Hy; apply Hbefore;
        now right.
Qed.

(** C2, as the code has it. [getAccessToken] returns a non-empty explicit
    token whatever the input data holds; with an empty one it looks at the
    input item of the current index (its [access_token], else the
    [access_token] of the first element of an array payload) and, when that
    yields nothing or there are no input items, fails with the
    NoAccessToken message that tells the user to connect a Login node or to
    enter the token by hand.  The hook [addAuthToRequest] resolves in the
    opposite order: the first input item with a token wins, the explicit
    token is used only when no input item has one, and with neither it fails
    with the same instruction. *)
Theorem token_resolution_order (this : IExecuteFunctions) (itemIndex : nat) :
  let explicit := getNodeParameter this "accessToken" itemIndex in
  let no_token :=
    Rejected (NodeOperationError no_access_token_message (Some itemIndex)) in
  let upstream :=
    match getInputData this with
    | Some items => scan_items items
    | None => JNull
    end in
  let manual := getNodeParameter this "accessToken" 0%nat in
  (truthy explicit = true ->
     getAccessToken this itemIndex = Resolved explicit) /\
  (truthy explicit = false ->
     forall items item,
       getInputData this = Some items ->
       nth_error items itemIndex = Some item ->
       nullish (json item) = false ->
       match token_in_json (json item) with
       | Some token =>
           truthy token = true /\
           getAccessToken this itemIndex = Resolved token
       | None => getAccessToken this itemIndex = no_token
       end) /\
  (truthy explicit = false ->
     getInputData this = None \/ getInputData this = Some [] ->
     getAccessToken this itemIndex = no_token) /\
  (forall o,
     token_in_json (JObj o) =
       if truthy (lookup "access_token" o)
       then Some (lookup "access_token" o) else None) /\
  (forall first rest,
     token_in_json (JArr (first :: rest)) =
       if truthy first && truthy (get_field first "access_token")
       then Some (get_field first "access_token") else None) /\
  (truthy upstream = true ->
     addAuthToRequest_token this = Resolved upstream) /\
  (truthy upstream = false -> truthy manual = true ->
     addAuthToRequest_token this = Resolved manual) /\
  (truthy upstream = false -> truthy manual = false ->
     addAuthToRequest_token this = Rejected (ErrorObject add_auth_message)) /\
  includes_string no_access_token_message "Connect a Login node" = true /\
  includes_string no_access_token_message
    "Manually enter the access token" = true /\
  includes_string add_auth_message "Connect the Login node" = true /\
  includes_string add_auth_message "Manually enter the access token" = true.
Proof.
  cbv zeta. repeat apply conj; try reflexivity.
  - intros Hexplicit. unfold getAccessToken. now rewrite Hexplicit.
  - intros Hexplicit items item Hitems Hnth Hjson.
    unfold getAccessToken. rewrite Hexplicit, Hitems.
    destruct items as [|x items]; [destruct itemIndex; discriminate|].
    cbv iota beta. rewrite Hnth, Hjson.
    destruct (token_in_json (json item)) as [token|] eqn:Htoken.
    + split; [|reflexivity]. now apply token_in_json_truthy in Htoken.
    + reflexivity.
  - intros Hexplicit Hitems. unfold getAccessToken. rewrite Hexplicit.
    now destruct Hitems as [-> | ->].
  - unfold addAuthToRequest_token.
    destruct (getInputData this) as [[|x items]|]; try discriminate.
    intros ->. reflexivity.
  - unfold addAuthToRequest_token.
    destruct (getInputData this) as [[|x items]|];
      intros Hup Hmanual; cbn [negb truthy] in *;
      rewrite ?Hup; cbn [negb]; now rewrite Hmanual.
  - unfold addAuthToRequest_token.
    destruct (getInputData this) as [[|x items]|];
      intros Hup Hmanual; cbn [negb truthy] in *;
      rewrite ?Hup; cbn [negb]; now rewrite Hmanual.
Qed.

(** *** Error Normalizer *)

Lemma truthy_or_object (a : JsValue) : truthy (js_or a (JObj [])) = true.
Proof. unfold js_or. destruct (truthy a) eqn:Ha; [exact Ha | reflexivity]. Qed.

Lemma js_or_truthy (a b : JsValue) : truthy a = true -> js_or a b = a.
Proof. unfold js_or. now intros ->. Qed.

Lemma js_or_falsy (a b : JsValue) : truthy a = false -> js_or a b = b.
Proof. unfold js_or. now intros ->. Qed.

Lemma includes_cons (c : Z) (codes : list Z) (v : JsValue) :
  includes (c :: codes) v = strict_eq_num v c || includes codes v.
Proof. reflexivity. Qed.

(** C3, as the code has it. A failure whose resolved status is present and
    is none of 400, 401, 403, 404, 422, 429, 500, 502, 503, 504 is normalised
    to the message [Homebridge API Error (<METHOD> <path>)] with the raw
    error message as description ([Unknown error] when the error has none),
    which no row of the table claims: category Unknown.  A failure without a
    status is given the status 500 first and is therefore normalised to
    Server Error. *)
Theorem handleApiError_unlisted_status (error : JsError)
    (endpoint method : string) :
  let status := resolved_status error in
  let errorBody :=
    js_or (js_or (get_field_opt (error_get error "response") "body")
                 (error_get error "error"))
          (JObj []) in
  (truthy status = true -> includes listed_status_codes status = false ->
     handleApiError error endpoint method =
       NodeApiError (ObjectLiteral
         [("message",
           JStr ("Homebridge API Error (" ++ method ++ " " ++ endpoint ++ ")"));
          ("description",
           js_or (error_get error "message") (JStr "Unknown error"));
          ("httpCode", JStr (js_to_string status));
          ("cause", errorBody)]) /\
     category (handleApiError error endpoint method) = Unknown) /\
  (truthy status = false ->
     handleApiError error endpoint method =
       NodeApiError (ObjectLiteral
         [("message", JStr "Server Error");
          ("description",
           JStr ("The Homebridge server encountered an error. "
                 ++ "Please try again later."));
          ("httpCode", JStr "500");
          ("cause", errorBody)]) /\
     category (handleApiError error endpoint method) = ServerError).
Proof.
  cbv zeta. split.
  - intros Hstatus Hunlisted.
    assert (Heq : handleApiError error endpoint method =
       NodeApiError (ObjectLiteral
         [("message",
           JStr ("Homebridge API Error (" ++ method ++ " " ++ endpoint ++ ")"));
          ("description",
           js_or (error_get error "message") (JStr "Unknown error"));
          ("httpCode", JStr (js_to_string (resolved_status error)));
          ("cause",
           js_or (js_or (get_field_opt (error_get error "response") "body")
                        (error_get error "error")) (JObj []))])).
    { unfold handleApiError. rewrite truthy_or_object.
      rewrite (js_or_truthy (resolved_status error)) by exact Hstatus.
      unfold listed_status_codes in Hunlisted.
      rewrite !includes_cons in Hunlisted.
      repeat (apply orb_false_elim in Hunlisted;
              destruct Hunlisted as [? Hunlisted]).
      unfold status_texts.
      repeat match goal with
             | H : strict_eq_num _ _ = false |- _ => rewrite H; clear H
             end.
      reflexivity. }
    split; [exact Heq|]. rewrite Heq. reflexivity.
  - intros Hstatus.
    assert (Heq : handleApiError error endpoint method =
       NodeApiError (ObjectLiteral
         [("message", JStr "Server Error");
          ("description",
           JStr ("The Homebridge server encountered an error. "
                 ++ "Please try again later."));
          ("httpCode", JStr "500");
          ("cause",
           js_or (js_or (get_field_opt (error_get error "response") "body")
                        (error_get error "error")) (JObj []))])).
    { unfold handleApiError. rewrite truthy_or_object.
      rewrite (js_or_falsy (resolved_status error)) by exact Hstatus.
      reflexivity. }
    split; [exact Heq|]. rewrite Heq. reflexivity.
Qed.

(** *** Authentication *)

Lemma helpers_httpRequest_state (options : IHttpRequestOptions) (s : State) :
  snd (helpers_httpRequest options s) =
    {| world := snd (httpRequest options (world s));
       trace := List.app (trace s) [Request options] |} /\
  fst (helpers_httpRequest options s) = fst (httpRequest options (world s)).
Proof.
  unfold helpers_httpRequest.
  destruct (httpRequest options (world s)) as [r w]. split; reflexivity.
Qed.

(** The cases of [authenticate] that its [if]s provide for, on a response
    that is neither null nor undefined.  It sends exactly one request, a
    POST to [<serverUrl>/api/auth/login], and never waits or sends again
    whatever the answer.  A failure with status 401 is rejected as the
    authentication-failed [NodeApiError] (invalid username, password, or
    2FA code); any other failure is rejected as a [NodeApiError] built
    around the caught error; a response without a truthy [access_token] is
    rejected as a [NodeApiError] built around the error that says no access
    token was received; a response with an [access_token] resolves to it. *)
Theorem authenticate_cases (credentials : IHomebridgeCredentials)
    (otp : option string) (s : State) :
  let options := login_options credentials otp in
  let answer := fst (httpRequest options (world s)) in
  method options = POST /\
  url options = serverUrl credentials ++ "/api/auth/login" /\
  snd (authenticate credentials otp s) =
    {| world := snd (httpRequest options (world s));
       trace := List.app (trace s) [Request options] |} /\
  (forall error, answer = Rejected error ->
     (strict_eq_num (error_get error "statusCode") 401 = true ->
        fst (authenticate credentials otp s) = Rejected authentication_failed) /\
     (strict_eq_num (error_get error "statusCode") 401 = false ->
        fst (authenticate credentials otp s)
        = Rejected (NodeApiError (CaughtError error)))) /\
  (forall response, answer = Resolved response -> nullish response = false ->
     (truthy (get_field response "access_token") = false ->
        fst (authenticate credentials otp s)
        = Rejected (NodeApiError (CaughtError no_token_received))) /\
     (truthy (get_field response "access_token") = true ->
        fst (authenticate credentials otp s)
        = Resolved (get_field response "access_token"))) /\
  lookup "message" (payload authentication_failed)
  = JStr "Authentication failed" /\
  includes_string
    (js_to_string (lookup "description" (payload authentication_failed)))
    "Invalid username, password, or 2FA code" = true /\
  includes_string
    (js_to_string (lookup "message" (payload no_token_received)))
    "no access token received" = true.
Proof.
  cbv zeta.
  destruct (helpers_httpRequest_state (login_options credentials otp) s)
    as [Hstate Hanswer].
  repeat apply conj; try reflexivity.
  - unfold authenticate, try_catch, await.
    destruct (helpers_httpRequest (login_options credentials otp) s)
      as [[response | error] s1]; simpl in Hstate; subst s1.
    + destruct (nullish response); [|destruct (truthy _)]; cbn;
        match goal with
        | |- context [strict_eq_num ?v 401] => destruct (strict_eq_num v 401)
        | _ => idtac
        end; reflexivity.
    + destruct (strict_eq_num (error_get error "statusCode") 401);
        reflexivity.
  - intros error Herror. rewrite <- Hanswer in Herror.
    unfold authenticate, try_catch, await.
    destruct (helpers_httpRequest (login_options credentials otp) s)
      as [[response | error'] s1]; simpl in Herror; [discriminate|].
    injection Herror as ->.
    split; intros ->; reflexivity.
  - intros response Hresponse Hnullish. rewrite <- Hanswer in Hresponse.
    unfold authenticate, try_catch, await.
    destruct (helpers_httpRequest (login_options credentials otp) s)
      as [[response' | error] s1]; simpl in Hresponse; [|discriminate].
    injection Hresponse as ->. rewrite Hnullish.
    split; intros ->; reflexivity.
Qed.

(** On a text, or on no code at all, the call of [execute] is the typed
    one. *)
Lemma authenticate_untyped_text (credentials : IHomebridgeCredentials)
    (otp : option string) (s : State) :
  authenticate_untyped credentials (text_value otp) s
  = authenticate credentials otp s.
Proof.
  assert (Hoptions : login_options_untyped credentials (text_value otp)
                     = login_options credentials otp).
  { unfold login_options_untyped, login_options.
    destruct otp as [[|c code]|]; reflexivity. }
  unfold authenticate_untyped, authenticate. now rewrite Hoptions.
Qed.

(** C4, where the code departs from it.  A login that resolves to [null]
    or [undefined] is a success response without an access token, but
    [authenticate] reads [response.access_token] before any check: the
    [TypeError] of that read is caught by the function's own [catch] and
    rejected as a [NodeApiError] built around it, which is not the error
    that says no access token was received.  And a failure whose status 401
    is found only under [error.response.statusCode], where the retry
    function and [handleApiError] look for it, is not recognised as 401:
    it is rejected as a [NodeApiError] built around the caught error, not as
    the authentication-failed error.  In both cases one request is sent. *)
Theorem authenticate_missed_cases (credentials : IHomebridgeCredentials)
    (otp : option string) (s : State) :
  let options := login_options credentials otp in
  let answer := fst (httpRequest options (world s)) in
  (forall response, answer = Resolved response -> nullish response = true ->
     fst (authenticate credentials otp s)
     = Rejected (NodeApiError
         (CaughtError
            (TypeError ("Cannot read properties of " ++ js_to_string response
                        ++ " (reading 'access_token')")))) /\
     fst (authenticate credentials otp s)
     <> Rejected (NodeApiError (CaughtError no_token_received)) /\
     fst (authenticate credentials otp s) <> Rejected no_token_received) /\
  (forall error, answer = Rejected error ->
     error_get error "statusCode" = JUndefined ->
     get_field_opt (error_get error "response") "statusCode" = JNum 401 ->
     resolved_status error = JNum 401 /\
     fst (authenticate credentials otp s)
     = Rejected (NodeApiError (CaughtError error)) /\
     fst (authenticate credentials otp s) <> Rejected authentication_failed) /\
  trace (snd (authenticate credentials otp s))
  = List.app (trace s) [Request options].
Proof.
  cbv zeta.
  destruct (helpers_httpRequest_state (login_options credentials otp) s)
    as [Hstate Hanswer].
  split; [|split].
  - intros response Hresponse Hnullish. rewrite <- Hanswer in Hresponse.
    assert (Hrun : fst (authenticate credentials otp s)
      = Rejected (NodeApiError
          (CaughtError (cannot_read response "access_token")))).
    { unfold authenticate, try_catch, await.
      destruct (helpers_httpRequest (login_options credentials otp) s)
        as [[response' | error] s1]; simpl in Hresponse; [|discriminate].
      injection Hresponse as ->. rewrite Hnullish. reflexivity. }
    rewrite Hrun. unfold cannot_read, no_token_received.
    repeat split; discriminate.
  - intros error Herror Hstatus Hresponse. rewrite <- Hanswer in Herror.
    assert (Hresolved : resolved_status error = JNum 401).
    { unfold resolved_status. rewrite Hstatus, Hresponse. reflexivity. }
    assert (Hrun : fst (authenticate credentials otp s)
      = Rejected (NodeApiError (CaughtError error))).
    { unfold authenticate, try_catch, await.
      destruct (helpers_httpRequest (login_options credentials otp) s)
        as [[response | error'] s1]; simpl in Herror; [discriminate|].
      injection Herror as ->. rewrite Hstatus. reflexivity. }
    rewrite Hrun. unfold authentication_failed.
    repeat split; [exact Hresolved | discriminate].
  - unfold authenticate, try_catch, await.
    destruct (helpers_httpRequest (login_options credentials otp) s)
      as [[response | error] s1]; simpl in Hstate; subst s1.
    + destruct (nullish response); [|destruct (truthy _)]; cbn;
        match goal with
        | |- context [strict_eq_num ?v 401] => destruct (strict_eq_num v 401)
        | _ => idtac
        end; reflexivity.
    + destruct (strict_eq_num (error_get error "statusCode") 401);
        reflexivity.
Qed.

(** *** Retry Policy *)

(** Names for what [funelim] leaves in the context: the outcome of the
    dispatch and the value of the retry guard. *)
Ltac dispatched :=
  match goal with
  | H : helpers_httpRequest _ _ = _ |- _ => rewrite H in *
  end.

Ltac guarded :=
  match goal with
  | H : (_ && _)%bool = _ |- _ => rewrite H
  end.

(** The defining equation of the retry function, as the source reads. *)
Lemma retry_equation (options : IHttpRequestOptions)
    (retryCount : nat) (s : State) :
  homebridgeApiRequestWithRetry options retryCount s =
    match helpers_httpRequest options s with
    | (Resolved response, s1) => (Resolved response, s1)
    | (Rejected error, s1) =>
        if includes RETRY_STATUS_CODES (resolved_status error)
           && (retryCount <? MAX_RETRIES)%nat
        then
          homebridgeApiRequestWithRetry options (retryCount + 1)%nat
            (snd (sleep (RETRY_DELAY * 2 ^ Z.of_nat retryCount) s1))
        else (Rejected error, s1)
    end.
Proof.
  funelim (homebridgeApiRequestWithRetry options retryCount s);
    cbv zeta in *; dispatched; try guarded; reflexivity.
Qed.

Lemma helpers_httpRequest_trace (options : IHttpRequestOptions) (s : State) :
  trace (snd (helpers_httpRequest options s))
  = List.app (trace s) [Request options].
Proof. now rewrite (proj1 (helpers_httpRequest_state options s)). Qed.

(** From attempt count [retryCount] on there are between one and
    [MAX_RETRIES + 1 - retryCount] attempts, all with the same options and
    separated by the backoff delays. *)
Lemma retry_trace (options : IHttpRequestOptions) (retryCount : nat)
    (s : State) :
  exists k : nat,
    (1 <= k <= S MAX_RETRIES - retryCount \/ k = 1)%nat /\
    trace (snd (homebridgeApiRequestWithRetry options retryCount s))
    = List.app (trace s) (attempts options retryCount k).
Proof.
  funelim (homebridgeApiRequestWithRetry options retryCount s);
    pose proof (helpers_httpRequest_trace options s) as Hs1;
    dispatched; cbn [snd] in Hs1.
  - exists 1%nat. split; [now right | exact Hs1].
  - match goal with
    | IH : exists _, _ |- _ => destruct IH as [k [Hk Htrace]]
    end.
    exists (S k). split.
    + match goal with
      | H : (_ && _)%bool = true |- _ =>
          destruct (andb_prop _ _ H) as [_ Hlt]
      end.
      apply Nat.ltb_lt in Hlt. unfold MAX_RETRIES in *. left. lia.
    + cbv zeta in *. rewrite Htrace. cbn [sleep snd trace]. rewrite Hs1.
      rewrite <- !app_assoc. f_equal. cbn [List.app attempts].
      destruct k as [|k]; [destruct Hk; lia|].
      replace (retryCount + 1)%nat with (S retryCount) by lia.
      reflexivity.
  - exists 1%nat. split; [now right | exact Hs1].
Qed.

(** The statuses the retry function retries, one by one: a value is in
    [RETRY_STATUS_CODES] exactly when it is the number 429, 500, 502, 503
    or 504. *)
Lemma retried_statuses (v : JsValue) :
  includes RETRY_STATUS_CODES v = true <->
  exists code,
    v = JNum code /\
    (code = 429 \/ code = 500 \/ code = 502 \/ code = 503 \/ code = 504).
Proof.
  unfold includes, RETRY_STATUS_CODES. split.
  - intros H. apply existsb_exists in H. destruct H as (n & Hin & Heq).
    destruct v as [| | |m| | |]; try discriminate.
    cbn [strict_eq_num] in Heq. apply Z.eqb_eq in Heq. subst n.
    exists m. split; [reflexivity|].
    cbn [In] in Hin. intuition congruence.
  - intros (code & -> & Hcode). apply existsb_exists. exists code.
    cbn [strict_eq_num In]. rewrite Z.eqb_refl. intuition congruence.
Qed.

(** C1. When a dispatch fails with status 429, 500, 502, 503 or 504 and
    the attempt count is below 3, the retry function waits
    [1000 * 2 ^ attempt count] milliseconds (1000, 2000, 4000) and
    dispatches the same options again with the attempt count incremented;
    a failure whose status is none of these five numbers, or at attempt
    count 3, is returned as it is, and so is a success.  A call that starts
    at attempt count 0, as every [homebridgeApiRequest] does, makes between
    one and four attempts, all with the same options. *)
Theorem retry_policy (options : IHttpRequestOptions) (s : State) :
  (forall retryCount error s1 code,
     helpers_httpRequest options s = (Rejected error, s1) ->
     resolved_status error = JNum code ->
     code = 429 \/ code = 500 \/ code = 502 \/ code = 503 \/ code = 504 ->
     (retryCount < 3)%nat ->
     homebridgeApiRequestWithRetry options retryCount s =
       homebridgeApiRequestWithRetry options (retryCount + 1)%nat
         {| world := setTimeout (1000 * 2 ^ Z.of_nat retryCount) (world s1);
            trace := List.app (trace s)
                       [Request options;
                        Delay (1000 * 2 ^ Z.of_nat retryCount)] |}) /\
  (forall retryCount error s1,
     helpers_httpRequest options s = (Rejected error, s1) ->
     (forall code, resolved_status error = JNum code ->
        code <> 429 /\ code <> 500 /\ code <> 502 /\ code <> 503 /\
        code <> 504) \/
     (3 <= retryCount)%nat ->
     homebridgeApiRequestWithRetry options retryCount s
     = (Rejected error, s1)) /\
  (forall retryCount response s1,
     helpers_httpRequest options s = (Resolved response, s1) ->
     homebridgeApiRequestWithRetry options retryCount s
     = (Resolved response, s1)) /\
  (exists k : nat,
     (1 <= k <= 4)%nat /\
     trace (snd (homebridgeApiRequestWithRetry options 0 s))
     = List.app (trace s) (attempts options 0 k) /\
     requests (attempts options 0 k) = repeat options k /\
     delays (attempts options 0 k) = firstn (k - 1) [1000; 2000; 4000]) /\
  (forall this method endpoint body qs itemIndex credentials accessToken,
     getCredentials this = Resolved credentials ->
     getAccessToken this itemIndex = Resolved accessToken ->
     options = request_options credentials accessToken method
                 (normalizeEndpoint endpoint) body qs ->
     homebridgeApiRequest this method endpoint body qs itemIndex s =
       try_catch (homebridgeApiRequestWithRetry options 0)
         (fun error =>
            reject (handleApiError error (normalizeEndpoint endpoint)
                      (method_name method))) s).
Proof.
  repeat apply conj.
  - intros retryCount error s1 code Hfail Hstatus Hcode Hcount.
    assert (Hretried :
      includes RETRY_STATUS_CODES (resolved_status error) = true).
    { apply retried_statuses. exists code. split; assumption. }
    rewrite retry_equation, Hfail, Hretried.
    replace (retryCount <? MAX_RETRIES)%nat with true
      by (symmetry; apply Nat.ltb_lt; exact Hcount).
    cbn [andb sleep snd]. unfold RETRY_DELAY.
    pose proof (helpers_httpRequest_trace options s) as Hs1.
    rewrite Hfail in Hs1. cbn [snd] in Hs1.
    rewrite Hs1, <- app_assoc. reflexivity.
  - intros retryCount error s1 Hfail Hstop.
    rewrite retry_equation, Hfail.
    destruct Hstop as [Hother | Hcount].
    + destruct (includes RETRY_STATUS_CODES (resolved_status error))
        eqn:Hretried; [|reflexivity].
      apply retried_statuses in Hretried.
      destruct Hretried as (code & Hstatus & Hcode).
      specialize (Hother code Hstatus). exfalso. intuition congruence.
    + replace (retryCount <? MAX_RETRIES)%nat with false
        by (symmetry; apply Nat.ltb_ge; exact Hcount).
      now rewrite andb_false_r.
  - intros retryCount response s1 Hok.
    now rewrite retry_equation, Hok.
  - destruct (retry_trace options 0 s) as [k [Hk Htrace]].
    exists k. unfold MAX_RETRIES in Hk.
    assert (Hk4 : (1 <= k <= 4)%nat) by lia.
    split; [exact Hk4|]. split; [exact Htrace|].
    destruct k as [|[|[|[|[|k]]]]]; try lia; split; reflexivity.
  - intros this method endpoint body qs itemIndex credentials accessToken
      Hcred Htoken ->.
    unfold homebridgeApiRequest, await, settled.
    now rewrite Hcred, Htoken.
Qed.

(** C9. A failure from which no status code can be read (neither
    [error.statusCode] nor [error.response.statusCode] is set) is never
    retried: at any attempt count the error is returned as it is, after the
    one request and without any delay. *)
Theorem no_status_no_retry (options : IHttpRequestOptions)
    (retryCount : nat) (s s1 : State) (error : JsError) :
  helpers_httpRequest options s = (Rejected error, s1) ->
  error_get error "statusCode" = JUndefined ->
  get_field_opt (error_get error "response") "statusCode" = JUndefined ->
  includes RETRY_STATUS_CODES (resolved_status error) = false /\
  homebridgeApiRequestWithRetry options retryCount s = (Rejected error, s1) /\
  trace s1 = List.app (trace s) [Request options].
Proof.
  intros Hfail Hstatus Hresponse.
  assert (Hunset : resolved_status error = JUndefined).
  { unfold resolved_status. now rewrite Hstatus, Hresponse. }
  repeat apply conj.
  - now rewrite Hunset.
  - rewrite retry_equation, Hfail, Hunset. reflexivity.
  - pose proof (helpers_httpRequest_trace options s) as Hs1.
    now rewrite Hfail in Hs1.
Qed.

(** *** Request Dispatcher *)

Lemma requests_app (t1 t2 : list Event) :
  requests (List.app t1 t2) = List.app (requests t1) (requests t2).
Proof. apply flat_map_app. Qed.

Lemma requests_attempts (options : IHttpRequestOptions) (k retryCount : nat) :
  requests (attempts options retryCount k) = repeat options k.
Proof.
  revert retryCount. induction k as [|k IH]; intros retryCount.
  - reflexivity.
  - destruct k as [|k]; [reflexivity|].
    change (requests (attempts options retryCount (S (S k))))
      with (options :: requests (attempts options (S retryCount) (S k))).
    now rewrite IH.
Qed.

Lemma startsWith_normalizeEndpoint (endpoint : string) :
  startsWith (normalizeEndpoint endpoint) "/" = true.
Proof.
  unfold normalizeEndpoint.
  destruct (startsWith endpoint "/") eqn:Hslash; cbn [negb].
  - exact Hslash.
  - unfold startsWith. simpl. now destruct endpoint.
Qed.

(** When credentials and token resolve, the request is the retry function
    on the built options; a failure is normalised without touching the
    state. *)
Lemma homebridgeApiRequest_resolved (this : IExecuteFunctions)
    (method : IHttpRequestMethods) (endpoint : string)
    (body qs : option IDataObject) (itemIndex : nat) (s : State)
    (credentials : IHomebridgeCredentials) (accessToken : JsValue) :
  getCredentials this = Resolved credentials ->
  getAccessToken this itemIndex = Resolved accessToken ->
  let options :=
    request_options credentials accessToken method
      (normalizeEndpoint endpoint) body qs in
  homebridgeApiRequest this method endpoint body qs itemIndex s =
    match homebridgeApiRequestWithRetry options 0 s with
    | (Resolved response, s1) => (Resolved response, s1)
    | (Rejected error, s1) =>
        (Rejected (handleApiError error (normalizeEndpoint endpoint)
                     (method_name method)), s1)
    end.
Proof.
  intros Hcred Htoken. cbv zeta.
  unfold homebridgeApiRequest, await, settled, try_catch, reject.
  rewrite Hcred, Htoken. reflexivity.
Qed.

(** C7, as the code has it. With credentials and token resolved,
    [homebridgeApiRequest] sends every one of its HTTP requests to
    [serverUrl ++ path], where [path] is the endpoint with a slash put in
    front when it had none (so it always begins with a slash), with the
    headers Accept and Content-Type [application/json] and Authorization
    [Bearer <token>].  It sends one such request per attempt: between one
    and four, and exactly one when the first attempt succeeds or fails with
    a status that is not retried. *)
Theorem homebridgeApiRequest_dispatch (this : IExecuteFunctions)
    (method : IHttpRequestMethods) (endpoint : string)
    (body qs : option IDataObject) (itemIndex : nat) (s : State)
    (credentials : IHomebridgeCredentials) (accessToken : JsValue) :
  getCredentials this = Resolved credentials ->
  getAccessToken this itemIndex = Resolved accessToken ->
  let path := normalizeEndpoint endpoint in
  let options :=
    request_options credentials accessToken method path body qs in
  let after :=
    snd (homebridgeApiRequest this method endpoint body qs itemIndex s) in
  startsWith path "/" = true /\
  (startsWith endpoint "/" = true -> path = endpoint) /\
  (startsWith endpoint "/" = false -> path = "/" ++ endpoint) /\
  url options = serverUrl credentials ++ path /\
  headers options =
    [("Accept", "application/json");
     ("Content-Type", "application/json");
     ("Authorization", "Bearer " ++ js_to_string accessToken)] /\
  (exists k : nat,
     (1 <= k <= 4)%nat /\
     requests (trace after)
     = List.app (requests (trace s)) (repeat options k)) /\
  (forall r s1,
     helpers_httpRequest options s = (r, s1) ->
     match r with
     | Resolved _ => True
     | Rejected error =>
         includes RETRY_STATUS_CODES (resolved_status error) = false
     end ->
     trace after = List.app (trace s) [Request options]).
Proof.
  intros Hcred Htoken. cbv zeta.
  rewrite (homebridgeApiRequest_resolved this method endpoint body qs
             itemIndex s credentials accessToken Hcred Htoken).
  repeat apply conj; try reflexivity.
  - apply startsWith_normalizeEndpoint.
  - unfold normalizeEndpoint. now intros ->.
  - unfold normalizeEndpoint. now intros ->.
  - destruct (retry_trace
                (request_options credentials accessToken method
                   (normalizeEndpoint endpoint) body qs) 0 s)
      as [k [Hk Htrace]].
    exists k. unfold MAX_RETRIES in Hk. split; [lia|].
    destruct (homebridgeApiRequestWithRetry _ 0 s) as [[response | error] s1];
      cbn [snd] in *; now rewrite Htrace, requests_app, requests_attempts.
  - intros r s1 Hsent Hfinal.
    pose proof (helpers_httpRequest_trace
                  (request_options credentials accessToken method
                     (normalizeEndpoint endpoint) body qs) s) as Hs1.
    rewrite retry_equation, Hsent. rewrite Hsent in Hs1. cbn [snd] in Hs1.
    destruct r as [response | error]; [exact Hs1|].
    rewrite Hfinal. exact Hs1.
Qed.

(** *** Batch Runner *)

Lemma batch_loop_run (this : IExecuteFunctions) (operations : list Operation) :
  forall (i : nat) (results : list IDataObject) (s : State),
  exists entries s',
    batch_loop this operations i results s
    = (Resolved (List.app results entries), s') /\
    batch_run this i s operations entries s' /\
    List.length entries = List.length operations.
Proof.
  induction operations as [|operation rest IH]; intros i results s.
  - exists [], s. rewrite app_nil_r. repeat split. constructor.
  - cbn [batch_loop]. unfold await at 1. unfold try_catch, await, resolve.
    destruct (homebridgeApiRequest this (op_method operation)
                (op_endpoint operation) (op_body operation)
                (op_qs operation) i s) as [r s1] eqn:Hrequest.
    destruct (IH (S i) (List.app results [entry_of r]) s1)
      as (entries & s' & Hloop & Hrun & Hlength).
    exists (entry_of r :: entries), s'.
    repeat split.
    + destruct r as [result | error]; cbn [entry_of] in Hloop;
        rewrite Hloop, <- app_assoc; reflexivity.
    + econstructor; eassumption.
    + cbn [List.length]. now rewrite Hlength.
Qed.

(** Entry [n] of a run is the entry of the outcome of operation [n]. *)
Lemma batch_run_nth (this : IExecuteFunctions) (i : nat) (s s' : State)
    (operations : list Operation) (entries : list IDataObject) :
  batch_run this i s operations entries s' ->
  forall n operation,
    nth_error operations n = Some operation ->
    exists sn r sn',
      homebridgeApiRequest this (op_method operation)
        (op_endpoint operation) (op_body operation) (op_qs operation)
        (i + n) sn = (r, sn') /\
      nth_error entries n = Some (entry_of r).
Proof.
  induction 1 as [i s | i s s1 s2 operation rest r entries Hrequest Hrun IH];
    intros n op Hn.
  - destruct n; discriminate.
  - destruct n as [|n]; cbn [nth_error] in *.
    + injection Hn as <-. exists s, r, s1.
      rewrite Nat.add_0_r. now split.
    + destruct (IH n op Hn) as (sn & rn & sn' & Hreq & Hentry).
      exists sn, rn, sn'. rewrite <- Nat.add_succ_comm. now split.
Qed.

(** C5. For every list of operations the batch resolves (it never
    rejects) to a list of entries of the same length and order: every
    operation is requested, in order and whatever the outcomes before it,
    and entry [n] is [{ success: true, data }] when request [n] resolved to
    [data] and [{ success: false, error: error.message }] when it was
    rejected with [error]. *)
Theorem executeBatchOperations_entries (this : IExecuteFunctions)
    (operations : list Operation) (s : State) :
  exists results s',
    executeBatchOperations this operations s = (Resolved results, s') /\
    List.length results = List.length operations /\
    batch_run this 0 s operations results s' /\
    (forall n operation,
       nth_error operations n = Some operation ->
       exists sn r sn',
         homebridgeApiRequest this (op_method operation)
           (op_endpoint operation) (op_body operation) (op_qs operation)
           n sn = (r, sn') /\
         nth_error results n
         = Some match r with
                | Resolved data => [("success", JBool true); ("data", data)]
                | Rejected error =>
                    [("success", JBool false);
                     ("error", error_get error "message")]
                end).
Proof.
  destruct (batch_loop_run this operations 0 [] s)
    as (entries & s' & Hloop & Hrun & Hlength).
  exists entries, s'. repeat apply conj; try assumption.
  intros n operation Hn.
  destruct (batch_run_nth this 0 s s' operations entries Hrun n operation Hn)
    as (sn & r & sn' & Hrequest & Hentry).
  exists sn, r, sn'. split; [exact Hrequest|].
  rewrite Hentry. now destruct r.
Qed.

(** *** Pagination Helper *)

Lemma lookup_set_field_same (k : string) (v : JsValue) (o : IDataObject) :
  lookup k (set_field k v o) = v.
Proof.
  induction o as [|[k' v'] o IH]; cbn [set_field lookup].
  - now rewrite String.eqb_refl.
  - destruct (k =? k')%string eqn:Hk; cbn [lookup]; rewrite ?Hk.
    + now rewrite String.eqb_refl.
    + exact IH.
Qed.

Lemma lookup_set_field_other (k k' : string) (v : JsValue) (o : IDataObject) :
  (k =? k')%string = false ->
  lookup k (set_field k' v o) = lookup k o.
Proof.
  intros Hk. induction o as [|[k0 v0] o IH]; cbn [set_field lookup].
  - now rewrite Hk.
  - destruct (k' =? k0)%string eqn:Hk0; cbn [lookup].
    + apply String.eqb_eq in Hk0. subst k0. now rewrite Hk.
    + now rewrite IH.
Qed.

Lemma limit_reached (limit n : Z) :
  (limit >? 0) && (n >=? limit) = true <-> 0 < limit <= n.
Proof.
  rewrite andb_true_iff, Z.gtb_ltb, Z.geb_leb, Z.ltb_lt, Z.leb_le. tauto.
Qed.

Lemma limit_not_reached (limit n : Z) :
  ~ 0 < limit <= n -> (limit >? 0) && (n >=? limit) = false.
Proof.
  intros Hnot. apply not_true_is_false. now rewrite limit_reached.
Qed.

Lemma len_firstn (limit : Z) (xs : list JsValue) :
  0 < limit <= len xs -> len (firstn (Z.to_nat limit) xs) = limit.
Proof.
  unfold len. intros Hlimit. rewrite firstn_length_le; lia.
Qed.

(** One iteration of the loop, by the outcome of its page request. *)
Lemma paginate_step (fuel : nat) (this : IExecuteFunctions)
    (method : IHttpRequestMethods) (endpoint : string) (qs : IDataObject)
    (itemIndex : nat) (limit : Z) (allItems : list JsValue) (page : Z)
    (s s1 : State) (response : JsValue) :
  homebridgeApiRequest this method endpoint None
    (Some (page_query qs page)) itemIndex s = (Resolved response, s1) ->
  let found := List.app allItems (as_items response) in
  (0 < limit <= len found ->
     paginate (S fuel) this method endpoint qs itemIndex limit allItems page s
     = Some (Resolved (firstn (Z.to_nat limit) found), s1)) /\
  (~ 0 < limit <= len found -> len (as_items response) < pageSize ->
     paginate (S fuel) this method endpoint qs itemIndex limit allItems page s
     = Some (Resolved found, s1)) /\
  (~ 0 < limit <= len found -> pageSize <= len (as_items response) ->
     paginate (S fuel) this method endpoint qs itemIndex limit allItems page s
     = paginate fuel this method endpoint qs itemIndex limit found
         (page + 1) s1).
Proof.
  intros Hpage. cbv zeta. cbn [paginate]. rewrite Hpage.
  repeat apply conj.
  - intros Hlimit. apply limit_reached in Hlimit. now rewrite Hlimit.
  - intros Hlimit Hshort. rewrite (limit_not_reached _ _ Hlimit).
    apply Z.ltb_lt in Hshort. now rewrite Hshort.
  - intros Hlimit Hfull. rewrite (limit_not_reached _ _ Hlimit).
    apply Z.ltb_ge in Hfull. now rewrite Hfull.
Qed.

(** A result does not depend on the bound: more fuel gives the same. *)
Lemma paginate_more_fuel (this : IExecuteFunctions)
    (method : IHttpRequestMethods) (endpoint : string) (qs : IDataObject)
    (itemIndex : nat) (limit : Z) (fuel : nat) :
  forall (extra : nat) (allItems : list JsValue) (page : Z) (s : State) r,
    paginate fuel this method endpoint qs itemIndex limit allItems page s
    = Some r ->
    paginate (fuel + extra) this method endpoint qs itemIndex limit
      allItems page s = Some r.
Proof.
  induction fuel as [|fuel IH]; intros extra allItems page s r;
    [discriminate|].
  cbn [paginate Nat.add].
  destruct (homebridgeApiRequest this method endpoint None
              (Some (page_query qs page)) itemIndex s)
    as [[response | error] s1]; [|trivial].
  destruct ((limit >? 0) && _); [trivial|].
  destruct (_ <? pageSize); [trivial|]. apply IH.
Qed.

(** With a positive limit the loop always leaves: every page that does not
    end it adds at least [pageSize] items, so [limit] iterations are enough
    whatever the transport answers. *)
Lemma paginate_returns_with_limit (this : IExecuteFunctions)
    (method : IHttpRequestMethods) (endpoint : string) (qs : IDataObject)
    (itemIndex : nat) (limit : Z) (fuel : nat) :
  forall (allItems : list JsValue) (page : Z) (s : State),
    len allItems < limit ->
    limit - len allItems <= Z.of_nat fuel ->
    exists r,
      paginate fuel this method endpoint qs itemIndex limit allItems page s
      = Some r.
Proof.
  induction fuel as [|fuel IH]; intros allItems page s Hbelow Hfuel;
    [lia|].
  cbn [paginate].
  destruct (homebridgeApiRequest this method endpoint None
              (Some (page_query qs page)) itemIndex s)
    as [[response | error] s1]; [|eauto].
  destruct ((limit >? 0) && _) eqn:Hreached; [eauto|].
  destruct (_ <? pageSize) eqn:Hshort; [eauto|].
  apply Z.ltb_ge in Hshort. unfold pageSize in Hshort.
  assert (Hfound : len (List.app allItems (as_items response))
                   = len allItems + len (as_items response))
    by (unfold len; rewrite length_app; lia).
  assert (Hnot : ~ 0 < limit <= len (List.app allItems (as_items response))).
  { intros Hlimit. apply limit_reached in Hlimit. congruence. }
  apply IH; unfold len in *; lia.
Qed.

(** Without a limit nothing bounds the loop: against a transport that
    answers every page request with at least [pageSize] items, no number of
    iterations is enough. *)
Lemma paginate_unbounded_without_limit (this : IExecuteFunctions)
    (method : IHttpRequestMethods) (endpoint : string) (qs : IDataObject)
    (itemIndex : nat) (limit : Z) :
  limit <= 0 ->
  (forall page s, exists items s1,
     homebridgeApiRequest this method endpoint None
       (Some (page_query qs page)) itemIndex s = (Resolved (JArr items), s1)
     /\ pageSize <= len items) ->
  forall (fuel : nat) (allItems : list JsValue) (page : Z) (s : State),
    paginate fuel this method endpoint qs itemIndex limit allItems page s
    = None.
Proof.
  intros Hlimit Hfull. induction fuel as [|fuel IH]; intros allItems page s;
    [reflexivity|].
  destruct (Hfull page s) as (items & s1 & Hpage & Hitems).
  destruct (paginate_step fuel this method endpoint qs itemIndex limit
              allItems page s s1 (JArr items) Hpage) as (_ & _ & Hnext).
  rewrite Hnext; [apply IH | lia | exact Hitems].
Qed.

(** C6. The helper asks for page 1 first and for [page + 1] after every
    page that neither ends the loop, always with page size 100, and appends
    each page to the items found so far.  The loop continues exactly over
    pages of at least 100 items that leave a positive limit unreached; it
    returns at the first page with which the items found reach a positive
    limit (then exactly [limit] items, the first ones) or, failing that, at
    the first page of fewer than 100 items (then all items found).  Pages of
    100, 100 and 40 items without limit give the 240 items after the third
    request; pages of 100 and 100 items with limit 150 give the first 150
    items after the second request.  (A page request that is rejected ends
    the helper with that rejection.) *)
Theorem handlePaginatedRequest_pages (this : IExecuteFunctions)
    (method : IHttpRequestMethods) (endpoint : string) (qs : IDataObject)
    (itemIndex : nat) :
  let request := fun page =>
    homebridgeApiRequest this method endpoint None
      (Some (page_query qs page)) itemIndex in
  (forall page,
     lookup "page" (page_query qs page) = JNum page /\
     lookup "limit" (page_query qs page) = JNum 100) /\
  (forall fuel limit s,
     handlePaginatedRequest fuel this method endpoint qs itemIndex limit s
     = paginate fuel this method endpoint qs itemIndex limit [] 1 s) /\
  (forall fuel limit allItems page s response s1,
     request page s = (Resolved response, s1) ->
     let found := List.app allItems (as_items response) in
     (0 < limit <= len found ->
        paginate (S fuel) this method endpoint qs itemIndex limit
          allItems page s
        = Some (Resolved (firstn (Z.to_nat limit) found), s1) /\
        len (firstn (Z.to_nat limit) found) = limit) /\
     (~ 0 < limit <= len found -> len (as_items response) < 100 ->
        paginate (S fuel) this method endpoint qs itemIndex limit
          allItems page s
        = Some (Resolved found, s1)) /\
     (~ 0 < limit <= len found -> 100 <= len (as_items response) ->
        paginate (S fuel) this method endpoint qs itemIndex limit
          allItems page s
        = paginate fuel this method endpoint qs itemIndex limit found
            (page + 1) s1)) /\
  (forall fuel limit allItems page s r,
     paginate fuel this method endpoint qs itemIndex limit allItems page s
     = Some r ->
     forall extra,
       paginate (fuel + extra) this method endpoint qs itemIndex limit
         allItems page s = Some r) /\
  (forall fuel limit s s1 s2 s3 p1 p2 p3,
     limit <= 0 ->
     request 1 s = (Resolved (JArr p1), s1) ->
     request 2 s1 = (Resolved (JArr p2), s2) ->
     request 3 s2 = (Resolved (JArr p3), s3) ->
     len p1 = 100 -> len p2 = 100 -> len p3 = 40 ->
     handlePaginatedRequest (3 + fuel) this method endpoint qs itemIndex
       limit s
     = Some (Resolved (List.app (List.app p1 p2) p3), s3) /\
     len (List.app (List.app p1 p2) p3) = 240) /\
  (forall fuel s s1 s2 p1 p2,
     request 1 s = (Resolved (JArr p1), s1) ->
     request 2 s1 = (Resolved (JArr p2), s2) ->
     len p1 = 100 -> len p2 = 100 ->
     handlePaginatedRequest (2 + fuel) this method endpoint qs itemIndex
       150 s
     = Some (Resolved (firstn 150 (List.app p1 p2)), s2) /\
     len (firstn 150 (List.app p1 p2)) = 150) /\
  (forall fuel limit allItems page s error s1,
     request page s = (Rejected error, s1) ->
     paginate (S fuel) this method endpoint qs itemIndex limit allItems page s
     = Some (Rejected error, s1)).
Proof.
  cbv zeta. split; [|split; [|split; [|split; [|split; [|split]]]]].
  - intros page. unfold page_query. split.
    + rewrite lookup_set_field_other by reflexivity.
      apply lookup_set_field_same.
    + apply lookup_set_field_same.
  - reflexivity.
  - intros fuel limit allItems page s response s1 Hpage.
    destruct (paginate_step fuel this method endpoint qs itemIndex limit
                allItems page s s1 response Hpage) as (Hcut & Hshort & Hfull).
    repeat split; auto. now apply len_firstn.
  - intros fuel limit allItems page s r Hr extra.
    now apply paginate_more_fuel.
  - intros fuel limit s s1 s2 s3 p1 p2 p3 Hlimit H1 H2 H3 Hp1 Hp2 Hp3.
    unfold len in *. split; [|rewrite !length_app; lia].
    unfold handlePaginatedRequest.
    change (3 + fuel)%nat with (S (2 + fuel)).
    destruct (paginate_step (2 + fuel) this method endpoint qs itemIndex
                limit [] 1 s s1 (JArr p1) H1) as (_ & _ & ->);
      cbn [as_items List.app]; unfold len, pageSize; try lia.
    change (2 + fuel)%nat with (S (1 + fuel)).
    destruct (paginate_step (1 + fuel) this method endpoint qs itemIndex
                limit p1 (1 + 1) s1 s2 (JArr p2) H2) as (_ & _ & ->);
      cbn [as_items]; unfold len, pageSize; rewrite ?length_app; try lia.
    change (1 + fuel)%nat with (S fuel).
    destruct (paginate_step fuel this method endpoint qs itemIndex
                limit (List.app p1 p2) (1 + 1 + 1) s2 s3 (JArr p3) H3)
      as (_ & -> & _);
      cbn [as_items]; unfold len, pageSize; rewrite ?length_app; try lia.
    reflexivity.
  - intros fuel s s1 s2 p1 p2 H1 H2 Hp1 Hp2.
    split;
      [|apply (len_firstn 150 (List.app p1 p2)); unfold len in *;
        rewrite length_app; lia].
    unfold handlePaginatedRequest. unfold len in *.
    change (2 + fuel)%nat with (S (1 + fuel)).
    destruct (paginate_step (1 + fuel) this method endpoint qs itemIndex
                150 [] 1 s s1 (JArr p1) H1) as (_ & _ & ->);
      cbn [as_items List.app]; unfold len, pageSize; try lia.
    change (1 + fuel)%nat with (S fuel).
    destruct (paginate_step fuel this method endpoint qs itemIndex
                150 p1 (1 + 1) s1 s2 (JArr p2) H2) as (-> & _ & _);
      cbn [as_items]; unfold len; rewrite ?length_app; try lia.
    reflexivity.
  - intros fuel limit allItems page s error s1 Hpage.
    cbn [paginate]. now rewrite Hpage.
Qed.

(** C10. A page response that is a single object and not an array is
    taken as a page of one item; one is below the page size, so the loop
    returns after that page with the object appended to the items found.
    When the first response is such an object the helper therefore returns
    the one-element list after that one page request, for every limit; with
    credentials and token resolved and a transport that answers the request
    with the object, the trace grows by exactly that one HTTP request. *)
Theorem handlePaginatedRequest_single_object (this : IExecuteFunctions)
    (method : IHttpRequestMethods) (endpoint : string) (qs : IDataObject)
    (itemIndex : nat) (limit : Z) (fuel : nat) :
  (forall allItems page s response s1,
     isArray response = false ->
     homebridgeApiRequest this method endpoint None
       (Some (page_query qs page)) itemIndex s = (Resolved response, s1) ->
     limit <= 0 \/ len allItems < limit ->
     as_items response = [response] /\
     paginate (S fuel) this method endpoint qs itemIndex limit allItems page s
     = Some (Resolved (List.app allItems [response]), s1)) /\
  (forall s response s1,
     isArray response = false ->
     homebridgeApiRequest this method endpoint None
       (Some (page_query qs 1)) itemIndex s = (Resolved response, s1) ->
     handlePaginatedRequest (S fuel) this method endpoint qs itemIndex limit s
     = Some (Resolved [response], s1)) /\
  (forall s credentials accessToken response w1,
     getCredentials this = Resolved credentials ->
     getAccessToken this itemIndex = Resolved accessToken ->
     let options :=
       request_options credentials accessToken method
         (normalizeEndpoint endpoint) None (Some (page_query qs 1)) in
     httpRequest options (world s) = (Resolved response, w1) ->
     isArray response = false ->
     handlePaginatedRequest (S fuel) this method endpoint qs itemIndex limit s
     = Some (Resolved [response],
             {| world := w1;
                trace := List.app (trace s) [Request options] |})).
Proof.
  assert (Hloop : forall allItems page s response s1,
     isArray response = false ->
     homebridgeApiRequest this method endpoint None
       (Some (page_query qs page)) itemIndex s = (Resolved response, s1) ->
     limit <= 0 \/ len allItems < limit ->
     as_items response = [response] /\
     paginate (S fuel) this method endpoint qs itemIndex limit allItems page s
     = Some (Resolved (List.app allItems [response]), s1)).
  { intros allItems page s response s1 Hobject Hpage Hbelow.
    assert (Hitems : as_items response = [response])
      by (destruct response; try reflexivity; discriminate).
    split; [exact Hitems|].
    destruct (paginate_step fuel this method endpoint qs itemIndex limit
                allItems page s s1 response Hpage) as (Hcut & Hshort & _).
    rewrite Hitems in Hcut, Hshort.
    assert (Hlen : len (List.app allItems [response]) = len allItems + 1)
      by (unfold len; rewrite length_app; cbn [List.length]; lia).
    destruct (Z_lt_le_dec 0 limit) as [Hpos | Hnone].
    - destruct (Z_le_gt_dec limit (len (List.app allItems [response])))
        as [Hreached | Hbelow'].
      + rewrite Hcut by lia. rewrite firstn_all2; [reflexivity|].
        unfold len in *. lia.
      + apply Hshort; [lia | reflexivity].
    - apply Hshort; [lia | reflexivity]. }
  repeat apply conj.
  - exact Hloop.
  - intros s response s1 Hobject Hpage. unfold handlePaginatedRequest.
    apply (Hloop [] 1 s response s1 Hobject Hpage).
    unfold len. cbn [List.length]. lia.
  - intros s credentials accessToken response w1 Hcred Htoken options
      Hanswer Hobject.
    unfold handlePaginatedRequest.
    apply (Hloop [] 1 s response _ Hobject);
      [|unfold len; cbn [List.length]; lia].
    rewrite (homebridgeApiRequest_resolved this method endpoint None
               (Some (page_query qs 1)) itemIndex s credentials accessToken
               Hcred Htoken).
    fold options. rewrite retry_equation.
    unfold helpers_httpRequest. rewrite Hanswer. reflexivity.
Qed.

(** *** Output simplification *)

Lemma lookup_delete_field (k k' : string) (o : IDataObject) :
  lookup k (delete_field k' o) =
    if (k =? k')%string then JUndefined else lookup k o.
Proof.
  induction o as [|[k0 v0] o IH]; cbn [delete_field filter lookup fst].
  - now destruct (k =? k')%string.
  - fold (delete_field k' o).
    destruct (k' =? k0)%string eqn:Hk0; cbn [negb lookup].
    + apply String.eqb_eq in Hk0. subst k0. rewrite IH.
      now destruct (k =? k')%string.
    + rewrite IH. destruct (k =? k')%string eqn:Hk; [|reflexivity].
      apply String.eqb_eq in Hk. subst k'. now rewrite Hk0.
Qed.

Lemma simplifyOutputItem_filter (item : JsValue) :
  simplifyOutputItem item = filter kept (own_properties item).
Proof.
  unfold simplifyOutputItem, fieldsToRemove. cbn [fold_left].
  induction (own_properties item) as [|[k v] o IH]; [reflexivity|].
  unfold delete_field in *. cbn [filter fst]. unfold kept at 1.
  cbn [existsb fst fieldsToRemove].
  rewrite (String.eqb_sym k "__v"), (String.eqb_sym k "_id"),
    (String.eqb_sym k "updatedAt"), (String.eqb_sym k "createdAt").
  destruct ("__v" =? k)%string; cbn [negb filter fst orb]; [exact IH|].
  destruct ("_id" =? k)%string; cbn [negb filter fst orb]; [exact IH|].
  destruct ("updatedAt" =? k)%string; cbn [negb filter fst orb]; [exact IH|].
  destruct ("createdAt" =? k)%string; cbn [negb filter fst orb]; [exact IH|].
  now rewrite IH.
Qed.

Lemma filter_twice {A : Type} (f : A -> bool) (l : list A) :
  filter f (filter f l) = filter f l.
Proof.
  induction l as [|x l IH]; [reflexivity|]. cbn [filter].
  destruct (f x) eqn:Hx; cbn [filter]; rewrite ?Hx, IH; reflexivity.
Qed.

(** The simplified item has none of the fields [__v], [_id], [updatedAt],
    [createdAt], and every other field with the value it had, nested
    values included; an array is simplified element by element. *)
Theorem simplifyOutput_fields :
  (forall item,
     lookup "__v" (simplifyOutputItem item) = JUndefined /\
     lookup "_id" (simplifyOutputItem item) = JUndefined /\
     lookup "updatedAt" (simplifyOutputItem item) = JUndefined /\
     lookup "createdAt" (simplifyOutputItem item) = JUndefined) /\
  (forall item k,
     k <> "__v" -> k <> "_id" -> k <> "updatedAt" -> k <> "createdAt" ->
     lookup k (simplifyOutputItem item) = lookup k (own_properties item)) /\
  (forall fields k,
     k <> "__v" -> k <> "_id" -> k <> "updatedAt" -> k <> "createdAt" ->
     lookup k (simplifyOutputItem (JObj fields)) = lookup k fields) /\
  (forall xs i item,
     nth_error xs i = Some item ->
     exists ys,
       simplifyOutput (JArr xs) = JArr ys /\
       List.length ys = List.length xs /\
       nth_error ys i = Some (JObj (simplifyOutputItem item))).
Proof.
  assert (Hlookup : forall item k,
    lookup k (simplifyOutputItem item) =
      if ((k =? "__v") || (k =? "_id") || (k =? "updatedAt")
          || (k =? "createdAt"))%string
      then JUndefined
      else lookup k (own_properties item)).
  { intros item k. unfold simplifyOutputItem, fieldsToRemove.
    cbn [fold_left]. rewrite !lookup_delete_field.
    destruct (k =? "createdAt")%string, (k =? "updatedAt")%string,
      (k =? "_id")%string, (k =? "__v")%string; reflexivity. }
  assert (Hother : forall item k,
    k <> "__v" -> k <> "_id" -> k <> "updatedAt" -> k <> "createdAt" ->
    lookup k (simplifyOutputItem item) = lookup k (own_properties item)).
  { intros item k H1 H2 H3 H4. rewrite Hlookup.
    apply String.eqb_neq in H1, H2, H3, H4.
    rewrite H1, H2, H3, H4. reflexivity. }
  split; [|split; [|split]].
  - intros item. rewrite !Hlookup. repeat split; reflexivity.
  - exact Hother.
  - intros fields k H1 H2 H3 H4.
    exact (Hother (JObj fields) k H1 H2 H3 H4).
  - intros xs i item Hnth. eexists. split; [reflexivity|]. split.
    + apply length_map.
    + rewrite nth_error_map, Hnth. reflexivity.
Qed.

(** Simplifying twice is the same as simplifying once. *)
Theorem simplifyOutput_idempotent (data : JsValue) :
  simplifyOutput (simplifyOutput data) = simplifyOutput data.
Proof.
  assert (Hitem : forall item,
    simplifyOutputItem (JObj (simplifyOutputItem item))
    = simplifyOutputItem item).
  { intros item. rewrite (simplifyOutputItem_filter (JObj _)).
    cbn [own_properties]. rewrite simplifyOutputItem_filter.
    apply filter_twice. }
  destruct data as [| | | | |xs|o]; cbn [simplifyOutput];
    try (now rewrite Hitem).
  f_equal. rewrite map_map. apply map_ext. intros item. now rewrite Hitem.
Qed.

(** *** Required parameters *)

(** The check passes exactly when no value is [undefined], [null] or the
    empty string (so [0] and [false] pass); otherwise it fails for the first
    such parameter in property order, naming it and the item index. *)
Theorem validateRequiredParameters_first_missing (parameters : IDataObject)
    (itemIndex : nat) :
  (validateRequiredParameters parameters itemIndex = Resolved tt <->
   forall key value, In (key, value) parameters ->
     value <> JUndefined /\ value <> JNull /\ value <> JStr EmptyString) /\
  (forall before key value after,
     parameters = List.app before ((key, value) :: after) ->
     (forall kv, In kv before -> is_missing (snd kv) = false) ->
     is_missing value = true ->
     validateRequiredParameters parameters itemIndex
     = Rejected (NodeOperationError
         ("Required parameter " ++ dquote ++ key ++ dquote
          ++ " is missing or empty.") (Some itemIndex))) /\
  is_missing (JNum 0) = false /\ is_missing (JBool false) = false.
Proof.
  assert (Hmissing : forall v,
    is_missing v = false <->
    v <> JUndefined /\ v <> JNull /\ v <> JStr EmptyString).
  { intros v. destruct v as [| | | |s| |]; cbn [is_missing];
      try (split; [intros _; repeat split; discriminate | reflexivity]);
      try (split; [discriminate | intros (H1 & H2 & H3); congruence]).
    unfold is_empty. destruct (String.eqb_spec s EmptyString) as [-> | Hs].
    - split; [discriminate | intros (_ & _ & H); congruence].
    - split; [intros _; repeat split; congruence | reflexivity]. }
  repeat apply conj; try reflexivity.
  - induction parameters as [|[k v] rest IH]; cbn [validateRequiredParameters].
    + intros _ key value [].
    + destruct (is_missing v) eqn:Hv; [discriminate|].
      intros Hrest key value [[= <- <-] | Hin].
      * apply Hmissing. exact Hv.
      * exact (IH Hrest key value Hin).
  - induction parameters as [|[k v] rest IH]; cbn [validateRequiredParameters];
      intros Hall; [reflexivity|].
    replace (is_missing v) with false
      by (symmetry; apply Hmissing; apply (Hall k v); now left).
    apply IH. intros key value Hin. apply (Hall key value). now right.
  - intros before key value after -> Hbefore Hvalue.
    induction before as [|[k v] before IH]; cbn [List.app
      validateRequiredParameters].
    + now rewrite Hvalue.
    + pose proof (Hbefore (k, v) (or_introl eq_refl)) as Hv.
      cbn [snd] in Hv. rewrite Hv. apply IH.
      intros kv Hin. apply Hbefore. now right.
Qed.

(** *** UUID format *)

Lemma hex_run_spec (n : nat) (s rest : string) :
  hex_run n s = Some rest <->
  exists a, s = a ++ rest /\ String.length a = n /\ all_hex a.
Proof.
  unfold all_hex. revert s. induction n as [|n IH]; intros s; cbn [hex_run].
  - split.
    + intros [= ->]. exists EmptyString. repeat split.
    + intros (a & -> & Hlen & _). destruct a; [reflexivity | discriminate].
  - destruct s as [|c s].
    + split; [discriminate|]. intros (a & Hs & Hlen & _).
      destruct a; discriminate.
    + destruct (is_hex_digit c) eqn:Hc.
      * rewrite IH. split.
        -- intros (a & -> & Hlen & Hhex). exists (String c a).
           cbn [String.length list_ascii_of_string forallb].
           rewrite Hc, Hhex, Hlen. repeat split.
        -- intros (a & Hs & Hlen & Hhex). destruct a as [|c' a];
             [discriminate|].
           cbn [String.append] in Hs. injection Hs as <- ->.
           cbn [String.length list_ascii_of_string forallb] in Hlen, Hhex.
           exists a. apply andb_prop in Hhex. repeat split; [lia | apply Hhex].
      * split; [discriminate|]. intros (a & Hs & Hlen & Hhex).
        destruct a as [|c' a]; [discriminate|].
        cbn [String.append] in Hs. injection Hs as <- ->.
        cbn [list_ascii_of_string forallb] in Hhex.
        rewrite Hc in Hhex. discriminate.
Qed.

Lemma match_item_spec (item : PatternItem) (s rest : string) :
  match_item item s = Some rest <->
  exists a, s = a ++ rest /\ item_matches item a.
Proof.
  destruct item as [n|]; cbn [match_item item_matches].
  - apply hex_run_spec.
  - destruct s as [|c s].
    + split; [discriminate|]. intros (a & Hs & ->). discriminate.
    + destruct (Ascii.eqb_spec c "-") as [-> | Hc].
      * split.
        -- intros [= ->]. now exists "-".
        -- intros (a & Hs & ->). now injection Hs as ->.
      * split; [discriminate|]. intros (a & Hs & ->).
        injection Hs as -> _. contradiction.
Qed.

Lemma append_empty_r (a : string) : a ++ EmptyString = a.
Proof. induction a as [|c a IH]; cbn; [reflexivity | now rewrite IH]. Qed.

Lemma match_items_spec (items : list PatternItem) (s : string) :
  match_items items s = true <->
  exists parts,
    Forall2 item_matches items parts /\ s = String.concat EmptyString parts.
Proof.
  revert s. induction items as [|item items IH]; intros s;
    cbn [match_items].
  - unfold is_empty. rewrite String.eqb_eq. split.
    + intros ->. exists []. split; [constructor | reflexivity].
    + intros (parts & Hparts & ->). now inversion Hparts.
  - split.
    + destruct (match_item item s) as [rest|] eqn:Hitem; [|discriminate].
      apply match_item_spec in Hitem. destruct Hitem as (a & -> & Ha).
      intros Hrest. apply IH in Hrest.
      destruct Hrest as (parts & Hparts & ->).
      exists (a :: parts). split; [now constructor|].
      destruct parts; cbn [String.concat]; [|reflexivity].
      apply append_empty_r.
    + intros (parts & Hparts & ->).
      inversion Hparts as [|item' a items' parts' Ha Hrest]; subst.
      assert (Hitem : match_item item
                (String.concat EmptyString (a :: parts'))
              = Some (String.concat EmptyString parts')).
      { apply match_item_spec. exists a. split; [|exact Ha].
        destruct parts'; cbn [String.concat]; [|reflexivity].
        symmetry. apply append_empty_r. }
      rewrite Hitem. apply IH. now exists parts'.
Qed.

(** A string is accepted as a UUID exactly when it is five runs of 8, 4,
    4, 4 and 12 hexadecimal digits (of either case) joined by single
    hyphens, with nothing before or after; it then has 36 characters. *)
Theorem isValidUuid_shape (uuid : string) :
  (isValidUuid uuid = true <->
   exists a b c d e,
     uuid = a ++ "-" ++ b ++ "-" ++ c ++ "-" ++ d ++ "-" ++ e /\
     String.length a = 8%nat /\ String.length b = 4%nat /\
     String.length c = 4%nat /\ String.length d = 4%nat /\
     String.length e = 12%nat /\
     all_hex a /\ all_hex b /\ all_hex c /\ all_hex d /\ all_hex e) /\
  (isValidUuid uuid = true -> String.length uuid = 36%nat).
Proof.
  assert (Hshape : isValidUuid uuid = true <->
   exists a b c d e,
     uuid = a ++ "-" ++ b ++ "-" ++ c ++ "-" ++ d ++ "-" ++ e /\
     String.length a = 8%nat /\ String.length b = 4%nat /\
     String.length c = 4%nat /\ String.length d = 4%nat /\
     String.length e = 12%nat /\
     all_hex a /\ all_hex b /\ all_hex c /\ all_hex d /\ all_hex e).
  { unfold isValidUuid. rewrite match_items_spec. unfold uuidRegex. split.
    - intros (parts & Hparts & ->).
      repeat match goal with
             | H : Forall2 _ (_ :: _) _ |- _ => inversion H; subst; clear H
             | H : Forall2 _ [] _ |- _ => inversion H; subst; clear H
             end.
      cbn [item_matches] in *.
      repeat match goal with
             | H : _ /\ _ |- _ => destruct H
             end.
      subst. do 5 eexists. cbn [String.concat].
      repeat split; eassumption.
    - intros (a & b & c & d & e & -> & Ha & Hb & Hc & Hd & He
              & Ha' & Hb' & Hc' & Hd' & He').
      exists [a; "-"; b; "-"; c; "-"; d; "-"; e]. split.
      + repeat constructor; assumption.
      + cbn [String.concat]. reflexivity. }
  split; [exact Hshape|].
  intros Hvalid. apply Hshape in Hvalid.
  destruct Hvalid as (a & b & c & d & e & -> & Ha & Hb & Hc & Hd & He & _).
  rewrite !length_append, Ha, Hb, Hc, Hd, He. reflexivity.
Qed.

(** *** Tool definitions *)

Lemma required_keys_resolved (keys : list string) (parameters : IDataObject) :
  (forall key, In key keys -> nullish (lookup key parameters) = false) ->
  required_keys keys parameters
  = Resolved (filter (fun key => is_required (lookup key parameters)) keys).
Proof.
  induction keys as [|key keys IH]; intros Hschemas; [reflexivity|].
  cbn [required_keys filter].
  rewrite (Hschemas key (or_introl eq_refl)).
  rewrite IH by (intros k Hk; apply Hschemas; now right).
  unfold is_required.
  destruct (get_field (lookup key parameters) "required") as [| |[|]| | | |];
    reflexivity.
Qed.

Lemma required_keys_rejected (keys : list string) (parameters : IDataObject) :
  (exists key, In key keys /\ nullish (lookup key parameters) = true) ->
  exists message, required_keys keys parameters = Rejected (TypeError message).
Proof.
  induction keys as [|key keys IH]; intros (k & Hin & Hk); [destruct Hin|].
  cbn [required_keys].
  destruct (nullish (lookup key parameters)) eqn:Hkey.
  - unfold cannot_read. eexists. reflexivity.
  - destruct Hin as [-> | Hin]; [congruence|].
    destruct (IH (ex_intro _ k (conj Hin Hk))) as (message & ->).
    now exists message.
Qed.

(** With every parameter schema an actual value, the tool definition
    resolves, is named [homebridge_<resource>_<operation>], and lists as
    required exactly the parameters whose schema has [required] equal to the
    boolean [true] (a truthy text or number does not count), in property
    order; a schema that is null or undefined makes it throw a TypeError. *)
Theorem generateMcpToolDefinition_required
    (resource operation description : string) (parameters : IDataObject) :
  ((forall key value,
      In (key, value) parameters -> nullish (lookup key parameters) = false) ->
   exists required,
     generateMcpToolDefinition resource operation description parameters
     = Resolved
         [("name", JStr ("homebridge_" ++ resource ++ "_" ++ operation));
          ("description", JStr ("Homebridge: " ++ description));
          ("inputSchema",
           JObj [("type", JStr "object");
                 ("properties", JObj parameters);
                 ("required", JArr (map JStr required))])] /\
     required
     = filter (fun key => is_required (lookup key parameters))
         (map fst parameters) /\
     (forall key,
        In key required <->
        In key (map fst parameters) /\
        get_field (lookup key parameters) "required" = JBool true)) /\
  ((exists key value,
      In (key, value) parameters /\ nullish (lookup key parameters) = true) ->
   exists message,
     generateMcpToolDefinition resource operation description parameters
     = Rejected (TypeError message)).
Proof.
  split.
  - intros Hschemas.
    assert (Hkeys : forall key, In key (map fst parameters) ->
                    nullish (lookup key parameters) = false).
    { intros key Hin. apply in_map_iff in Hin.
      destruct Hin as ([k v] & <- & Hin). exact (Hschemas k v Hin). }
    eexists. unfold generateMcpToolDefinition.
    rewrite (required_keys_resolved _ _ Hkeys).
    split; [reflexivity|]. split; [reflexivity|].
    intros key. rewrite filter_In. unfold is_required.
    destruct (get_field (lookup key parameters) "required")
      as [| |[|]| | | |]; split; intros [Hin Heq]; try discriminate;
      split; trivial.
  - intros (key & value & Hin & Hnull).
    unfold generateMcpToolDefinition.
    destruct (required_keys_rejected (map fst parameters) parameters)
      as (message & ->); [|now exists message].
    exists key. split; [|exact Hnull].
    apply in_map_iff. now exists (key, value).
Qed.

(** *** Durations *)

(** For a whole number of seconds that is not negative and below [2 ^ 53]
    (the range in which the code's arithmetic on doubles is exact and every
    field is printed with all its digits), the days, hours, minutes and
    seconds of the duration add up to the input, with hours below 24 and
    minutes and seconds below 60, and the text lists the positive ones in
    that order, or [0s] when there is none. *)
Theorem formatDuration_fields (seconds : Z) :
  0 <= seconds ->
  seconds < 2 ^ 53 ->
  let days := duration_days seconds in
  let hours := duration_hours seconds in
  let minutes := duration_minutes seconds in
  let secs := duration_secs seconds in
  days * 86400 + hours * 3600 + minutes * 60 + secs = seconds /\
  0 <= days /\ 0 <= hours < 24 /\ 0 <= minutes < 60 /\ 0 <= secs < 60 /\
  formatDuration seconds =
    join " "
      (if seconds =? 0 then ["0s"]
       else List.app (shown days "d")
              (List.app (shown hours "h")
                 (List.app (shown minutes "m") (shown secs "s")))).
Proof.
  clear. intros Hseconds _. cbv zeta.
  unfold duration_days, duration_hours, duration_minutes, duration_secs.
  rewrite !Z.rem_mod_nonneg by lia.
  assert (Hd : 0 <= seconds / 86400) by (apply Z.div_pos; lia).
  assert (Hh : 0 <= seconds mod 86400 / 3600 < 24).
  { pose proof (Z.mod_pos_bound seconds 86400 ltac:(lia)).
    split; [apply Z.div_pos; lia | apply Z.div_lt_upper_bound; lia]. }
  assert (Hm : 0 <= seconds mod 3600 / 60 < 60).
  { pose proof (Z.mod_pos_bound seconds 3600 ltac:(lia)).
    split; [apply Z.div_pos; lia | apply Z.div_lt_upper_bound; lia]. }
  assert (Hs : 0 <= seconds mod 60 < 60)
    by (apply Z.mod_pos_bound; lia).
  assert (Hsum : seconds / 86400 * 86400 + seconds mod 86400 / 3600 * 3600
                 + seconds mod 3600 / 60 * 60 + seconds mod 60 = seconds).
  { Z.to_euclidean_division_equations. lia. }
  repeat apply conj; try lia.
  unfold formatDuration, duration_days, duration_hours, duration_minutes,
    duration_secs, shown.
  rewrite !Z.rem_mod_nonneg by lia. cbn [List.app].
  destruct (Z.eqb_spec seconds 0) as [-> | Hnonzero]; [reflexivity|].
  destruct (seconds / 86400 >? 0) eqn:Hdays;
    destruct (seconds mod 86400 / 3600 >? 0) eqn:Hhours;
    destruct (seconds mod 3600 / 60 >? 0) eqn:Hminutes;
    destruct (seconds mod 60 >? 0) eqn:Hsecs;
    cbn [List.app List.length Nat.eqb orb]; try reflexivity.
  exfalso. rewrite Z.gtb_ltb in *. rewrite Z.ltb_ge in *. lia.
Qed.

(** A negative number of seconds loses everything but the remainder of its
    division by 60: the text is that remainder (zero or negative) followed
    by [s]. *)
Theorem formatDuration_negative (seconds : Z) :
  seconds < 0 ->
  formatDuration seconds = string_of_Z (Z.rem seconds 60) ++ "s" /\
  -60 < Z.rem seconds 60 <= 0.
Proof.
  clear. intros Hseconds.
  assert (Hd : seconds / 86400 <= 0)
    by (Z.to_euclidean_division_equations; lia).
  assert (Hh : Z.rem seconds 86400 / 3600 <= 0)
    by (Z.to_euclidean_division_equations; lia).
  assert (Hm : Z.rem seconds 3600 / 60 <= 0)
    by (Z.to_euclidean_division_equations; lia).
  assert (Hs : -60 < Z.rem seconds 60 <= 0)
    by (Z.to_euclidean_division_equations; lia).
  split; [|exact Hs].
  unfold formatDuration, duration_days, duration_hours, duration_minutes,
    duration_secs.
  replace (seconds / 86400 >? 0) with false
    by (symmetry; rewrite Z.gtb_ltb; apply Z.ltb_ge; lia).
  replace (Z.rem seconds 86400 / 3600 >? 0) with false
    by (symmetry; rewrite Z.gtb_ltb; apply Z.ltb_ge; lia).
  replace (Z.rem seconds 3600 / 60 >? 0) with false
    by (symmetry; rewrite Z.gtb_ltb; apply Z.ltb_ge; lia).
  replace (Z.rem seconds 60 >? 0) with false
    by (symmetry; rewrite Z.gtb_ltb; apply Z.ltb_ge; lia).
  reflexivity.
Qed.

(** *** Credentials: the order of the checks *)

(** [getCredentials] rejects exactly when there is no credential or one of
    server URL, user name and password is empty, and names the first empty
    one in that order; otherwise it resolves with user name, password and
    code as stored.  The URL is checked before its trailing slash is
    removed, so the stored URL [/] passes and is the only one that resolves
    to an empty base URL. *)
Theorem getCredentials_first_missing_field (this : IExecuteFunctions) :
  (getCredentials_homebridgeApi this = None ->
   getCredentials this = Rejected (NodeOperationError
     "No Homebridge credentials found. Please configure credentials first."
     None)) /\
  (forall c, getCredentials_homebridgeApi this = Some c ->
     (cred_serverUrl c = EmptyString ->
      getCredentials this = Rejected (NodeOperationError
        "Server URL is required in Homebridge credentials." None)) /\
     (cred_serverUrl c <> EmptyString -> cred_username c = EmptyString ->
      getCredentials this = Rejected (NodeOperationError
        "Username is required in Homebridge credentials." None)) /\
     (cred_serverUrl c <> EmptyString -> cred_username c <> EmptyString ->
      cred_password c = EmptyString ->
      getCredentials this = Rejected (NodeOperationError
        "Password is required in Homebridge credentials." None))) /\
  (forall r, getCredentials this = Resolved r ->
     exists c,
       getCredentials_homebridgeApi this = Some c /\
       username r = cred_username c /\ username r <> EmptyString /\
       password r = cred_password c /\ password r <> EmptyString /\
       otp r = cred_otp c /\
       cred_serverUrl c <> EmptyString /\
       (serverUrl r = EmptyString <-> cred_serverUrl c = "/")).
Proof.
  unfold getCredentials, is_empty. split; [|split].
  - now intros ->.
  - intros c ->. split; [|split].
    + now intros ->.
    + intros Hurl ->.
      destruct (String.eqb_spec (cred_serverUrl c) EmptyString);
        [contradiction | reflexivity].
    + intros Hurl Hname ->.
      destruct (String.eqb_spec (cred_serverUrl c) EmptyString);
        [contradiction|].
      destruct (String.eqb_spec (cred_username c) EmptyString);
        [contradiction | reflexivity].
  - intros r. destruct (getCredentials_homebridgeApi this) as [c|];
      [|discriminate].
    destruct (String.eqb_spec (cred_serverUrl c) EmptyString) as [|Hurl];
      [discriminate|].
    destruct (String.eqb_spec (cred_username c) EmptyString) as [|Hname];
      [discriminate|].
    destruct (String.eqb_spec (cred_password c) EmptyString) as [|Hpass];
      [discriminate|].
    intros [= <-]. exists c. cbn. repeat split; trivial.
    + unfold normalizeServerUrl.
      destruct (endsWith (cred_serverUrl c) "/") eqn:Hslash;
        [|contradiction].
      apply endsWith_inv in Hslash. destruct Hslash as (p & Hp).
      rewrite Hp, slice_drop_last. intros ->. reflexivity.
    + intros ->. reflexivity.
Qed.

(** *** Requests: failing fast, and what a rejection looks like *)

(** Without credentials, or without a token, [homebridgeApiRequest] rejects
    with the error of that step (the credentials are looked at first) and
    leaves the world untouched: no request is sent and nothing is waited
    for. *)
Theorem homebridgeApiRequest_fails_fast (this : IExecuteFunctions)
    (method : IHttpRequestMethods) (endpoint : string)
    (body qs : option IDataObject) (itemIndex : nat) (s : State) :
  (forall e, getCredentials this = Rejected e ->
     homebridgeApiRequest this method endpoint body qs itemIndex s
     = (Rejected e, s)) /\
  (forall c e, getCredentials this = Resolved c ->
     getAccessToken this itemIndex = Rejected e ->
     homebridgeApiRequest this method endpoint body qs itemIndex s
     = (Rejected e, s)).
Proof.
  unfold homebridgeApiRequest, await, settled. split.
  - now intros e ->.
  - now intros c e -> ->.
Qed.

(** The retry function hands back the answer of the transport to its last
    request as it is, response or error, with the state that request left
    behind. *)
Lemma retry_last (options : IHttpRequestOptions) (retryCount : nat)
    (s : State) :
  exists s_last,
    homebridgeApiRequestWithRetry options retryCount s
    = helpers_httpRequest options s_last.
Proof.
  funelim (homebridgeApiRequestWithRetry options retryCount s).
  - exists s. now dispatched.
  - match goal with
    | IH : exists _, _ |- _ => destruct IH as [s_last Hlast]
    end.
    exists s_last. exact Hlast.
  - exists s. now dispatched.
Qed.

(** Every normalised error carries the four fields [message],
    [description], [httpCode] and [cause]: the status as text ([500] when
    the error has none), and as cause the response body, else [error.error],
    else the empty object. *)
Lemma handleApiError_shape (error : JsError) (endpoint method : string) :
  exists message description,
    handleApiError error endpoint method =
      NodeApiError (ObjectLiteral
        [("message", JStr message);
         ("description", description);
         ("httpCode",
          JStr (js_to_string (js_or (resolved_status error) (JNum 500))));
         ("cause",
          js_or (js_or (get_field_opt (error_get error "response") "body")
                       (error_get error "error")) (JObj []))]).
Proof.
  unfold handleApiError. rewrite truthy_or_object.
  destruct (status_texts _ _ _ _) as [message description].
  now exists message, description.
Qed.

(** With credentials and token resolved, the outcome of
    [homebridgeApiRequest] is the answer of the transport to the last
    attempt: a response is passed on unchanged, and an error never reaches
    the caller raw but always as the [NodeApiError] that [handleApiError]
    builds from it for the normalised path and the method name. *)
Theorem homebridgeApiRequest_outcome (this : IExecuteFunctions)
    (method : IHttpRequestMethods) (endpoint : string)
    (body qs : option IDataObject) (itemIndex : nat) (s : State)
    (credentials : IHomebridgeCredentials) (accessToken : JsValue) :
  getCredentials this = Resolved credentials ->
  getAccessToken this itemIndex = Resolved accessToken ->
  let options :=
    request_options credentials accessToken method
      (normalizeEndpoint endpoint) body qs in
  exists s_last,
    homebridgeApiRequest this method endpoint body qs itemIndex s =
      (match fst (helpers_httpRequest options s_last) with
       | Resolved response => Resolved response
       | Rejected error =>
           Rejected (handleApiError error (normalizeEndpoint endpoint)
                       (method_name method))
       end,
       snd (helpers_httpRequest options s_last)) /\
    (forall e,
       fst (homebridgeApiRequest this method endpoint body qs itemIndex s)
       = Rejected e ->
       exists message description httpCode cause,
         e = NodeApiError (ObjectLiteral
               [("message", JStr message); ("description", description);
                ("httpCode", JStr httpCode); ("cause", cause)])).
Proof.
  intros Hcred Htoken options.
  rewrite (homebridgeApiRequest_resolved this method endpoint body qs
             itemIndex s credentials accessToken Hcred Htoken).
  fold options.
  destruct (retry_last options 0 s) as [s_last Hlast].
  exists s_last. rewrite Hlast.
  destruct (helpers_httpRequest options s_last) as [[response | error] s1];
    cbn [fst snd]; (split; [reflexivity|]); intros e [= <-].
  destruct (handleApiError_shape error (normalizeEndpoint endpoint)
              (method_name method)) as (message & description & ->).
  now do 4 eexists.
Qed.

(** *** Retries: exhaustion and waiting time *)

Lemma retry_trace_exhausted (options : IHttpRequestOptions)
    (retryCount : nat) (s : State) :
  (retryCount <= MAX_RETRIES)%nat ->
  exists k : nat,
    (1 <= k <= S MAX_RETRIES - retryCount)%nat /\
    trace (snd (homebridgeApiRequestWithRetry options retryCount s))
    = List.app (trace s) (attempts options retryCount k) /\
    (forall final,
       fst (homebridgeApiRequestWithRetry options retryCount s)
       = Rejected final ->
       includes RETRY_STATUS_CODES (resolved_status final) = true ->
       k = (S MAX_RETRIES - retryCount)%nat).
Proof.
  funelim (homebridgeApiRequestWithRetry options retryCount s);
    intros Hcount;
    pose proof (helpers_httpRequest_trace options s) as Hs1;
    dispatched; cbn [snd] in Hs1; unfold MAX_RETRIES in *.
  - exists 1%nat. repeat split; [lia | lia | exact Hs1 | discriminate].
  - match goal with
    | H : (_ && _)%bool = true |- _ =>
        destruct (andb_prop _ _ H) as [_ Hlt]
    end.
    apply Nat.ltb_lt in Hlt.
    match goal with
    | IH : (_ <= _)%nat -> exists _, _ |- _ =>
        assert (Hnext : (retryCount + 1 <= 3)%nat) by lia;
        destruct (IH Hnext) as (k & Hk & Htrace & Hlast)
    end.
    exists (S k). cbv zeta in *. repeat split; try lia.
    + rewrite Htrace. cbn [sleep snd trace]. rewrite Hs1.
      rewrite <- !app_assoc. f_equal. cbn [List.app attempts].
      destruct k as [|k]; [lia|].
      replace (retryCount + 1)%nat with (S retryCount) by lia.
      reflexivity.
    + intros final Hrejected Hstatus.
      specialize (Hlast final Hrejected Hstatus). lia.
  - exists 1%nat. repeat split; [lia | lia | exact Hs1 |].
    cbn [fst]. intros final [= <-] Hstatus.
    match goal with
    | H : (_ && _)%bool = false |- _ =>
        pose proof H as Hguard; rewrite Hstatus in Hguard;
        cbn [andb] in Hguard
    end.
    apply Nat.ltb_ge in Hguard. lia.
Qed.

Lemma delays_app (t1 t2 : list Event) :
  delays (List.app t1 t2) = List.app (delays t1) (delays t2).
Proof. apply flat_map_app. Qed.

Lemma total_delay_app (t1 t2 : list Event) :
  total_delay (List.app t1 t2) = total_delay t1 + total_delay t2.
Proof.
  unfold total_delay. rewrite delays_app.
  induction (delays t1) as [|d ds IH]; cbn [List.app fold_right]; lia.
Qed.

(** A call from attempt count 0 waits 0, 1000, 3000 or 7000 milliseconds in
    total, never more; and an error with a status that is retried reaches
    the caller only after all four attempts and the full 7000 milliseconds. *)
Theorem retry_waits_at_most_seven_seconds (options : IHttpRequestOptions)
    (s : State) :
  let after := snd (homebridgeApiRequestWithRetry options 0 s) in
  let waited := total_delay (trace after) - total_delay (trace s) in
  (waited = 0 \/ waited = 1000 \/ waited = 3000 \/ waited = 7000) /\
  (forall error,
     fst (homebridgeApiRequestWithRetry options 0 s) = Rejected error ->
     includes RETRY_STATUS_CODES (resolved_status error) = true ->
     trace after = List.app (trace s) (attempts options 0 4) /\
     requests (trace after)
     = List.app (requests (trace s)) (repeat options 4) /\
     waited = 7000).
Proof.
  cbv zeta.
  destruct (retry_trace_exhausted options 0 s) as (k & Hk & Htrace & Hlast);
    [unfold MAX_RETRIES; lia|].
  unfold MAX_RETRIES in *. rewrite Htrace, total_delay_app. split.
  - destruct k as [|[|[|[|[|k]]]]]; try lia; cbn; lia.
  - intros error Hrejected Hstatus.
    rewrite (Hlast error Hrejected Hstatus).
    rewrite requests_app. repeat split. cbn. lia.
Qed.

(** *** Normalised errors of the listed statuses *)

(** For the statuses 400, 401, 403, 404, 429, 500, 502, 503 and 504 the
    message and the description of the normalised error depend on the status
    alone: whatever the error says itself, and whatever endpoint and method
    were used, two failures with the same status read the same, and the four
    server statuses 500, 502, 503 and 504 all read the same. *)
Theorem handleApiError_fixed_texts (error1 error2 : JsError)
    (endpoint1 endpoint2 method1 method2 : string) (code1 code2 : Z) :
  resolved_status error1 = JNum code1 ->
  resolved_status error2 = JNum code2 ->
  In code1 [400; 401; 403; 404; 429; 500; 502; 503; 504] ->
  code2 = code1 \/ (In code1 [500; 502; 503; 504] /\
                    In code2 [500; 502; 503; 504]) ->
  lookup "message" (payload (handleApiError error1 endpoint1 method1))
  = lookup "message" (payload (handleApiError error2 endpoint2 method2)) /\
  lookup "description" (payload (handleApiError error1 endpoint1 method1))
  = lookup "description" (payload (handleApiError error2 endpoint2 method2))
  /\
  lookup "message" (payload (handleApiError error1 endpoint1 method1))
  <> JStr ("Homebridge API Error (" ++ method1 ++ " " ++ endpoint1 ++ ")").
Proof.
  intros Hstatus1 Hstatus2 Hcode1 Hcode2.
  unfold handleApiError. rewrite !truthy_or_object, Hstatus1, Hstatus2.
  cbn [In] in Hcode1, Hcode2.
  destruct Hcode2 as [-> | [Hserver1 Hserver2]].
  - repeat (destruct Hcode1 as [<- | Hcode1]; [cbn; repeat split; discriminate|]).
    destruct Hcode1.
  - repeat (destruct Hserver1 as [<- | Hserver1];
            [repeat (destruct Hserver2 as [<- | Hserver2];
                     [cbn; repeat split; discriminate|]);
             destruct Hserver2|]).
    destruct Hserver1.
Qed.

(** For status 422 the description is [The request data is invalid.]
    followed by the [message] of the response body; the [message] of
    [error.error] is used only when there is no response body, and with
    neither the description ends after the blank. *)
Theorem handleApiError_validation_message (error : JsError)
    (endpoint method : string) :
  resolved_status error = JNum 422 ->
  let responseBody := get_field_opt (error_get error "response") "body" in
  let description :=
    lookup "description" (payload (handleApiError error endpoint method)) in
  lookup "message" (payload (handleApiError error endpoint method))
  = JStr "Validation Error" /\
  (truthy responseBody = true ->
   description =
     JStr ("The request data is invalid. "
           ++ js_to_string (js_or (get_field responseBody "message")
                                  (JStr EmptyString)))) /\
  (truthy responseBody = false -> truthy (error_get error "error") = true ->
   description =
     JStr ("The request data is invalid. "
           ++ js_to_string (js_or (get_field (error_get error "error")
                                     "message") (JStr EmptyString)))) /\
  (truthy responseBody = false -> truthy (error_get error "error") = false ->
   description = JStr "The request data is invalid. ").
Proof.
  intros Hstatus. cbv zeta. unfold handleApiError.
  rewrite truthy_or_object, Hstatus. cbn [js_or truthy Z.eqb negb].
  cbn [status_texts strict_eq_num Z.eqb Pos.eqb List.app payload lookup
       String.eqb Ascii.eqb Bool.eqb].
  repeat split.
  - intros Hbody. now rewrite !(js_or_truthy _ _ Hbody).
  - intros Hbody Herror.
    now rewrite (js_or_falsy _ _ Hbody), (js_or_truthy _ _ Herror).
  - intros Hbody Herror.
    rewrite (js_or_falsy _ _ Hbody), (js_or_falsy _ _ Herror). reflexivity.
Qed.

(** *** Batches: composition, cost, and missing credentials *)

(** One turn of the loop. *)
Lemma batch_loop_cons (this : IExecuteFunctions) (operation : Operation)
    (rest : list Operation) (i : nat) (results : list IDataObject)
    (s : State) :
  batch_loop this (operation :: rest) i results s =
    let (r, s1) :=
      homebridgeApiRequest this (op_method operation) (op_endpoint operation)
        (op_body operation) (op_qs operation) i s in
    batch_loop this rest (S i) (List.app results [entry_of r]) s1.
Proof.
  cbn [batch_loop]. unfold await at 1. unfold try_catch, await, resolve.
  destruct (homebridgeApiRequest this (op_method operation)
              (op_endpoint operation) (op_body operation)
              (op_qs operation) i s) as [[result | error] s1]; reflexivity.
Qed.

(** The entries the loop adds do not depend on the entries already there. *)
Lemma batch_loop_results (this : IExecuteFunctions)
    (operations : list Operation) :
  forall (i : nat) (results : list IDataObject) (s : State),
  exists entries s',
    batch_loop this operations i [] s = (Resolved entries, s') /\
    batch_loop this operations i results s
    = (Resolved (List.app results entries), s').
Proof.
  induction operations as [|operation rest IH]; intros i results s.
  - exists [], s. cbn [batch_loop]. unfold resolve. now rewrite app_nil_r.
  - rewrite !batch_loop_cons.
    destruct (homebridgeApiRequest this (op_method operation)
                (op_endpoint operation) (op_body operation)
                (op_qs operation) i s) as [r s1].
    destruct (IH (S i) [entry_of r] s1) as (entries & s' & Hempty & Hone).
    destruct (IH (S i) (List.app results [entry_of r]) s1)
      as (entries' & s'' & Hempty' & Hmany).
    rewrite Hempty in Hempty'. injection Hempty' as <- <-.
    exists (entry_of r :: entries), s'.
    cbn [List.app] in *. rewrite Hone, Hmany, <- app_assoc.
    split; reflexivity.
Qed.

(** A batch over two lists in a row is the batch over the first followed
    by the loop over the second, which starts in the state the first left
    and counts its item indices on from the length of the first; the
    entries are those of the first followed by those of the second. *)
Theorem executeBatchOperations_app (this : IExecuteFunctions)
    (first second : list Operation) (s : State) :
  exists entries1 s1 entries2 s2,
    executeBatchOperations this first s = (Resolved entries1, s1) /\
    batch_loop this second (List.length first) [] s1
    = (Resolved entries2, s2) /\
    executeBatchOperations this (List.app first second) s
    = (Resolved (List.app entries1 entries2), s2).
Proof.
  unfold executeBatchOperations.
  assert (Hgeneral : forall i results s,
    exists entries1 s1 entries2 s2,
      batch_loop this first i [] s = (Resolved entries1, s1) /\
      batch_loop this second (i + List.length first) [] s1
      = (Resolved entries2, s2) /\
      batch_loop this (List.app first second) i results s
      = (Resolved (List.app results (List.app entries1 entries2)), s2)).
  { clear s. induction first as [|operation rest IH]; intros i results s.
    - destruct (batch_loop_results this second i results s)
        as (entries2 & s2 & Hempty & Hmany).
      exists [], s, entries2, s2. cbn [batch_loop List.app List.length].
      unfold resolve. rewrite Nat.add_0_r. now repeat split.
    - cbn [List.app List.length]. rewrite !batch_loop_cons.
      destruct (homebridgeApiRequest this (op_method operation)
                  (op_endpoint operation) (op_body operation)
                  (op_qs operation) i s) as [r s0].
      destruct (IH (S i) (List.app results [entry_of r]) s0)
        as (entries1 & s1 & entries2 & s2 & Hempty & Hsecond & Hall).
      destruct (batch_loop_results this rest (S i) [entry_of r] s0)
        as (entries1' & s1' & Hempty' & Hone).
      rewrite Hempty in Hempty'. injection Hempty' as <- <-.
      exists (entry_of r :: entries1), s1, entries2, s2.
      cbn [List.app] in *. rewrite Hone, Hall, <- !app_assoc.
      replace (i + S (List.length rest))%nat
        with (S i + List.length rest)%nat by lia.
      now repeat split. }
  destruct (Hgeneral 0%nat [] s)
    as (entries1 & s1 & entries2 & s2 & Hfirst & Hsecond & Hall).
  exists entries1, s1, entries2, s2. now repeat split.
Qed.

(** One request function call sends at most four HTTP requests and waits
    at most 7000 milliseconds, whether or not credentials and token
    resolve. *)
Lemma homebridgeApiRequest_cost (this : IExecuteFunctions)
    (method : IHttpRequestMethods) (endpoint : string)
    (body qs : option IDataObject) (itemIndex : nat) (s : State) :
  let after :=
    snd (homebridgeApiRequest this method endpoint body qs itemIndex s) in
  (List.length (requests (trace after))
   <= List.length (requests (trace s)) + 4)%nat /\
  total_delay (trace s) <= total_delay (trace after)
  <= total_delay (trace s) + 7000.
Proof.
  cbv zeta.
  destruct (getCredentials this) as [credentials | e] eqn:Hcred.
  - destruct (getAccessToken this itemIndex) as [accessToken | e] eqn:Htoken.
    + rewrite (homebridgeApiRequest_resolved this method endpoint body qs
                 itemIndex s credentials accessToken Hcred Htoken).
      set (options := request_options credentials accessToken method
                        (normalizeEndpoint endpoint) body qs).
      destruct (retry_trace_exhausted options 0 s)
        as (k & Hk & Htrace & _); [unfold MAX_RETRIES; lia|].
      unfold MAX_RETRIES in Hk.
      destruct (homebridgeApiRequestWithRetry options 0 s)
        as [[response | error] s1]; cbn [snd] in *; rewrite Htrace,
        requests_app, requests_attempts, length_app, repeat_length,
        total_delay_app;
        (split; [lia|]);
        destruct k as [|[|[|[|[|k]]]]]; try lia; cbn; lia.
    + unfold homebridgeApiRequest, await, settled.
      rewrite Hcred, Htoken. cbn [snd]. lia.
  - unfold homebridgeApiRequest, await, settled.
    rewrite Hcred. cbn [snd]. lia.
Qed.

(** A batch of [n] operations sends at most [4 * n] HTTP requests and
    waits at most [7000 * n] milliseconds in total. *)
Theorem executeBatchOperations_cost (this : IExecuteFunctions)
    (operations : list Operation) (s : State) :
  let after := snd (executeBatchOperations this operations s) in
  (List.length (requests (trace after))
   <= List.length (requests (trace s)) + 4 * List.length operations)%nat /\
  total_delay (trace after)
  <= total_delay (trace s) + 7000 * Z.of_nat (List.length operations).
Proof.
  unfold executeBatchOperations. cbv zeta.
  assert (Hgeneral : forall s results i,
    (List.length (requests (trace (snd (batch_loop this operations i
                                          results s))))
     <= List.length (requests (trace s)) + 4 * List.length operations)%nat /\
    total_delay (trace (snd (batch_loop this operations i results s)))
    <= total_delay (trace s) + 7000 * Z.of_nat (List.length operations)).
  { clear s. induction operations as [|operation rest IH];
      intros s results i.
    - cbn. lia.
    - rewrite batch_loop_cons.
      pose proof (homebridgeApiRequest_cost this (op_method operation)
                    (op_endpoint operation) (op_body operation)
                    (op_qs operation) i s) as Hone.
      destruct (homebridgeApiRequest this (op_method operation)
                  (op_endpoint operation) (op_body operation)
                  (op_qs operation) i s) as [r s1].
      cbv zeta in Hone. cbn [snd] in Hone.
      specialize (IH s1 (List.app results [entry_of r]) (S i)).
      cbv beta iota. cbn [List.length]. lia. }
  apply Hgeneral.
Qed.

(** When the credentials cannot be resolved, every operation of a batch
    gets a failed entry with the message of the credentials error, and the
    world is left untouched: no request is sent. *)
Theorem executeBatchOperations_without_credentials
    (this : IExecuteFunctions) (operations : list Operation) (s : State)
    (e : JsError) :
  getCredentials this = Rejected e ->
  executeBatchOperations this operations s =
    (Resolved
       (map (fun _ => [("success", JBool false);
                       ("error", error_get e "message")]) operations),
     s).
Proof.
  intros Hcred. unfold executeBatchOperations.
  change (map (fun _ : Operation =>
                 [("success", JBool false); ("error", error_get e "message")])
            operations)
    with (List.app [] (map (fun _ : Operation => failure_entry e) operations)).
  generalize (@nil IDataObject) 0%nat.
  induction operations as [|operation rest IH]; intros results i.
  - cbn. unfold resolve. now rewrite app_nil_r.
  - rewrite batch_loop_cons.
    unfold homebridgeApiRequest at 1. unfold await, settled.
    rewrite Hcred. rewrite IH. cbn [entry_of map].
    now rewrite <- app_assoc.
Qed.

(** *** Pagination with a limit *)

Lemma paginate_at_most_limit (this : IExecuteFunctions)
    (method : IHttpRequestMethods) (endpoint : string) (qs : IDataObject)
    (itemIndex : nat) (limit : Z) (fuel : nat) :
  0 < limit ->
  forall (allItems : list JsValue) (page : Z) (s s' : State)
         (items : list JsValue),
    len allItems < limit ->
    paginate fuel this method endpoint qs itemIndex limit allItems page s
    = Some (Resolved items, s') ->
    len items <= limit.
Proof.
  intros Hlimit. induction fuel as [|fuel IH];
    intros allItems page s s' items Hbelow; [discriminate|].
  cbn [paginate].
  destruct (homebridgeApiRequest this method endpoint None
              (Some (page_query qs page)) itemIndex s)
    as [[response | error] s1]; [|discriminate].
  destruct ((limit >? 0) && _) eqn:Hreached.
  - apply limit_reached in Hreached. intros [= <- <-].
    rewrite len_firstn; lia.
  - assert (Hnot : ~ 0 < limit <= len (List.app allItems (as_items response))).
    { intros Hle. apply limit_reached in Hle. congruence. }
    destruct (_ <? pageSize).
    + intros [= <- <-]. lia.
    + apply IH. lia.
Qed.

(** With a positive limit the helper always returns, within [limit] turns
    of its loop, whatever the transport answers; and a list it resolves to
    never has more than [limit] items. *)
Theorem handlePaginatedRequest_with_limit (this : IExecuteFunctions)
    (method : IHttpRequestMethods) (endpoint : string) (qs : IDataObject)
    (itemIndex : nat) (limit : Z) (s : State) :
  0 < limit ->
  (exists r,
     handlePaginatedRequest (Z.to_nat limit) this method endpoint qs
       itemIndex limit s = Some r) /\
  (forall fuel items s',
     handlePaginatedRequest fuel this method endpoint qs itemIndex limit s
     = Some (Resolved items, s') ->
     len items <= limit).
Proof.
  intros Hlimit. unfold handlePaginatedRequest. split.
  - apply paginate_returns_with_limit; unfold len; cbn [List.length]; lia.
  - intros fuel items s'.
    apply paginate_at_most_limit; [exact Hlimit|].
    unfold len. cbn [List.length]. lia.
Qed.

(** Without a limit the helper depends on the server to end the loop:
    against a transport that answers every page request with at least 100
    items, no bound on the number of turns is enough for it to return. *)
Theorem handlePaginatedRequest_unbounded (this : IExecuteFunctions)
    (method : IHttpRequestMethods) (endpoint : string) (qs : IDataObject)
    (itemIndex : nat) (limit : Z) :
  limit <= 0 ->
  (forall page s, exists items s1,
     homebridgeApiRequest this method endpoint None
       (Some (page_query qs page)) itemIndex s = (Resolved (JArr items), s1)
     /\ 100 <= len items) ->
  forall fuel s,
    handlePaginatedRequest fuel this method endpoint qs itemIndex limit s
    = None.
Proof.
  intros Hlimit Hfull fuel s. unfold handlePaginatedRequest.
  now apply paginate_unbounded_without_limit.
Qed.

(** *** The [preSend] hook *)

Lemma header_set_header_same (k v : string) (h : list (string * string)) :
  header k (set_header k v h) = Some v.
Proof.
  induction h as [|[k' v'] h IH]; cbn [set_header header].
  - now rewrite String.eqb_refl.
  - destruct (k =? k')%string eqn:Hk; cbn [header]; rewrite ?Hk.
    + now rewrite String.eqb_refl.
    + exact IH.
Qed.

Lemma header_set_header_other (k k' v : string) (h : list (string * string)) :
  (k' =? k)%string = false ->
  header k' (set_header k v h) = header k' h.
Proof.
  intros Hk. induction h as [|[k0 v0] h IH]; cbn [set_header header].
  - now rewrite Hk.
  - destruct (k =? k0)%string eqn:Hk0; cbn [header].
    + apply String.eqb_eq in Hk0. subst k0. now rewrite Hk.
    + now rewrite IH.
Qed.

Lemma length_set_header (k v : string) (h : list (string * string)) :
  List.length (set_header k v h) =
    match header k h with
    | Some _ => List.length h
    | None => S (List.length h)
    end.
Proof.
  induction h as [|[k' v'] h IH]; cbn [set_header header List.length].
  - reflexivity.
  - destruct (k =? k')%string; cbn [List.length]; [reflexivity|].
    rewrite IH. now destruct (header k h).
Qed.

(** For a URL that does not contain [/api/auth/login], the hook changes
    nothing of the request but the header [Authorization], which becomes
    [Bearer <token>]: method, URL, body, query and every other header stay,
    and a header [Authorization] that was there is replaced, not doubled.
    When no token can be found the hook fails and no request goes out. *)
Theorem addAuthToRequest_sets_authorization (this : IExecuteFunctions)
    (requestOptions : IHttpRequestOptions) :
  includes_string (url requestOptions) "/api/auth/login" = false ->
  (forall accessToken,
     addAuthToRequest_token this = Resolved accessToken ->
     exists o,
       addAuthToRequest this requestOptions = Resolved o /\
       method o = method requestOptions /\
       url o = url requestOptions /\
       body o = body requestOptions /\
       qs o = qs requestOptions /\
       header "Authorization" (headers o)
       = Some ("Bearer " ++ js_to_string accessToken) /\
       (forall k, k <> "Authorization" ->
          header k (headers o) = header k (headers requestOptions)) /\
       List.length (headers o) =
         match header "Authorization" (headers requestOptions) with
         | Some _ => List.length (headers requestOptions)
         | None => S (List.length (headers requestOptions))
         end) /\
  (forall e,
     addAuthToRequest_token this = Rejected e ->
     addAuthToRequest this requestOptions = Rejected e).
Proof.
  intros Hurl. unfold addAuthToRequest. rewrite Hurl. split.
  - intros accessToken ->. eexists. split; [reflexivity|]. cbn.
    repeat split.
    + apply header_set_header_same.
    + intros k Hk. apply header_set_header_other.
      now apply String.eqb_neq.
    + apply length_set_header.
  - now intros e ->.
Qed.

(** For a URL that contains [/api/auth/login], the hook needs no token and
    adds no header: it only replaces the body by user name and password,
    each taken from the override field when that is filled in and from the
    stored credential otherwise (which is not checked for empty fields
    here), plus the two-factor code when one is given; without a stored
    credential it fails. *)
Theorem addAuthToRequest_login (this : IExecuteFunctions)
    (requestOptions : IHttpRequestOptions) :
  includes_string (url requestOptions) "/api/auth/login" = true ->
  let override := fun name => getNodeParameter this name 0%nat in
  (getCredentials_homebridgeApi this = None ->
   addAuthToRequest this requestOptions
   = Rejected (ErrorObject
       "Homebridge credentials are required for login operation")) /\
  (forall c, getCredentials_homebridgeApi this = Some c ->
     exists o fields,
       addAuthToRequest this requestOptions = Resolved o /\
       headers o = headers requestOptions /\
       method o = method requestOptions /\
       url o = url requestOptions /\
       body o = Some fields /\
       lookup "username" fields
       = (if truthy (override "additionalFields.username")
          then override "additionalFields.username"
          else JStr (cred_username c)) /\
       lookup "password" fields
       = (if truthy (override "additionalFields.password")
          then override "additionalFields.password"
          else JStr (cred_password c)) /\
       lookup "otp" fields
       = (if truthy (override "additionalFields.otp")
          then override "additionalFields.otp"
          else JUndefined)).
Proof.
  intros Hurl. cbv zeta. unfold addAuthToRequest. rewrite Hurl. split.
  - now intros ->.
  - intros c ->. do 2 eexists. split; [reflexivity|]. cbn.
    repeat split.
    destruct (truthy (getNodeParameter this "additionalFields.otp" 0));
      reflexivity.
Qed.

(** *** The credential test *)

(** The credential test never rejects: it always resolves to a status [OK]
    or [Error] with a message.  It answers [Error] without sending anything
    when the server URL, the user name or the password is missing, saying
    which; otherwise it sends exactly one request, a GET to
    [<serverUrl>/api/auth/settings] with the URL as stored and the header
    [Accept: application/json], answers [OK] with [Connection successful]
    when the transport resolves, and [Error] with the message of the error
    (or [Connection failed]) when it rejects. *)
Theorem testHomebridgeApiCredentials_outcome (credential : JsValue)
    (s : State) :
  let credentials := get_field credential "data" in
  let present := negb (nullish credential) && negb (nullish credentials) in
  let complete :=
    present
    && truthy (get_field credentials "serverUrl")
    && truthy (get_field credentials "username")
    && truthy (get_field credentials "password") in
  let options :=
    {| method := GET;
       url := js_to_string (get_field credentials "serverUrl")
              ++ "/api/auth/settings";
       headers := [("Accept", "application/json")];
       body := None;
       qs := None;
       returnFullResponse := false;
       ignoreHttpStatusErrors := false |} in
  exists status message,
    fst (testHomebridgeApiCredentials credential s)
    = Resolved [("status", JStr status); ("message", message)] /\
    (status = "OK" \/ status = "Error") /\
    (complete = false ->
       status = "Error" /\
       snd (testHomebridgeApiCredentials credential s) = s) /\
    (present = true -> truthy (get_field credentials "serverUrl") = false ->
       message = JStr "Server URL is required") /\
    (present = true -> truthy (get_field credentials "serverUrl") = true ->
       truthy (get_field credentials "username")
       && truthy (get_field credentials "password") = false ->
       message = JStr "Username and password are required") /\
    (complete = true ->
       snd (testHomebridgeApiCredentials credential s)
       = snd (helpers_httpRequest options s) /\
       trace (snd (testHomebridgeApiCredentials credential s))
       = List.app (trace s) [Request options] /\
       (forall response,
          fst (helpers_httpRequest options s) = Resolved response ->
          status = "OK" /\ message = JStr "Connection successful") /\
       (forall error,
          fst (helpers_httpRequest options s) = Rejected error ->
          status = "Error" /\
          message = js_or (error_get error "message")
                          (JStr "Connection failed"))).
Proof.
  cbv zeta. unfold testHomebridgeApiCredentials, try_catch, await, reject,
    resolve, test_result.
  destruct (nullish credential); cbn [negb andb].
  { do 2 eexists. split; [reflexivity|]. repeat split; auto; discriminate. }
  destruct (nullish (get_field credential "data")); cbn [negb andb].
  { do 2 eexists. split; [reflexivity|]. repeat split; auto; discriminate. }
  destruct (truthy (get_field (get_field credential "data") "serverUrl"));
    cbn [negb andb].
  2: { do 2 eexists. split; [reflexivity|].
       repeat split; auto; discriminate. }
  destruct (truthy (get_field (get_field credential "data") "username"));
    cbn [negb andb orb].
  2: { do 2 eexists. split; [reflexivity|].
       repeat split; auto; discriminate. }
  destruct (truthy (get_field (get_field credential "data") "password"));
    cbn [negb andb orb].
  2: { do 2 eexists. split; [reflexivity|].
       repeat split; auto; discriminate. }
  pose proof (helpers_httpRequest_trace
                (settings_options
                   (get_field (get_field credential "data") "serverUrl")) s)
    as Htrace.
  unfold settings_options in *.
  destruct (helpers_httpRequest _ s) as [[response | error] s1];
    cbn [fst snd] in *; do 2 eexists; (split; [reflexivity|]);
    repeat split; auto; try discriminate.
  congruence.
Qed.

(** *** The node's [execute] *)

Lemma strict_eq_string_unknown (v : JsValue) (names : list string)
    (name : string) :
  (forall t, v = JStr t -> ~ In t names) ->
  In name names ->
  strict_eq_string v name = false.
Proof.
  intros Hunknown Hin. destruct v as [| | | |t| |]; try reflexivity.
  cbn [strict_eq_string]. apply String.eqb_neq. intros ->.
  exact (Hunknown name eq_refl Hin).
Qed.

Lemma responseData_for_unknown (this : IExecuteFunctions)
    (resource operation : JsValue) (i : nat) (s : State) :
  (forall t, resource = JStr t -> ~ In t known_resources) \/
  (forall t, operation = JStr t -> ~ In t known_operations) ->
  responseData_for this resource operation i s = (Resolved JUndefined, s).
Proof.
  intros [Hresource | Hoperation]; unfold responseData_for.
  - rewrite !(strict_eq_string_unknown resource known_resources)
      by (trivial; cbn; tauto).
    reflexivity.
  - rewrite !(strict_eq_string_unknown operation known_operations)
      by (trivial; cbn; tauto).
    repeat match goal with
           | |- context [if ?b then _ else _] => destruct b
           end; reflexivity.
Qed.

(** An item whose resource or operation is none of the names [execute]
    knows is not an error: nothing is requested, and the item comes out as a
    success whose only content is the metadata. *)
Theorem execute_item_unknown_operation (this : IExecuteFunctions)
    (resource : JsValue) (i : nat) (s : State) :
  let operation := getNodeParameter this "operation" i in
  (forall t, resource = JStr t -> ~ In t known_resources) \/
  (forall t, operation = JStr t -> ~ In t known_operations) ->
  execute_item this resource i s =
    (Resolved
       {| data_json :=
            [("_metadata",
              JObj [("resource", resource); ("operation", operation);
                    ("executedAt", JStr (now (world s)));
                    ("success", JBool true)])];
          pairedItem := i |},
     s).
Proof.
  cbv zeta. intros Hunknown. unfold execute_item, await.
  rewrite (responseData_for_unknown this resource _ i s Hunknown).
  reflexivity.
Qed.

Lemma execute_item_success (this : IExecuteFunctions) (resource : JsValue)
    (i : nat) (s s' : State) (d : ExecutionData) :
  execute_item this resource i s = (Resolved d, s') ->
  pairedItem d = i /\ metadata_success d = JBool true.
Proof.
  unfold execute_item, await, toISOString_now, resolve.
  destruct (responseData_for this resource _ i s) as [[response | e] s1];
    [|discriminate].
  intros [= <- <-]. split; [reflexivity|].
  unfold metadata_success. cbn [data_json].
  now rewrite lookup_set_field_same.
Qed.

(** One turn of the loop. *)
Lemma execute_loop_step (this : IExecuteFunctions) (continueOnFail : bool)
    (resource : JsValue) (remaining i : nat)
    (returnData : list ExecutionData) (s : State) :
  execute_loop this continueOnFail resource (S remaining) i returnData s =
    match execute_item this resource i s with
    | (Resolved d, s1) =>
        execute_loop this continueOnFail resource remaining (S i)
          (List.app returnData [d]) s1
    | (Rejected e, s1) =>
        if continueOnFail then
          execute_loop this continueOnFail resource remaining (S i)
            (List.app returnData
               [ {| data_json :=
                      [("error", error_get e "message");
                       ("_metadata",
                        metadata (getNodeParameter this "resource" i)
                          (getNodeParameter this "operation" i)
                          (now (world s1)) false)];
                    pairedItem := i |} ]) s1
        else (Rejected e, s1)
    end.
Proof.
  cbn [execute_loop]. unfold await at 1. unfold try_catch, await at 1.
  destruct (execute_item this resource i s) as [[d | e] s1];
    [reflexivity|].
  destruct continueOnFail; reflexivity.
Qed.

(** A run of a node that does not continue on failure has successes
    only. *)
Lemma execute_run_strict (this : IExecuteFunctions) (resource : JsValue)
    (i : nat) (s s' : State) (n : nat) (outputs : list ExecutionData) :
  execute_run this false resource i s n outputs s' ->
  List.length outputs = n /\
  forall k d, nth_error outputs k = Some d ->
    pairedItem d = (i + k)%nat /\ metadata_success d = JBool true.
Proof.
  induction 1 as [i s | i s s1 s2 n d0 outputs Hitem Hrun IH
                 | i s s1 s2 n e outputs Hcontinue Hitem Hrun IH].
  - split; [reflexivity|]. intros [|k] d; discriminate.
  - destruct IH as [Hlength Hall]. split; [cbn; lia|].
    intros [|k] d Hnth; cbn [nth_error] in Hnth.
    + injection Hnth as <-.
      destruct (execute_item_success _ _ _ _ _ _ Hitem) as [Hp Hs].
      split; [lia | exact Hs].
    + destruct (Hall k d Hnth) as [Hp Hs]. split; [lia | exact Hs].
  - discriminate.
Qed.

(** When the node continues on failure, [execute] always resolves, with
    exactly one output item per input item and in the same order.  The
    items are processed one after the other, each in the state the one
    before left: an item whose [try] block resolves gives the output the
    block built, marked as a success; an item whose block rejects gives the
    failure item, which carries the message of that very error and the
    resource and operation of that item and is marked as a failure.  Either
    way output [k] is paired with input [k]. *)
Theorem execute_continue_on_fail (this : IExecuteFunctions) (s : State)
    (items : list INodeExecutionData) :
  getInputData this = Some items ->
  let resource := getNodeParameter this "resource" 0%nat in
  exists outputs s',
    execute this true s = (Resolved [outputs], s') /\
    execute_run this true resource 0 s (List.length items) outputs s' /\
    List.length outputs = List.length items /\
    (forall k d,
       nth_error outputs k = Some d ->
       pairedItem d = k /\
       (metadata_success d = JBool true \/
        metadata_success d = JBool false)).
Proof.
  intros Hitems resource. unfold execute. rewrite Hitems. fold resource.
  assert (Hloop : forall n i returnData s,
    exists outputs s',
      execute_loop this true resource n i returnData s
      = (Resolved (List.app returnData outputs), s') /\
      execute_run this true resource i s n outputs s' /\
      List.length outputs = n /\
      (forall k d,
         nth_error outputs k = Some d ->
         pairedItem d = (i + k)%nat /\
         (metadata_success d = JBool true \/
          metadata_success d = JBool false))).
  { clear. induction n as [|n IH]; intros i returnData s.
    - exists [], s. cbn [execute_loop]. unfold resolve.
      rewrite app_nil_r. split; [reflexivity|].
      split; [apply run_done|]. split; [reflexivity|].
      intros [|k] d; discriminate.
    - rewrite execute_loop_step.
      destruct (execute_item this resource i s) as [[d | e] s1] eqn:Hitem.
      + destruct (IH (S i) (List.app returnData [d]) s1)
          as (outputs & s' & Hrun & Hrel & Hlength & Hall).
        exists (d :: outputs), s'. rewrite Hrun, <- app_assoc.
        split; [reflexivity|].
        split; [exact (run_item _ _ _ _ _ _ _ _ _ _ Hitem Hrel)|].
        split; [cbn; lia|].
        intros k d' Hnth. destruct k as [|k]; cbn [nth_error] in Hnth.
        * injection Hnth as <-.
          destruct (execute_item_success _ _ _ _ _ _ Hitem) as [Hp Hs].
          split; [lia | now left].
        * destruct (Hall k d' Hnth) as [Hpaired Hsuccess].
          split; [lia | exact Hsuccess].
      + change {| data_json :=
                    [("error", error_get e "message");
                     ("_metadata",
                      metadata (getNodeParameter this "resource" i)
                        (getNodeParameter this "operation" i)
                        (now (world s1)) false)];
                  pairedItem := i |}
          with (failure_output this e i s1).
        destruct (IH (S i)
                    (List.app returnData [failure_output this e i s1]) s1)
          as (outputs & s' & Hrun & Hrel & Hlength & Hall).
        exists (failure_output this e i s1 :: outputs), s'.
        rewrite Hrun, <- app_assoc.
        split; [reflexivity|].
        split; [exact (run_failed_item _ _ _ _ _ _ _ _ _ _ eq_refl
                         Hitem Hrel)|].
        split; [cbn; lia|].
        intros k d' Hnth. destruct k as [|k]; cbn [nth_error] in Hnth.
        * injection Hnth as <-. cbn [failure_output pairedItem].
          split; [lia|]. right. reflexivity.
        * destruct (Hall k d' Hnth) as [Hpaired Hsuccess].
          split; [lia | exact Hsuccess]. }
  destruct (Hloop (List.length items) 0%nat [] s)
    as (outputs & s' & Hrun & Hrel & Hlength & Hall).
  exists outputs, s'. unfold await, resolve. rewrite Hrun.
  split; [reflexivity|]. split; [exact Hrel|]. split; [exact Hlength|].
  intros k d Hnth. apply (Hall k d Hnth).
Qed.

(** When the node does not continue on failure, [execute] either resolves
    with the outputs of all items, every [try] block having resolved in the
    state the one before left, or rejects with the error of the first item
    whose block rejects: the [k] items before it resolved one after the
    other from the initial state, item [k] rejected with that error in the
    state they left, and the state it left is the final one, so the items
    after it are not processed; no output is returned. *)
Theorem execute_stops_at_first_failure (this : IExecuteFunctions)
    (s : State) (items : list INodeExecutionData) :
  getInputData this = Some items ->
  let resource := getNodeParameter this "resource" 0%nat in
  (exists outputs s',
     execute this false s = (Resolved [outputs], s') /\
     execute_run this false resource 0 s (List.length items) outputs s' /\
     List.length outputs = List.length items /\
     (forall k d,
        nth_error outputs k = Some d ->
        pairedItem d = k /\ metadata_success d = JBool true)) \/
  (exists e s' k outputs_k s_k,
     execute this false s = (Rejected e, s') /\
     (k < List.length items)%nat /\
     execute_run this false resource 0 s k outputs_k s_k /\
     List.length outputs_k = k /\
     (forall j d,
        nth_error outputs_k j = Some d -> metadata_success d = JBool true) /\
     execute_item this resource k s_k = (Rejected e, s')).
Proof.
  intros Hitems resource. unfold execute. rewrite Hitems. fold resource.
  assert (Hloop : forall n i returnData s,
    (exists outputs s',
       execute_loop this false resource n i returnData s
       = (Resolved (List.app returnData outputs), s') /\
       execute_run this false resource i s n outputs s') \/
    (exists e s' k outputs_k s_k,
       execute_loop this false resource n i returnData s = (Rejected e, s') /\
       (k < n)%nat /\
       execute_run this false resource i s k outputs_k s_k /\
       execute_item this resource (i + k) s_k = (Rejected e, s'))).
  { clear. induction n as [|n IH]; intros i returnData s.
    - left. exists [], s. cbn [execute_loop]. unfold resolve.
      rewrite app_nil_r. split; [reflexivity | apply run_done].
    - rewrite execute_loop_step.
      destruct (execute_item this resource i s) as [[d | e] s1] eqn:Hitem.
      + destruct (IH (S i) (List.app returnData [d]) s1)
          as [(outputs & s' & Hrun & Hrel)
             | (e & s' & k & outputs_k & s_k & Hrun & Hk & Hrel & Hfailed)].
        * left. exists (d :: outputs), s'. rewrite Hrun, <- app_assoc.
          split; [reflexivity|].
          exact (run_item _ _ _ _ _ _ _ _ _ _ Hitem Hrel).
        * right. exists e, s', (S k), (d :: outputs_k), s_k. rewrite Hrun.
          split; [reflexivity|]. split; [lia|].
          split; [exact (run_item _ _ _ _ _ _ _ _ _ _ Hitem Hrel)|].
          now rewrite <- Nat.add_succ_comm.
      + right. exists e, s1, 0%nat, [], s.
        split; [reflexivity|]. split; [lia|]. split; [apply run_done|].
        now rewrite Nat.add_0_r. }
  destruct (Hloop (List.length items) 0%nat [] s)
    as [(outputs & s' & Hrun & Hrel)
       | (e & s' & k & outputs_k & s_k & Hrun & Hk & Hrel & Hfailed)].
  - left. exists outputs, s'. unfold await, resolve. rewrite Hrun.
    destruct (execute_run_strict _ _ _ _ _ _ _ Hrel) as [Hlength Hall].
    split; [reflexivity|]. split; [exact Hrel|]. split; [exact Hlength|].
    intros k d Hnth. apply (Hall k d Hnth).
  - right. exists e, s', k, outputs_k, s_k. unfold await. rewrite Hrun.
    destruct (execute_run_strict _ _ _ _ _ _ _ Hrel) as [Hlength Hall].
    split; [reflexivity|]. split; [exact Hk|]. split; [exact Hrel|].
    split; [exact Hlength|].
    split; [intros j d Hnth; apply (Hall j d Hnth) | exact Hfailed].
Qed.

End Pipeline.

(** ** Instances on the scripted transport *)

(** A URL without trailing slash is left as it is. *)
Lemma getCredentials_strips_one_trailing_slash_witness :
  normalizeServerUrl "http://host:8581" = "http://host:8581" /\
  normalizeServerUrl (normalizeServerUrl "http://host:8581")
  = normalizeServerUrl "http://host:8581".
Proof.
  apply (proj1 (proj2 (proj2 (proj2
           getCredentials_strips_one_trailing_slash)))).
  reflexivity.
Defined.

(** With input items present, an item index beyond them (the batch runner
    passes the operation index) makes [getAccessToken] fail on
    [items[itemIndex].json] before it can report a missing token. *)
Example getAccessToken_index_beyond_items :
  getAccessToken
    {| getCredentials_homebridgeApi := Some stored_credentials;
       getNodeParameter := fun _ _ => JStr EmptyString;
       getInputData := Some [ {| json := JObj [] |} ] |} 1%nat
  = Rejected
      (TypeError "Cannot read properties of undefined (reading 'json')").
Proof. reflexivity. Qed.

(** The hook sends the token of the Login node although the Access Token
    field holds another one: the explicit token is not preferred there. *)
Lemma addAuthToRequest_prefers_upstream_token :
  truthy (getNodeParameter chained_context "accessToken" 0%nat) = true /\
  addAuthToRequest_token chained_context = Resolved (JStr "tok123") /\
  addAuthToRequest_token chained_context
  <> Resolved (getNodeParameter chained_context "accessToken" 0%nat) /\
  (forall o, addAuthToRequest chained_context list_accessories = Resolved o ->
     header "Authorization" (headers o) = Some "Bearer tok123").
Proof.
  repeat apply conj; try reflexivity.
  - discriminate.
  - intros o. vm_compute. intros [= <-]. reflexivity.
Qed.

(** The two resolvers on the four example executions. *)
Lemma token_resolution_order_witness :
  getAccessToken chained_context 0%nat = Resolved (JStr "manual-token") /\
  getAccessToken manual_context 5%nat = Resolved (JStr "tok123") /\
  getAccessToken login_context 0%nat = Resolved (JStr "abc") /\
  getAccessToken tokenless_context 0%nat
  = Rejected (NodeOperationError no_access_token_message (Some 0%nat)) /\
  addAuthToRequest_token login_context = Resolved (JStr "abc") /\
  addAuthToRequest_token manual_context = Resolved (JStr "tok123") /\
  addAuthToRequest_token tokenless_context
  = Rejected (ErrorObject add_auth_message).
Proof.
  repeat apply conj.
  - apply (proj1 (token_resolution_order chained_context 0%nat)).
    reflexivity.
  - apply (proj1 (token_resolution_order manual_context 5%nat)).
    reflexivity.
  - destruct (token_resolution_order login_context 0%nat)
      as (_ & Hitem & _).
    apply (Hitem eq_refl _ {| json := JObj [("access_token", JStr "abc")] |}
             eq_refl eq_refl eq_refl).
  - destruct (token_resolution_order tokenless_context 0%nat)
      as (_ & Hitem & _).
    apply (Hitem eq_refl _ {| json := JObj [("name", JStr "lamp")] |}
             eq_refl eq_refl eq_refl).
  - destruct (token_resolution_order login_context 0%nat)
      as (_ & _ & _ & _ & _ & Hupstream & _).
    apply Hupstream. reflexivity.
  - destruct (token_resolution_order manual_context 0%nat)
      as (_ & _ & _ & _ & _ & _ & Hmanual & _).
    apply Hmanual; reflexivity.
  - destruct (token_resolution_order tokenless_context 0%nat)
      as (_ & _ & _ & _ & _ & _ & _ & Hneither & _).
    apply Hneither; reflexivity.
Defined.

(** A refused connection carries no status code and is normalised to
    Server Error, not to Unknown. *)
Lemma handleApiError_without_status_is_server_error :
  let normalized :=
    handleApiError host_message connection_refused "/api/accessories" "GET" in
  resolved_status host_message connection_refused = JUndefined /\
  lookup "message" (payload normalized) = JStr "Server Error" /\
  lookup "description" (payload normalized)
  <> error_get host_message connection_refused "message" /\
  lookup "httpCode" (payload normalized) = JStr "500" /\
  category normalized = ServerError /\
  category normalized <> Unknown.
Proof.
  cbv zeta. repeat apply conj; try reflexivity; discriminate.
Qed.

(** Status 422 with the server message [username taken]: the description
    carries the server message. *)
Example validation_error_carries_server_message :
  lookup "description"
    (payload (handleApiError host_message
                (HttpError [("statusCode", JNum 422);
                            ("response",
                             JObj [("body",
                                    JObj [("message",
                                           JStr "username taken")])])])
                "/api/users" "POST"))
  = JStr "The request data is invalid. username taken".
Proof. reflexivity. Qed.

(** Status 418 has no row of its own; a refused connection has no status. *)
Lemma handleApiError_unlisted_status_witness :
  category (handleApiError host_message (http_status 418) "/api/teapot" "GET")
  = Unknown /\
  lookup "message"
    (payload (handleApiError host_message (http_status 418)
                "/api/teapot" "GET"))
  = JStr "Homebridge API Error (GET /api/teapot)" /\
  category (handleApiError host_message connection_refused "/api/teapot" "GET")
  = ServerError.
Proof.
  destruct (handleApiError_unlisted_status host_message (http_status 418)
              "/api/teapot" "GET") as (Hunlisted & _).
  destruct (Hunlisted eq_refl eq_refl) as (Hshape & Hcategory).
  destruct (handleApiError_unlisted_status host_message connection_refused
              "/api/teapot" "GET") as (_ & Habsent).
  destruct (Habsent eq_refl) as (_ & Hserver).
  repeat apply conj.
  - exact Hcategory.
  - rewrite Hshape. reflexivity.
  - exact Hserver.
Defined.

(** Login answered with 401, with 500, without a token and with a token. *)
Lemma authenticate_cases_witness :
  fst (authenticate Script replay host_message resolved_credentials None
         {| world := [Rejected (http_status 401)]; trace := [] |})
  = Rejected authentication_failed /\
  fst (authenticate Script replay host_message resolved_credentials None
         {| world := [Rejected (http_status 500)]; trace := [] |})
  = Rejected (NodeApiError (CaughtError (http_status 500))) /\
  fst (authenticate Script replay host_message resolved_credentials None
         {| world := [Resolved (JObj [("token_type", JStr "Bearer")])];
            trace := [] |})
  = Rejected (NodeApiError (CaughtError no_token_received)) /\
  fst (authenticate Script replay host_message resolved_credentials None
         {| world := [Resolved (JObj [("access_token", JStr "tok123")])];
            trace := [] |})
  = Resolved (JStr "tok123").
Proof.
  repeat apply conj.
  - destruct (authenticate_cases Script replay host_message
                resolved_credentials None
                {| world := [Rejected (http_status 401)]; trace := [] |})
      as (_ & _ & _ & Hfailure & _).
    apply (Hfailure (http_status 401)); reflexivity.
  - destruct (authenticate_cases Script replay host_message
                resolved_credentials None
                {| world := [Rejected (http_status 500)]; trace := [] |})
      as (_ & _ & _ & Hfailure & _).
    apply (Hfailure (http_status 500)); reflexivity.
  - destruct (authenticate_cases Script replay host_message
                resolved_credentials None
                {| world := [Resolved (JObj [("token_type", JStr "Bearer")])];
                   trace := [] |})
      as (_ & _ & _ & _ & Hresponse & _).
    apply (Hresponse (JObj [("token_type", JStr "Bearer")])); reflexivity.
  - destruct (authenticate_cases Script replay host_message
                resolved_credentials None
                {| world := [Resolved (JObj [("access_token", JStr "tok123")])];
                   trace := [] |})
      as (_ & _ & _ & _ & Hresponse & _).
    apply (Hresponse (JObj [("access_token", JStr "tok123")])); reflexivity.
Defined.

(** A login answered with the body [null], and one refused with a status
    401 that only the response object carries. *)
Lemma authenticate_missed_cases_witness :
  fst (authenticate Script replay host_message resolved_credentials None
         {| world := [Resolved JNull]; trace := [] |})
  = Rejected (NodeApiError
      (CaughtError
         (TypeError "Cannot read properties of null (reading 'access_token')")))
  /\
  fst (authenticate Script replay host_message resolved_credentials None
         {| world :=
              [Rejected (HttpError
                 [("message", JStr "Request failed with status code 401");
                  ("response", JObj [("statusCode", JNum 401)])])];
            trace := [] |})
  = Rejected (NodeApiError (CaughtError (HttpError
      [("message", JStr "Request failed with status code 401");
       ("response", JObj [("statusCode", JNum 401)])]))).
Proof.
  split.
  - destruct (authenticate_missed_cases Script replay host_message
                resolved_credentials None
                {| world := [Resolved JNull]; trace := [] |})
      as (Hnull & _).
    destruct (Hnull JNull eq_refl eq_refl) as (Hrun & _). exact Hrun.
  - destruct (authenticate_missed_cases Script replay host_message
                resolved_credentials None
                {| world :=
                     [Rejected (HttpError
                        [("message",
                          JStr "Request failed with status code 401");
                         ("response", JObj [("statusCode", JNum 401)])])];
                   trace := [] |})
      as (_ & Hstatus & _).
    destruct (Hstatus _ eq_refl eq_refl eq_refl) as (_ & Hrun & _).
    exact Hrun.
Defined.

(** Each of the five statuses is retried after one second at attempt
    count 0; status 503 is not retried at attempt count 3; the statuses
    404 and 501 and a status given as text are not retried at all. *)
Lemma retry_policy_witness :
  Forall
    (fun code =>
       homebridgeApiRequestWithRetry Script replay no_timer host_message
         list_accessories 0
         {| world := [Rejected (http_status code); Resolved JNull];
            trace := [] |}
       = homebridgeApiRequestWithRetry Script replay no_timer host_message
           list_accessories 1
           {| world := [Resolved JNull];
              trace := [Request list_accessories; Delay 1000] |})
    [429; 500; 502; 503; 504] /\
  homebridgeApiRequestWithRetry Script replay no_timer host_message
    list_accessories 3
    {| world := [Rejected (http_status 503); Resolved JNull]; trace := [] |}
  = (Rejected (http_status 503),
     {| world := [Resolved JNull]; trace := [Request list_accessories] |}) /\
  Forall
    (fun error =>
       homebridgeApiRequestWithRetry Script replay no_timer host_message
         list_accessories 0
         {| world := [Rejected error; Resolved JNull]; trace := [] |}
       = (Rejected error,
          {| world := [Resolved JNull];
             trace := [Request list_accessories] |}))
    [http_status 404; http_status 501;
     HttpError [("statusCode", JStr "503")]].
Proof.
  assert (Hretry : forall code,
    code = 429 \/ code = 500 \/ code = 502 \/ code = 503 \/ code = 504 ->
    homebridgeApiRequestWithRetry Script replay no_timer host_message
      list_accessories 0
      {| world := [Rejected (http_status code); Resolved JNull];
         trace := [] |}
    = homebridgeApiRequestWithRetry Script replay no_timer host_message
        list_accessories 1
        {| world := [Resolved JNull];
           trace := [Request list_accessories; Delay 1000] |}).
  { intros code Hcode.
    assert (Hstatus : resolved_status host_message (http_status code)
                      = JNum code)
      by (destruct Hcode as [-> | [-> | [-> | [-> | ->]]]]; reflexivity).
    apply (proj1 (retry_policy Script replay no_timer host_message
                    list_accessories
                    {| world := [Rejected (http_status code); Resolved JNull];
                       trace := [] |})
             0%nat (http_status code)
             {| world := [Resolved JNull];
                trace := [Request list_accessories] |} code);
      [reflexivity | exact Hstatus | exact Hcode | lia]. }
  assert (Hstop : forall error retryCount,
    (forall code, resolved_status host_message error = JNum code ->
       code <> 429 /\ code <> 500 /\ code <> 502 /\ code <> 503 /\
       code <> 504) \/ (3 <= retryCount)%nat ->
    homebridgeApiRequestWithRetry Script replay no_timer host_message
      list_accessories retryCount
      {| world := [Rejected error; Resolved JNull]; trace := [] |}
    = (Rejected error,
       {| world := [Resolved JNull]; trace := [Request list_accessories] |})).
  { intros error retryCount Hwhy.
    apply (proj1 (proj2 (retry_policy Script replay no_timer host_message
                           list_accessories
                           {| world := [Rejected error; Resolved JNull];
                              trace := [] |}))
             retryCount error); [reflexivity | exact Hwhy]. }
  split; [|split].
  - repeat apply Forall_cons; try apply Forall_nil; apply Hretry; tauto.
  - apply Hstop. right. lia.
  - repeat apply Forall_cons; try apply Forall_nil; apply Hstop; left;
      intros code [= <-]; repeat split; discriminate.
Defined.

(** Three failures with status 503 and then a success: four requests, the
    delays 1000, 2000 and 4000, and the call succeeds. *)
Example retry_three_times_then_success :
  let r := homebridgeApiRequestWithRetry Script replay no_timer host_message
             list_accessories 0
             {| world := [Rejected (http_status 503);
                          Rejected (http_status 503);
                          Rejected (http_status 503);
                          Resolved (JArr [])];
                trace := [] |} in
  fst r = Resolved (JArr []) /\
  delays (trace Script (snd r)) = [1000; 2000; 4000] /\
  requests (trace Script (snd r)) = repeat list_accessories 4.
Proof. vm_compute. repeat split. Qed.

(** A fifth attempt is never made. *)
Example retry_gives_up_after_four_attempts :
  let r := homebridgeApiRequestWithRetry Script replay no_timer host_message
             list_accessories 0
             {| world := repeat (Rejected (http_status 503)) 6;
                trace := [] |} in
  fst r = Rejected (http_status 503) /\
  requests (trace Script (snd r)) = repeat list_accessories 4 /\
  List.length (world Script (snd r)) = 2%nat.
Proof. vm_compute. repeat split. Qed.

(** Status 404: the error surfaces after the first attempt. *)
Example retry_not_for_404 :
  homebridgeApiRequestWithRetry Script replay no_timer host_message
    list_accessories 0
    {| world := [Rejected (http_status 404); Resolved (JArr [])];
       trace := [] |}
  = (Rejected (http_status 404),
     {| world := [Resolved (JArr [])];
        trace := [Request list_accessories] |}).
Proof. reflexivity. Qed.

(** A refused connection is returned after the one request. *)
Lemma no_status_no_retry_witness :
  homebridgeApiRequestWithRetry Script replay no_timer host_message
    list_accessories 0 {| world := []; trace := [] |}
  = (Rejected connection_refused,
     {| world := []; trace := [Request list_accessories] |}).
Proof.
  apply (no_status_no_retry Script replay no_timer host_message
           list_accessories 0%nat {| world := []; trace := [] |}
           {| world := []; trace := [Request list_accessories] |}
           connection_refused);
    reflexivity.
Defined.

(** One failure with status 503 and then a success: the request function
    has sent two HTTP requests, not one. *)
Lemma homebridgeApiRequest_sends_each_attempt :
  let after :=
    snd (homebridgeApiRequest Script replay no_timer host_message
           manual_context GET "api/accessories" None None 0
           {| world := [Rejected (http_status 503); Resolved (JArr [])];
              trace := [] |}) in
  List.length (requests (trace Script after)) = 2%nat /\
  List.length (requests (trace Script after)) <> 1%nat.
Proof. vm_compute. split; [reflexivity | discriminate]. Qed.

(** Listing the accessories of [http://host:8581] with the token [tok123]. *)
Lemma homebridgeApiRequest_dispatch_witness :
  trace Script
    (snd (homebridgeApiRequest Script replay no_timer host_message
            manual_context GET "api/accessories" None None 0
            {| world := [Resolved (JArr [])]; trace := [] |}))
  = [Request
       {| method := GET;
          url := "http://host:8581/api/accessories";
          headers := [("Accept", "application/json");
                      ("Content-Type", "application/json");
                      ("Authorization", "Bearer tok123")];
          body := None;
          qs := None;
          returnFullResponse := false;
          ignoreHttpStatusErrors := true |}].
Proof.
  destruct (homebridgeApiRequest_dispatch Script replay no_timer host_message
              manual_context GET "api/accessories" None None 0%nat
              {| world := [Resolved (JArr [])]; trace := [] |}
              resolved_credentials (JStr "tok123") eq_refl eq_refl)
    as (_ & _ & _ & _ & _ & _ & Hone).
  apply (Hone (Resolved (JArr []))
           {| world := [];
              trace := [Request
                (request_options resolved_credentials (JStr "tok123") GET
                   "/api/accessories" None None)] |});
    [reflexivity | exact I].
Defined.

(** Three operations of which the second fails with status 404. *)
Lemma executeBatchOperations_entries_witness :
  exists results s',
    executeBatchOperations Script replay no_timer host_message manual_context
      [ {| op_method := GET; op_endpoint := "/api/accessories";
           op_body := None; op_qs := None |};
        {| op_method := GET; op_endpoint := "/api/accessories/none";
           op_body := None; op_qs := None |};
        {| op_method := GET; op_endpoint := "/api/status/uptime";
           op_body := None; op_qs := None |} ]
      {| world := [Resolved (JArr []);
                   Rejected (http_status 404);
                   Resolved (JObj [("up", JNum 7)])];
         trace := [] |}
    = (Resolved results, s') /\
    List.length results = 3%nat.
Proof.
  destruct (executeBatchOperations_entries Script replay no_timer host_message
              manual_context
              [ {| op_method := GET; op_endpoint := "/api/accessories";
                   op_body := None; op_qs := None |};
                {| op_method := GET; op_endpoint := "/api/accessories/none";
                   op_body := None; op_qs := None |};
                {| op_method := GET; op_endpoint := "/api/status/uptime";
                   op_body := None; op_qs := None |} ]
              {| world := [Resolved (JArr []);
                           Rejected (http_status 404);
                           Resolved (JObj [("up", JNum 7)])];
                 trace := [] |})
    as (results & s' & Hrun & Hlength & _).
  exists results, s'. split; [exact Hrun | exact Hlength].
Defined.

Example batch_second_of_three_fails :
  fst (executeBatchOperations Script replay no_timer host_message
         manual_context
         [ {| op_method := GET; op_endpoint := "/api/accessories";
              op_body := None; op_qs := None |};
           {| op_method := GET; op_endpoint := "/api/accessories/none";
              op_body := None; op_qs := None |};
           {| op_method := GET; op_endpoint := "/api/status/uptime";
              op_body := None; op_qs := None |} ]
         {| world := [Resolved (JArr []);
                      Rejected (http_status 404);
                      Resolved (JObj [("up", JNum 7)])];
            trace := [] |})
  = Resolved
      [ [("success", JBool true); ("data", JArr [])];
        [("success", JBool false); ("error", JStr "Not Found")];
        [("success", JBool true); ("data", JObj [("up", JNum 7)])] ].
Proof. reflexivity. Qed.

(** Pages of 100, 100 and 40 items without limit, and pages of 100 items
    with limit 150; in both cases one scripted page is left unrequested. *)
Lemma handlePaginatedRequest_pages_witness :
  (exists items s',
     handlePaginatedRequest Script replay no_timer host_message 3
       manual_context GET "/api/accessories" [] 0 0
       {| world := [Resolved (page_of 100); Resolved (page_of 100);
                    Resolved (page_of 40); Resolved (page_of 100)];
          trace := [] |}
     = Some (Resolved items, s') /\
     len items = 240 /\
     world Script s' = [Resolved (page_of 100)]) /\
  (exists items s',
     handlePaginatedRequest Script replay no_timer host_message 2
       manual_context GET "/api/accessories" [] 0 150
       {| world := [Resolved (page_of 100); Resolved (page_of 100);
                    Resolved (page_of 100)];
          trace := [] |}
     = Some (Resolved items, s') /\
     len items = 150 /\
     world Script s' = [Resolved (page_of 100)]).
Proof.
  destruct (handlePaginatedRequest_pages Script replay no_timer host_message
              manual_context GET "/api/accessories" [] 0%nat)
    as (_ & _ & _ & _ & Hthree & Htwo & _).
  split.
  - do 2 eexists. split; [|split].
    + eapply (Hthree 0%nat 0 _ _ _ _
                (repeat (JObj []) 100) (repeat (JObj []) 100)
                (repeat (JObj []) 40));
        [lia | vm_compute; reflexivity | vm_compute; reflexivity
         | vm_compute; reflexivity | reflexivity | reflexivity | reflexivity].
    + reflexivity.
    + reflexivity.
  - do 2 eexists. split; [|split].
    + eapply (Htwo 0%nat _ _ _
                (repeat (JObj []) 100) (repeat (JObj []) 100));
        [vm_compute; reflexivity | vm_compute; reflexivity
         | reflexivity | reflexivity].
    + reflexivity.
    + reflexivity.
Defined.

(** An endpoint that answers with a single object. *)
Lemma handlePaginatedRequest_single_object_witness :
  handlePaginatedRequest Script replay no_timer host_message 1
    manual_context GET "/api/status/uptime" [] 0 0
    {| world := [Resolved (JObj [("up", JNum 7)]);
                 Resolved (JObj [("up", JNum 8)])];
       trace := [] |}
  = Some (Resolved [JObj [("up", JNum 7)]],
          {| world := [Resolved (JObj [("up", JNum 8)])];
             trace := [Request
               (request_options resolved_credentials (JStr "tok123") GET
                  "/api/status/uptime" None
                  (Some [("page", JNum 1); ("limit", JNum 100)]))] |}).
Proof.
  destruct (handlePaginatedRequest_single_object Script replay no_timer
              host_message manual_context GET "/api/status/uptime" [] 0%nat
              0 0%nat) as (_ & _ & Hone).
  apply (Hone {| world := [Resolved (JObj [("up", JNum 7)]);
                           Resolved (JObj [("up", JNum 8)])];
                 trace := [] |}
           resolved_credentials (JStr "tok123") (JObj [("up", JNum 7)])
           [Resolved (JObj [("up", JNum 8)])]);
    reflexivity.
Defined.

(** ** Further instances *)

(** A credential without user name; the stored URL [/]. *)
Lemma getCredentials_first_missing_field_witness :
  getCredentials
    {| getCredentials_homebridgeApi :=
         Some {| cred_serverUrl := "http://host:8581";
                 cred_username := EmptyString;
                 cred_password := EmptyString;
                 cred_otp := None |};
       getNodeParameter := fun _ _ => JUndefined;
       getInputData := None |}
  = Rejected (NodeOperationError
      "Username is required in Homebridge credentials." None).
Proof.
  eapply (getCredentials_first_missing_field _); try reflexivity.
  discriminate.
Defined.

Lemma homebridgeApiRequest_fails_fast_witness :
  homebridgeApiRequest Script replay no_timer host_message
    tokenless_context GET "/api/accessories" None None 0
    {| world := [Resolved (JArr [])]; trace := [] |}
  = (Rejected (NodeOperationError no_access_token_message (Some 0%nat)),
     {| world := [Resolved (JArr [])]; trace := [] |}).
Proof.
  eapply (homebridgeApiRequest_fails_fast Script replay no_timer
            host_message tokenless_context GET "/api/accessories" None None
            0%nat {| world := [Resolved (JArr [])]; trace := [] |});
    reflexivity.
Defined.

(** A 404 reaches the caller as the normalised error. *)
Lemma homebridgeApiRequest_outcome_witness :
  exists message description httpCode cause,
    fst (homebridgeApiRequest Script replay no_timer host_message
           manual_context GET "/api/accessories/none" None None 0
           {| world := [Rejected (http_status 404)]; trace := [] |})
    = Rejected (NodeApiError (ObjectLiteral
        [("message", JStr message); ("description", description);
         ("httpCode", JStr httpCode); ("cause", cause)])).
Proof.
  destruct (homebridgeApiRequest_outcome Script replay no_timer host_message
              manual_context GET "/api/accessories/none" None None 0%nat
              {| world := [Rejected (http_status 404)]; trace := [] |}
              resolved_credentials (JStr "tok123") eq_refl eq_refl)
    as (s_last & _ & Hrejected).
  destruct (Hrejected _ eq_refl)
    as (message & description & httpCode & cause & Hshape).
  exists message, description, httpCode, cause.
  now rewrite <- Hshape.
Defined.

(** Four answers with status 503: 7000 milliseconds of waiting. *)
Lemma retry_waits_at_most_seven_seconds_witness :
  total_delay
    (trace Script
       (snd (homebridgeApiRequestWithRetry Script replay no_timer
               host_message list_accessories 0
               {| world := repeat (Rejected (http_status 503)) 4;
                  trace := [] |})))
  - 0 = 7000.
Proof.
  eapply (retry_waits_at_most_seven_seconds Script replay no_timer
            host_message list_accessories
            {| world := repeat (Rejected (http_status 503)) 4;
               trace := [] |});
    reflexivity.
Defined.

(** A 502 and a 504 with different messages read the same. *)
Lemma handleApiError_fixed_texts_witness :
  lookup "description"
    (payload (handleApiError host_message
                (HttpError [("statusCode", JNum 502);
                            ("message", JStr "Bad Gateway")])
                "/api/status/cpu" "GET"))
  = lookup "description"
      (payload (handleApiError host_message
                  (HttpError [("statusCode", JNum 504);
                              ("message", JStr "Gateway Timeout")])
                  "/api/users" "POST")).
Proof.
  eapply (handleApiError_fixed_texts host_message _ _ _ _ _ _ 502 504);
    try reflexivity.
  - cbn. tauto.
  - right. cbn. tauto.
Defined.

Lemma handleApiError_validation_message_witness :
  lookup "description"
    (payload (handleApiError host_message
                (HttpError [("statusCode", JNum 422);
                            ("error", JObj [("message", JStr "too short")])])
                "/api/users" "POST"))
  = JStr "The request data is invalid. too short".
Proof.
  destruct (handleApiError_validation_message host_message
              (HttpError [("statusCode", JNum 422);
                          ("error", JObj [("message", JStr "too short")])])
              "/api/users" "POST" eq_refl) as (_ & _ & Herror & _).
  exact (Herror eq_refl eq_refl).
Defined.

Lemma executeBatchOperations_without_credentials_witness :
  executeBatchOperations Script replay no_timer host_message
    no_credentials_context
    [ {| op_method := GET; op_endpoint := "/api/accessories";
         op_body := None; op_qs := None |};
      {| op_method := GET; op_endpoint := "/api/status/cpu";
         op_body := None; op_qs := None |} ]
    {| world := [Resolved (JArr [])]; trace := [] |}
  = (Resolved
       [ [("success", JBool false);
          ("error",
           JStr ("No Homebridge credentials found. "
                 ++ "Please configure credentials first."))];
         [("success", JBool false);
          ("error",
           JStr ("No Homebridge credentials found. "
                 ++ "Please configure credentials first."))] ],
     {| world := [Resolved (JArr [])]; trace := [] |}).
Proof.
  exact (executeBatchOperations_without_credentials Script replay no_timer
           host_message no_credentials_context
           [ {| op_method := GET; op_endpoint := "/api/accessories";
                op_body := None; op_qs := None |};
             {| op_method := GET; op_endpoint := "/api/status/cpu";
                op_body := None; op_qs := None |} ]
           {| world := [Resolved (JArr [])]; trace := [] |}
           (NodeOperationError
              ("No Homebridge credentials found. "
               ++ "Please configure credentials first.") None)
           eq_refl).
Defined.

Lemma handlePaginatedRequest_with_limit_witness :
  exists r,
    handlePaginatedRequest unit always_full no_clock host_message 250
      manual_context GET "/api/accessories" [] 0 250
      {| world := tt; trace := [] |}
    = Some r.
Proof.
  apply (handlePaginatedRequest_with_limit unit always_full no_clock
           host_message manual_context GET "/api/accessories" [] 0%nat 250
           {| world := tt; trace := [] |}).
  lia.
Defined.

(** Against the transport that always answers with a full page, the
    helper without limit does not return within ten turns. *)
Lemma handlePaginatedRequest_unbounded_witness :
  handlePaginatedRequest unit always_full no_clock host_message 10
    manual_context GET "/api/accessories" [] 0 0
    {| world := tt; trace := [] |}
  = None.
Proof.
  apply (handlePaginatedRequest_unbounded unit always_full no_clock
           host_message manual_context GET "/api/accessories" [] 0%nat 0).
  - lia.
  - intros page s. exists (repeat (JObj []) 100). eexists. split.
    + rewrite (homebridgeApiRequest_resolved unit always_full no_clock
                 host_message manual_context GET "/api/accessories" None
                 (Some (page_query [] page)) 0%nat s resolved_credentials
                 (JStr "tok123") eq_refl eq_refl).
      rewrite retry_equation. reflexivity.
    + reflexivity.
Defined.

(** An accessory record as a database would return it: the four fields go,
    the name and the nested values stay. *)
Lemma simplifyOutput_fields_witness :
  let item :=
    JObj [("_id", JStr "5f1"); ("name", JStr "lamp");
          ("values", JObj [("_id", JNum 7); ("On", JBool true)]);
          ("createdAt", JStr "2024-01-01"); ("updatedAt", JStr "2024-02-01");
          ("__v", JNum 0)] in
  (lookup "__v" (simplifyOutputItem item) = JUndefined /\
   lookup "_id" (simplifyOutputItem item) = JUndefined /\
   lookup "updatedAt" (simplifyOutputItem item) = JUndefined /\
   lookup "createdAt" (simplifyOutputItem item) = JUndefined) /\
  lookup "name" (simplifyOutputItem item) = JStr "lamp" /\
  lookup "values" (simplifyOutputItem item)
  = JObj [("_id", JNum 7); ("On", JBool true)].
Proof.
  cbv zeta. destruct simplifyOutput_fields as (Hremoved & _ & Hkept & _).
  split; [apply Hremoved|].
  split; (rewrite Hkept; [reflexivity | discriminate ..]).
Defined.

(** A user form with the password left empty. *)
Lemma validateRequiredParameters_first_missing_witness :
  validateRequiredParameters
    [("name", JStr "Ann"); ("admin", JBool false);
     ("password", JStr EmptyString); ("username", JNull)] 2%nat
  = Rejected (NodeOperationError
      ("Required parameter " ++ dquote ++ "password" ++ dquote
       ++ " is missing or empty.") (Some 2%nat)).
Proof.
  destruct (validateRequiredParameters_first_missing
              [("name", JStr "Ann"); ("admin", JBool false);
               ("password", JStr EmptyString); ("username", JNull)] 2%nat)
    as (_ & Hfirst & _).
  apply (Hfirst [("name", JStr "Ann"); ("admin", JBool false)] "password"
           (JStr EmptyString) [("username", JNull)]).
  - reflexivity.
  - intros kv [<- | [<- | []]]; reflexivity.
  - reflexivity.
Defined.

Lemma isValidUuid_shape_witness :
  isValidUuid "123e4567-E89B-12d3-a456-426614174000" = true /\
  String.length "123e4567-E89B-12d3-a456-426614174000" = 36%nat.
Proof.
  assert (Hvalid : isValidUuid "123e4567-E89B-12d3-a456-426614174000" = true).
  { apply (isValidUuid_shape "123e4567-E89B-12d3-a456-426614174000").
    exists "123e4567", "E89B", "12d3", "a456", "426614174000".
    repeat split. }
  split; [exact Hvalid|].
  apply (isValidUuid_shape "123e4567-E89B-12d3-a456-426614174000").
  exact Hvalid.
Defined.

(** Of three parameters only the one marked with the boolean is required. *)
Lemma generateMcpToolDefinition_required_witness :
  exists definition,
    generateMcpToolDefinition "accessories" "set" "Set a characteristic"
      [("uniqueId", JObj [("type", JStr "string"); ("required", JBool true)]);
       ("value", JObj [("type", JStr "string"); ("required", JStr "yes")]);
       ("note", JObj [("type", JStr "string")])]
    = Resolved definition /\
    get_field (lookup "inputSchema" definition) "required"
    = JArr [JStr "uniqueId"].
Proof.
  destruct (generateMcpToolDefinition_required "accessories" "set"
              "Set a characteristic"
              [("uniqueId",
                JObj [("type", JStr "string"); ("required", JBool true)]);
               ("value",
                JObj [("type", JStr "string"); ("required", JStr "yes")]);
               ("note", JObj [("type", JStr "string")])])
    as (Hresolved & _).
  destruct Hresolved as (required & Hdefinition & Hrequired & _).
  - intros key value [[= <- <-] | [[= <- <-] | [[= <- <-] | []]]];
      reflexivity.
  - eexists. split; [exact Hdefinition|]. rewrite Hrequired. reflexivity.
Defined.

(** One day, one hour, one minute and one second. *)
Lemma formatDuration_fields_witness :
  formatDuration 90061 = "1d 1h 1m 1s" /\
  duration_days 90061 * 86400 + duration_hours 90061 * 3600
  + duration_minutes 90061 * 60 + duration_secs 90061 = 90061.
Proof.
  destruct (formatDuration_fields 90061 ltac:(lia) eq_refl)
    as (Hsum & _ & _ & _ & _ & Htext).
  split; [|exact Hsum]. rewrite Htext. reflexivity.
Defined.

(** An hour and a second before now: only the second is left. *)
Lemma formatDuration_negative_witness :
  formatDuration (-3601) = "-1s".
Proof.
  destruct (formatDuration_negative (-3601) ltac:(lia)) as (Htext & _).
  rewrite Htext. reflexivity.
Defined.

Lemma addAuthToRequest_sets_authorization_witness :
  exists o,
    addAuthToRequest login_context
      {| method := GET; url := "/api/accessories";
         headers := [("Authorization", "Basic old"); ("Accept", "text/plain")];
         body := None; qs := None;
         returnFullResponse := false; ignoreHttpStatusErrors := false |}
    = Resolved o /\
    headers o = [("Authorization", "Bearer abc"); ("Accept", "text/plain")].
Proof.
  destruct (addAuthToRequest_sets_authorization login_context
              {| method := GET; url := "/api/accessories";
                 headers := [("Authorization", "Basic old");
                             ("Accept", "text/plain")];
                 body := None; qs := None;
                 returnFullResponse := false;
                 ignoreHttpStatusErrors := false |} eq_refl)
    as (Hset & _).
  destruct (Hset (JStr "abc") eq_refl) as (o & Ho & _).
  exists o. split; [exact Ho|].
  injection Ho as <-. reflexivity.
Defined.

(** The login request of an execution that has no token anywhere. *)
Lemma addAuthToRequest_login_witness :
  exists o,
    addAuthToRequest tokenless_context
      {| method := POST; url := "/api/auth/login";
         headers := [("Accept", "application/json")];
         body := None; qs := None;
         returnFullResponse := false; ignoreHttpStatusErrors := false |}
    = Resolved o /\
    headers o = [("Accept", "application/json")] /\
    body o = Some [("username", JStr "admin"); ("password", JStr "secret")].
Proof.
  destruct (addAuthToRequest_login tokenless_context
              {| method := POST; url := "/api/auth/login";
                 headers := [("Accept", "application/json")];
                 body := None; qs := None;
                 returnFullResponse := false;
                 ignoreHttpStatusErrors := false |} eq_refl)
    as (_ & Hstored).
  destruct (Hstored stored_credentials eq_refl)
    as (o & fields & Ho & Hheaders & _).
  exists o. split; [exact Ho|]. split; [exact Hheaders|].
  injection Ho as <-. reflexivity.
Defined.

(** A complete credential against a server that answers, and one without
    password. *)
Lemma testHomebridgeApiCredentials_outcome_witness :
  testHomebridgeApiCredentials Script replay host_message
    (JObj [("data",
            JObj [("serverUrl", JStr "http://host:8581/");
                  ("username", JStr "admin");
                  ("password", JStr "secret")])])
    {| world := [Resolved (JObj [])]; trace := [] |}
  = (Resolved [("status", JStr "OK");
               ("message", JStr "Connection successful")],
     {| world := [];
        trace :=
          [Request
             {| method := GET;
                url := "http://host:8581//api/auth/settings";
                headers := [("Accept", "application/json")];
                body := None;
                qs := None;
                returnFullResponse := false;
                ignoreHttpStatusErrors := false |}] |}) /\
  testHomebridgeApiCredentials Script replay host_message
    (JObj [("data",
            JObj [("serverUrl", JStr "http://host:8581/");
                  ("username", JStr "admin")])])
    {| world := [Resolved (JObj [])]; trace := [] |}
  = (Resolved [("status", JStr "Error");
               ("message", JStr "Username and password are required")],
     {| world := [Resolved (JObj [])]; trace := [] |}).
Proof.
  split.
  - destruct (testHomebridgeApiCredentials_outcome Script replay host_message
                (JObj [("data",
                        JObj [("serverUrl", JStr "http://host:8581/");
                              ("username", JStr "admin");
                              ("password", JStr "secret")])])
                {| world := [Resolved (JObj [])]; trace := [] |})
      as (status & message & Hresult & _ & _ & _ & _ & Hcomplete).
    destruct (Hcomplete eq_refl) as (Hstate & _ & Hok & _).
    destruct (Hok (JObj []) eq_refl) as (-> & ->).
    apply injective_projections; [exact Hresult | exact Hstate].
  - destruct (testHomebridgeApiCredentials_outcome Script replay host_message
                (JObj [("data",
                        JObj [("serverUrl", JStr "http://host:8581/");
                              ("username", JStr "admin")])])
                {| world := [Resolved (JObj [])]; trace := [] |})
      as (status & message & Hresult & _ & Hincomplete & _ & Hwhich & _).
    destruct (Hincomplete eq_refl) as (-> & Hstate).
    rewrite (Hwhich eq_refl eq_refl eq_refl) in Hresult.
    apply injective_projections; [exact Hresult | exact Hstate].
Defined.

(** The operation [reboot] of the resource [server] does not exist. *)
Lemma execute_item_unknown_operation_witness :
  execute_item Script replay no_timer host_message resource_names
    parse_nothing encode_plain midnight reboot_context (JStr "server") 0
    {| world := [Resolved (JObj [])]; trace := [] |}
  = (Resolved
       {| data_json :=
            [("_metadata",
              JObj [("resource", JStr "server");
                    ("operation", JStr "reboot");
                    ("executedAt", JStr "2026-01-01T00:00:00.000Z");
                    ("success", JBool true)])];
          pairedItem := 0 |},
     {| world := [Resolved (JObj [])]; trace := [] |}).
Proof.
  apply (execute_item_unknown_operation Script replay no_timer host_message
           resource_names parse_nothing encode_plain midnight reboot_context
           (JStr "server") 0%nat
           {| world := [Resolved (JObj [])]; trace := [] |}).
  right. intros t [= <-]. cbn.
  intros H. repeat (destruct H as [H | H]; [discriminate|]). exact H.
Defined.

(** Two items, the second of which fails with status 404: the first
    output is the answer of the server with the metadata of a success, the
    second carries the message of the error. *)
Lemma execute_continue_on_fail_witness :
  let s0 :=
    {| world := [Resolved (JObj [("cpu", JNum 3)]);
                 Rejected (http_status 404)];
       trace := [] |} in
  let outputs :=
    [ {| data_json :=
           [("cpu", JNum 3);
            ("_metadata",
             JObj [("resource", JStr "status");
                   ("operation", JStr "getCPU");
                   ("executedAt", JStr "2026-01-01T00:00:00.000Z");
                   ("success", JBool true)])];
         pairedItem := 0 |};
      {| data_json :=
           [("error", JStr "Not Found");
            ("_metadata",
             JObj [("resource", JStr "status");
                   ("operation", JStr "getCPU");
                   ("executedAt", JStr "2026-01-01T00:00:00.000Z");
                   ("success", JBool false)])];
         pairedItem := 1 |} ] in
  exists s',
    execute Script replay no_timer host_message resource_names parse_nothing
      encode_plain midnight status_context true s0
    = (Resolved [outputs], s') /\
    execute_run Script replay no_timer host_message resource_names
      parse_nothing encode_plain midnight status_context true
      (JStr "status") 0 s0 2 outputs s'.
Proof.
  cbv zeta.
  destruct (execute_continue_on_fail Script replay no_timer host_message
              resource_names parse_nothing encode_plain midnight
              status_context
              {| world := [Resolved (JObj [("cpu", JNum 3)]);
                           Rejected (http_status 404)];
                 trace := [] |}
              [ {| json := JObj [] |}; {| json := JObj [] |} ] eq_refl)
    as (outputs & s' & Hrun & Hrel & _).
  assert (Houtputs :
    fst (execute Script replay no_timer host_message resource_names
           parse_nothing encode_plain midnight status_context true
           {| world := [Resolved (JObj [("cpu", JNum 3)]);
                        Rejected (http_status 404)];
              trace := [] |})
    = Resolved
        [[ {| data_json :=
                [("cpu", JNum 3);
                 ("_metadata",
                  JObj [("resource", JStr "status");
                        ("operation", JStr "getCPU");
                        ("executedAt", JStr "2026-01-01T00:00:00.000Z");
                        ("success", JBool true)])];
              pairedItem := 0 |};
           {| data_json :=
                [("error", JStr "Not Found");
                 ("_metadata",
                  JObj [("resource", JStr "status");
                        ("operation", JStr "getCPU");
                        ("executedAt", JStr "2026-01-01T00:00:00.000Z");
                        ("success", JBool false)])];
              pairedItem := 1 |} ]]) by reflexivity.
  rewrite Hrun in Houtputs. cbn [fst] in Houtputs.
  injection Houtputs as Houtputs. subst outputs.
  exists s'. split; [exact Hrun | exact Hrel].
Defined.

Example execute_continue_on_fail_outputs :
  fst (execute Script replay no_timer host_message resource_names
         parse_nothing encode_plain midnight status_context true
         {| world := [Resolved (JObj [("cpu", JNum 3)]);
                      Rejected (http_status 404)];
            trace := [] |})
  = Resolved
      [[ {| data_json :=
              [("cpu", JNum 3);
               ("_metadata",
                JObj [("resource", JStr "status");
                      ("operation", JStr "getCPU");
                      ("executedAt", JStr "2026-01-01T00:00:00.000Z");
                      ("success", JBool true)])];
            pairedItem := 0 |};
         {| data_json :=
              [("error", JStr "Not Found");
               ("_metadata",
                JObj [("resource", JStr "status");
                      ("operation", JStr "getCPU");
                      ("executedAt", JStr "2026-01-01T00:00:00.000Z");
                      ("success", JBool false)])];
            pairedItem := 1 |} ]].
Proof. reflexivity. Qed.

Lemma execute_stops_at_first_failure_witness :
  let s0 :=
    {| world := [Resolved (JObj [("cpu", JNum 3)]);
                 Rejected (http_status 404);
                 Resolved (JObj [("cpu", JNum 5)])];
       trace := [] |} in
  let e :=
    handleApiError host_message (http_status 404) "/api/status/cpu" "GET" in
  let sent :=
    Request (request_options resolved_credentials (JStr "tok123") GET
               "/api/status/cpu" None None) in
  let s' :=
    {| world := [Resolved (JObj [("cpu", JNum 5)])];
       trace := [sent; sent] |} in
  exists k outputs_k s_k,
    execute Script replay no_timer host_message resource_names parse_nothing
      encode_plain midnight three_items_context false s0
    = (Rejected e, s') /\
    (k < 3)%nat /\
    execute_run Script replay no_timer host_message resource_names
      parse_nothing encode_plain midnight three_items_context false
      (JStr "status") 0 s0 k outputs_k s_k /\
    execute_item Script replay no_timer host_message resource_names
      parse_nothing encode_plain midnight three_items_context
      (JStr "status") k s_k
    = (Rejected e, s').
Proof.
  cbv zeta.
  destruct (execute_stops_at_first_failure Script replay no_timer
              host_message resource_names parse_nothing encode_plain midnight
              three_items_context
              {| world := [Resolved (JObj [("cpu", JNum 3)]);
                           Rejected (http_status 404);
                           Resolved (JObj [("cpu", JNum 5)])];
                 trace := [] |}
              [ {| json := JObj [] |}; {| json := JObj [] |};
                {| json := JObj [] |} ] eq_refl)
    as [(outputs & s' & Hrun & _)
       | (e & s' & k & outputs_k & s_k & Hrun & Hk & Hrel & _ & _ & Hfailed)].
  - exfalso.
    assert (Hrejected :
      exists e0,
        fst (execute Script replay no_timer host_message resource_names
               parse_nothing encode_plain midnight three_items_context false
               {| world := [Resolved (JObj [("cpu", JNum 3)]);
                            Rejected (http_status 404);
                            Resolved (JObj [("cpu", JNum 5)])];
                  trace := [] |})
        = Rejected e0) by (eexists; reflexivity).
    destruct Hrejected as (e0 & He0). rewrite Hrun in He0. discriminate.
  - assert (Hresult :
      execute Script replay no_timer host_message resource_names
        parse_nothing encode_plain midnight three_items_context false
        {| world := [Resolved (JObj [("cpu", JNum 3)]);
                     Rejected (http_status 404);
                     Resolved (JObj [("cpu", JNum 5)])];
           trace := [] |}
      = (Rejected
           (handleApiError host_message (http_status 404) "/api/status/cpu"
              "GET"),
         {| world := [Resolved (JObj [("cpu", JNum 5)])];
            trace :=
              [Request (request_options resolved_credentials (JStr "tok123")
                          GET "/api/status/cpu" None None);
               Request (request_options resolved_credentials (JStr "tok123")
                          GET "/api/status/cpu" None None)] |}))
      by reflexivity.
    rewrite Hrun in Hresult. injection Hresult as He Hs'. subst e s'.
    exists k, outputs_k, s_k.
    split; [exact Hrun|]. split; [exact Hk|].
    split; [exact Hrel | exact Hfailed].
Defined.

(** The first item fails: the second request is never made. *)
Example execute_stops_without_second_request :
  execute Script replay no_timer host_message resource_names parse_nothing
    encode_plain midnight status_context false
    {| world := [Rejected (http_status 404);
                 Resolved (JObj [("cpu", JNum 3)])];
       trace := [] |}
  = (Rejected
       (handleApiError host_message (http_status 404) "/api/status/cpu" "GET"),
     {| world := [Resolved (JObj [("cpu", JNum 3)])];
        trace := [Request
          (request_options resolved_credentials (JStr "tok123") GET
             "/api/status/cpu" None None)] |}).
Proof. reflexivity. Qed.

(** The run behind it: the first item resolves, the second rejects in the
    state the first left, and the third answer of the server is never
    asked for. *)
Example execute_second_of_three_fails :
  let s0 :=
    {| world := [Resolved (JObj [("cpu", JNum 3)]);
                 Rejected (http_status 404);
                 Resolved (JObj [("cpu", JNum 5)])];
       trace := [] |} in
  let sent :=
    Request (request_options resolved_credentials (JStr "tok123") GET
               "/api/status/cpu" None None) in
  let s1 :=
    {| world := [Rejected (http_status 404);
                 Resolved (JObj [("cpu", JNum 5)])];
       trace := [sent] |} in
  execute_run Script replay no_timer host_message resource_names
    parse_nothing encode_plain midnight three_items_context false
    (JStr "status") 0 s0 1
    [ {| data_json :=
           [("cpu", JNum 3);
            ("_metadata",
             JObj [("resource", JStr "status");
                   ("operation", JStr "getCPU");
                   ("executedAt", JStr "2026-01-01T00:00:00.000Z");
                   ("success", JBool true)])];
         pairedItem := 0 |} ] s1 /\
  execute_item Script replay no_timer host_message resource_names
    parse_nothing encode_plain midnight three_items_context
    (JStr "status") 1 s1
  = (Rejected
       (handleApiError host_message (http_status 404) "/api/status/cpu" "GET"),
     {| world := [Resolved (JObj [("cpu", JNum 5)])];
        trace := [sent; sent] |}).
Proof.
  cbv zeta. split; [|reflexivity].
  eapply run_item; [reflexivity | apply run_done].
Qed.
